(* ===== verification/_CoqProject ===== *)
-Q . S2P
Prelude.v
PyStr.v
PyObj.v
Json.v
JsonDecode.v
Resolver.v
Dotenv.v
DotenvParser.v
Net.v
Adapter.v
Repl.v
Transport.v
JsonError.v
Session.v
Retry.v
Program.v
