(* ===== verification/Prelude.v ===== *)
(** * simple-llm-demo: a verification development of src/main.py

    ** The program

    [src/main.py] is a command-line chat client of 162 lines.  It has
    three parts that hand data to one another:
    - the provider resolver [init_client] (lines 17-44) reads
      [MODEL_PROVIDER] and the key of the provider from the environment,
      and returns [(provider, client_or_key)], or [(None, None)] after
      printing an error;
    - the chat adapter [chat_with_deepseek] (46-77), [chat_with_openai]
      (79-96) and the dispatch [chat_with_ai] (98-107) makes one network
      call per message.  Every [Exception] it meets becomes a reply string
      that starts with the failure mark;
    - the loop [main] (109-159) runs the resolver once, then reads lines,
      strips them, stops on an exit word, skips blank lines, and prints
      the reply of [chat_with_ai] to every other line.  It stops on
      [KeyboardInterrupt]; any other [Exception] is printed and the loop
      goes on.

    ** Files, in dependency order

    - [Prelude] (this file): Python strings as lists of code points
      ([pystr]), the literal decoder [py], the sum monad of raising
      computations ([bind_exc], [try_except], notation [let!] in
      [py_scope]), the tactics [N_cases] and [eqb_false], the hint
      databases [pymodel] and [pymodel_rw], and [rtc_invariant].
    - [PyStr] (module [PyStr]): the builtins [str.strip] (CPython's
      [do_strip] with the exact [Py_UNICODE_ISSPACE] table) and
      [str.lower] (CPython's [do_lower], [lower_ucs4] and
      [handle_capital_sigma]).  The Unicode case tables are the typeclass
      [UnicodeCase], an interface whose laws hold of the real database
      (ASCII letters lower by 32, other ASCII and the CJK ideographs are
      fixed).  Every theorem holds for every instance.  [ucd_sample] is
      one instance, covering ASCII, Latin-1, basic Greek and Cyrillic;
      it runs the witnesses.
    - [PyObj] (module [PyObj]): the Python values that [json.loads]
      returns ([pyval]), the exceptions the code catches ([pyexc], with
      [is_exception] separating [Exception] from [BaseException]), and
      [str(e)] ([exc_str]; a [KeyError] shows the [repr] of its key).
      Also subscription [getitem], with CPython's result or error for
      each type, and standard output as a list of [chunk]s.
    - [Json] (module [Json]): the body that [requests.post(json=data)]
      (line 66) sends: [json.dumps] with [encode_basestring_ascii]
      (escapes, surrogate pairs above U+FFFF), the separators [', '] and
      [': '], [allow_nan=False]'s [ValueError] turned into requests'
      [InvalidJSONError] by [prepare_body], and the UTF-8 bytes.
    - [JsonDecode] (module [JsonDecode]): [json.loads] after CPython's C
      scanner ([scanstring], [_match_number], [JSONObject] with Python's
      [dict(pairs)], [JSONArray]).  It is what [response.json()] (line 69)
      runs and what the server applies to the request body.  The decoder
      runs on fuel and [loads] supplies enough.
    - [Resolver] (module [Resolver]): the environment after
      [load_dotenv()] as a [gmap] from names to values, [init_client] as
      a function that returns what it prints and its pair, and the
      contract of spec.md 4.1 as [resolve] over [provider_selection].
    - [Dotenv] (module [Dotenv]): [load_dotenv()] (line 15) of
      python-dotenv 1.x with [override=False] and [interpolate=True].
      [parse_variables] splits a value into literals and [${NAME}] or
      [${NAME:-default}] references (the [_posix_variable] pattern);
      [resolve_variables] resolves them against [os.environ] and the
      values resolved so far; [set_as_environment_variables] writes the
      result into the environment ([environ] of [Resolver]), skipping
      the keys already set.  The file is given as its bindings.
    - [DotenvParser] (module [DotenvParser]): python-dotenv's parser of
      the [.env] text ([dotenv/parser.py]): [parse_binding] with
      [export], quoted and unquoted keys and values, escapes, comments
      and line ends, an error skipping the rest of its line;
      [parse_stream] and [DotEnv.parse] ([dotenv_parse]);
      [load_dotenv_text] is [load_dotenv()] on the text found.
    - [Net] (module [Net]): the arguments and results of [requests.post]
      and of the OpenAI [create] call.  [raise_for_status] and
      [Response.json] follow requests 2.32.  [netM] is a free monad whose
      effects are the two calls, and [run_net] answers them from scripts.
    - [Adapter] (module [Adapter]): the three adapter functions as [netM]
      computations.  Their [try] blocks are [let!] chains and their
      [except] clauses are handlers applied in source order.
    - [Repl] (module [Repl]): the state of [main] (inputs to come,
      scripted network answers, output, calls made), [iteration] (one pass
      of the loop body) and the relation [step] (one rule per path), [run]
      with fuel, and [main_start] (lines 110-124).
    - [Transport] (module [Transport]): [requests.post] below its
      answer.  [sent_body] is the bytes of the body.  [post_timed] models
      [timeout=30], which is urllib3's bound on the connection and on each
      wait for response bytes; name resolution is not bounded.  A
      [transfer] is what the server side does.  [deepseek_timed] is
      [chat_with_deepseek] over a timed transfer, with the time it took.
      [body_of_bytes] is [response.json()] on the bytes of a body
      ([utf8_decode], then [loads]).
    - [JsonError] (module [JsonError]): the scanner of [JsonDecode]
      with the [JSONDecodeError] CPython raises at each failure (the
      messages and positions of [_json.c], [Extra data], the byte order
      mark), [decode_error_str] for [str(e)], and [body_of_text], the
      body [response.json()] reads from a text.
    - [Session] (module [Session]): the loop of [Repl] composed with the
      DeepSeek adapter of [Adapter], run until the first exit word.
    - [Retry] (module [Retry]): the retry loop of openai-python's
      [SyncAPIClient.request] under the default [max_retries=2] of
      [OpenAI(api_key=api_key)] (line 37): [create_retry] turns the
      attempts the server sees into the outcome [Net] gives [create];
      [openai_with_retries] is [chat_with_openai] over it.
    - [Program] (module [Program]): [program] is [python src/main.py]:
      [load_dotenv] of the shell's environment at import, then [main]
      under the [__main__] guard (lines 161-162), as [Repl.run].

    ** Theorems (claims C1-C40 of the manifest)

    - Resolver, C1-C6: [init_client] with the DeepSeek provider and a
      key (C1), a missing or empty key (C2), an unsupported name (C3);
      the result always denotes a valid selection or a failure (C4);
      refinement of [resolve] when no key is the empty string (C5); and
      the divergence for an empty key (C6).
    - DeepSeek adapter, C7-C12: one POST that carries the message, with
      timeout 30 (C7); the success path returns the content, whatever
      its type (C8); HTTP errors (C9); a missing [choices] key (C10); an
      empty [choices] list, reported as an unknown error (C11); and no
      [Exception] escaping (C12).
    - OpenAI adapter and dispatch, C13-C15.
    - Loop, C16-C22: [step] agrees with [iteration] (C16); exit words in
      any case (C17, C18); a chat turn makes one request (C19); only an
      exit word or an interrupt ends the loop (C20); at end of input the
      loop never ends (C21); by rule induction over [rtc step], every
      call answers a non-blank, non-exit line, one for one (C22).
    - JSON, C23-C24.  [json.loads] reads back what [json.dumps] wrote
      (C23).  The condition is [json_safe]: no floats, no high surrogate
      directly before a low one (the decoder would join them), and
      distinct keys.  The proof is by induction through nested lists and
      dictionaries ([pyval_ind']).  It rests on a scanner lemma per
      escape, the bit arithmetic of surrogate pairs, and [N.to_uint]
      writing no leading zero.  [prepare_body] sends the text itself,
      which is printable ASCII (C24).
    - Transport, C25-C28.  A call takes at most the resolution time plus
      30 for the connection and 30 per piece of the response (C25), but
      nothing bounds it as a whole (C26).  Timeouts become the request
      failure reply (C27).  The body sent for a message decodes to the
      [data] dictionary (C28).
    - Session, C29: the loop returns at the first exit word, for every
      fuel above the number of events before it.
    - A whole call, C30 (in [Transport]): a server that answers within
      the timeouts with the JSON bytes of a completion makes
      [chat_with_deepseek] return its content, decoded by
      [response.json()], when the last piece arrives.
    - OpenAI retries, C31-C33: at most three attempts per message (C31);
      up to two retried failures before a completion are not reported
      (C32), against the spec's "no retry"; which failure is reported
      and with what text (C33).
    - Configuration, C34-C36 and C39-C40: [load_dotenv] keeps every
      variable the shell set and gives the others the interpolated value
      of the file (C34); interpolation fixes a value without [${] and
      resolves a bare [${NAME}] (C36).  A line [KEY=value] reads back as
      its binding (C39, in [DotenvParser]), and a [.env] text with the
      DeepSeek key configures the client with it (C40).  For the whole
      program (C35, in [Program]): a key exported empty in the shell
      hides the key of [.env], and [main] stops with the message that
      asks to put it in [.env].
    - Decoding errors, C37-C38 (in [JsonError]): the decoder with
      CPython's errors agrees with [loads] on every document and never
      runs out of fuel (C37), by three lemmas: forgetting its errors
      gives [parse_value] at equal fuel, a success needs no more fuel
      than it consumed, and two units per character always suffice.  A
      body [json.loads] rejects becomes the request-failure reply with
      the [JSONDecodeError] text, line, column and position (C38).

    ** Bounds and fuel

    [run n] runs at most [n] passes.  C21 holds for every [n], so it
    shows that the loop does not terminate at end of input.  C29 gives
    the fuel that suffices when it does terminate: one pass per event
    before the exit word, plus the exit pass.  [run_net]
    needs no fuel: it recurses on the continuation of a [netM] tree.
    When a script runs out it returns [None], meaning the environment
    gave no answer.  [parse_value] runs on fuel, and [loads s] gives it
    [length s + 1].  That is enough because [size v], the fuel a value
    needs, is at most one more than the length of [encode v]
    ([size_le_encode]).  [scan_string] gets one unit per character
    left.  [loads_err] gives the decoder with errors [2 * length s + 1]:
    an input such as [[[[[] fails only at its end, after two units per
    bracket, and [parse_fuel] shows the bound is never reached.
    [DotenvParser.parse_stream] takes one step per binding and is given
    the length of the text: every binding reads at least one character
    ([parse_binding_length]), so [parse_stream_fuel] shows that more
    fuel changes nothing.
    Status codes are unbounded integers ([Z]), as in Python.
    Times are natural numbers ([N]) in the unit of [timeout].

    ** Not modelled

    - The servers' answers: they are chosen by the environment ([Net])
      or by a [transfer] ([Transport]).
    - [load_dotenv]'s search for the file ([find_dotenv], which walks up
      the directories from the caller's) and the reading of its bytes:
      the text found, if any, is the input of [DotenvParser]; the
      warnings it logs for invalid lines.
    - The exit status of the process and signals other than the
      [KeyboardInterrupt] the loop catches.
    - Terminal encoding, and [str()] of a reply that is not a string:
      such a value is kept as a [Shown] chunk.
    - The Unicode tables beyond the laws of [UnicodeCase].
    - The text of library exceptions other than those listed in [Net]
      and [Transport].
    - [float.__repr__]: a float is kept as its text.  [response.json()]
      in [Net] takes the decoded body as given; C30 starts from the
      bytes ([Transport.body_of_bytes]) and C38 from the text
      ([JsonError.body_of_text]).  Malformed UTF-8, the [RecursionError]
      of very deeply nested JSON and the [ValueError] of integers over
      4300 digits are not modelled; the decoding errors follow CPython
      3.12 (3.13 reports a trailing comma with its own message).
    - The time spent sending the request; the OpenAI client's waits
      between attempts, its retry headers and its 600-second timeout. *)

From stdpp Require Export base list gmap strings pretty.
From Stdlib Require Export NArith ZArith.

(** ** Python strings as lists of code points *)

(** A Python [str] is a sequence of Unicode code points. *)
Abbreviation pystr := (list N).

Declare Scope py_scope.
Delimit Scope py_scope with py.
Open Scope N_scope.

(** Decoding of the UTF-8 bytes of a Rocq string literal, used only to
    write the literals of the source in their own spelling. *)
Fixpoint utf8_decode (bs : list N) : pystr :=
  match bs with
  | [] => []
  | b0 :: r =>
      if b0 <? 128 then b0 :: utf8_decode r else
      match r with
      | [] => []
      | b1 :: r1 =>
          if b0 <? 224 then
            (N.land b0 31 * 64 + N.land b1 63) :: utf8_decode r1 else
          match r1 with
          | [] => []
          | b2 :: r2 =>
              if b0 <? 240 then
                (N.land b0 15 * 4096 + N.land b1 63 * 64 + N.land b2 63)
                  :: utf8_decode r2 else
              match r2 with
              | [] => []
              | b3 :: r3 =>
                  (N.land b0 7 * 262144 + N.land b1 63 * 4096
                   + N.land b2 63 * 64 + N.land b3 63) :: utf8_decode r3
              end
          end
      end
  end.

Fixpoint string_bytes (s : string) : list N :=
  match s with
  | EmptyString => []
  | String a s' => Ascii.N_of_ascii a :: string_bytes s'
  end.

(** [py "..."] is the Python string literal ["..."]. *)
Definition py (s : string) : pystr := utf8_decode (string_bytes s).
Arguments py : simpl never.

(** ** Raising computations

    Python code that may raise is modelled in the sum monad [E + A]:
    [inl e] is an exception in flight, [inr a] a normal return. *)

Definition raise {E A} (e : E) : E + A := inl e.

Definition bind_exc {E A B} (m : E + A) (k : A -> E + B) : E + B :=
  match m with
  | inl e => inl e
  | inr a => k a
  end.

(** [try m except h]: the handler [h] receives every exception of [m]; a
    handler that does not match an exception re-raises it. *)
Definition try_except {E A} (m : E + A) (h : E -> E + A) : E + A :=
  match m with
  | inl e => h e
  | inr a => inr a
  end.

Notation "'let!' x ':=' m 'in' k" := (bind_exc m (fun x => k))
  (at level 100, x name, m at level 100, k at level 200,
   format "'[' 'let!'  x  ':='  m  'in' ']' '//' k") : py_scope.

Lemma bind_exc_inr {E A B} (a : A) (k : A -> E + B) :
  bind_exc (inr a) k = k a.
Proof. reflexivity. Qed.

Lemma bind_exc_inl {E A B} (e : E) (k : A -> E + B) :
  bind_exc (inl e) k = inl e.
Proof. reflexivity. Qed.

Lemma bind_exc_inr_inv {E A B} (m : E + A) (k : A -> E + B) (b : B) :
  bind_exc m k = inr b -> exists a, m = inr a /\ k a = inr b.
Proof. destruct m; simpl; [discriminate | eauto]. Qed.

Create HintDb pymodel.
Create Rewrite HintDb pymodel_rw.
#[export] Hint Rewrite @bind_exc_inr @bind_exc_inl : pymodel_rw.

(** An invariant of a relation holds on everything reachable. *)
Lemma rtc_invariant {A} (R : relation A) (P : A -> Prop) (x y : A) :
  (forall a b, P a -> R a b -> P b) -> P x -> rtc R x y -> P y.
Proof. intros Hstep Hx Hr. induction Hr; eauto. Qed.

(** ** Proof tactics shared by the components *)

(** Split every comparison of [N] numbers in the goal and close the
    arithmetic side of each branch. *)
Ltac N_cases :=
  repeat (match goal with
          | |- context [N.leb ?a ?b] => destruct (N.leb_spec a b)
          | |- context [N.ltb ?a ?b] => destruct (N.ltb_spec a b)
          | |- context [N.eqb ?a ?b] => destruct (N.eqb_spec a b)
          end; simpl; try lia; try reflexivity).

(** Rewrite every code-point test [x =? y] that [lia] refutes from the
    context to [false], leaving the ones it cannot decide. *)
Ltac eqb_false :=
  repeat match goal with
         | |- context [N.eqb ?x ?y] =>
             replace (N.eqb x y) with false by (symmetry; apply N.eqb_neq; lia)
         end.

Example py_exit_word : py "退出" = [0x9000; 0x51FA].
Proof. reflexivity. Qed.
