(* ===== verification/PyStr.v ===== *)
(** * The Python string builtins that main.py calls

    [str.strip()] (line 130), [str.lower()] (lines 21 and 133), list
    membership [in] (line 133) and [str(int)], modelled after CPython's
    [unicodeobject.c]: [do_strip] with [Py_UNICODE_ISSPACE], and
    [do_lower] with [lower_ucs4] and [handle_capital_sigma].  The Unicode
    case tables are an interface, the class [UnicodeCase]; the theorems of
    the development hold for every instance of it that satisfies its
    laws, and [ucd_sample] is one such instance used to run examples. *)

From S2P Require Import Prelude.
Open Scope N_scope.

Module PyStr.

(** ** [str.isspace] and [str.strip] *)

(** [Py_UNICODE_ISSPACE]: the ASCII whitespace table for [c < 128], and
    [_PyUnicode_IsWhitespace] (bidirectional class WS, B, S or category
    Zs) above it. *)
Definition isspace (c : N) : bool :=
  if c <? 128 then
    ((9 <=? c) && (c <=? 13)) || ((28 <=? c) && (c <=? 32))
  else
    (c =? 0x85) || (c =? 0xA0) || (c =? 0x1680)
    || ((0x2000 <=? c) && (c <=? 0x200A))
    || (c =? 0x2028) || (c =? 0x2029) || (c =? 0x202F)
    || (c =? 0x205F) || (c =? 0x3000).

Fixpoint lstrip (s : pystr) : pystr :=
  match s with
  | [] => []
  | c :: s' => if isspace c then lstrip s' else s
  end.

Definition rstrip (s : pystr) : pystr := reverse (lstrip (reverse s)).

(** [do_strip(self, BOTHSTRIP)]: skip leading, then trailing whitespace. *)
Definition strip (s : pystr) : pystr := rstrip (lstrip s).

(** ** [str.lower] *)

(** The part of the Unicode character database that [str.lower] reads,
    with the laws of that database the development relies on. *)
Class UnicodeCase := {
  to_lower_full : N -> pystr;          (* _PyUnicode_ToLowerFull *)
  is_cased : N -> bool;                (* _PyUnicode_IsCased *)
  is_case_ignorable : N -> bool;       (* _PyUnicode_IsCaseIgnorable *)
  lower_ascii_upper : forall c, 65 <= c <= 90 -> to_lower_full c = [c + 32];
  lower_ascii_other : forall c, c < 128 -> ~ (65 <= c <= 90) ->
                        to_lower_full c = [c];
  lower_cjk : forall c, 0x4E00 <= c <= 0x9FFF -> to_lower_full c = [c]
}.

Section Lower.
Context `{UnicodeCase}.

(** The first code point of [l] that is not case-ignorable. *)
Fixpoint first_not_ignorable (l : pystr) : option N :=
  match l with
  | [] => None
  | c :: l' => if is_case_ignorable c then first_not_ignorable l' else Some c
  end.

(** [handle_capital_sigma]: [before] is the text left of the sigma,
    nearest code point first; [after] the text right of it. *)
Definition handle_capital_sigma (before after : pystr) : N :=
  let final_sigma :=
    match first_not_ignorable before with
    | None => false
    | Some c =>
        is_cased c &&
        match first_not_ignorable after with
        | None => true
        | Some d => negb (is_cased d)
        end
    end in
  if final_sigma then 0x3C2 else 0x3C3.

(** [lower_ucs4] *)
Definition lower_ucs4 (before : pystr) (c : N) (after : pystr) : pystr :=
  if c =? 0x3A3 then [handle_capital_sigma before after] else to_lower_full c.

(** [do_lower], the loop over the string; [before] is the reversed
    prefix already read. *)
Fixpoint do_lower (before s : pystr) : pystr :=
  match s with
  | [] => []
  | c :: s' => lower_ucs4 before c s' ++ do_lower (c :: before) s'
  end.

Definition lower (s : pystr) : pystr := do_lower [] s.

End Lower.

(** ** [str(int)] *)

(** The digits of a decimal numeral, most significant first. *)
Fixpoint uint_digits (d : Decimal.uint) : pystr :=
  match d with
  | Decimal.Nil => []
  | Decimal.D0 d => 48 :: uint_digits d | Decimal.D1 d => 49 :: uint_digits d
  | Decimal.D2 d => 50 :: uint_digits d | Decimal.D3 d => 51 :: uint_digits d
  | Decimal.D4 d => 52 :: uint_digits d | Decimal.D5 d => 53 :: uint_digits d
  | Decimal.D6 d => 54 :: uint_digits d | Decimal.D7 d => 55 :: uint_digits d
  | Decimal.D8 d => 56 :: uint_digits d | Decimal.D9 d => 57 :: uint_digits d
  end.

(** [int.__repr__]: a minus sign, then the digits without leading zeros. *)
Definition str_int (z : Z) : pystr :=
  (if (z <? 0)%Z then [45] else []) ++ uint_digits (N.to_uint (Z.to_N (Z.abs z))).

(** The lowercase of an ASCII code point. *)
Definition ascii_lower (c : N) : N :=
  if (65 <=? c) && (c <=? 90) then c + 32 else c.

(** A sample of the Unicode database: ASCII, Latin-1, basic Greek and
    Cyrillic, the fullwidth Latin capitals, and the three non-ASCII code
    points whose lowercase is ASCII or Latin-1 (U+0130, U+212A, U+212B);
    every other code point has no case here.  It satisfies the laws, and
    runs the examples. *)
Definition sample_lower (c : N) : pystr :=
  if (65 <=? c) && (c <=? 90) then [c + 32]
  else if (0xC0 <=? c) && (c <=? 0xDE) && negb (c =? 0xD7) then [c + 32]
  else if (0x391 <=? c) && (c <=? 0x3A9) && negb (c =? 0x3A2) then [c + 32]
  else if (0x410 <=? c) && (c <=? 0x42F) then [c + 32]
  else if (0x400 <=? c) && (c <=? 0x40F) then [c + 80]
  else if (0xFF21 <=? c) && (c <=? 0xFF3A) then [c + 32]
  else if c =? 0x130 then [0x69; 0x307]
  else if c =? 0x212A then [0x6B]
  else if c =? 0x212B then [0xE5]
  else [c].

Definition sample_cased (c : N) : bool :=
  ((65 <=? c) && (c <=? 90)) || ((97 <=? c) && (c <=? 122))
  || ((0xC0 <=? c) && (c <=? 0xFF) && negb (c =? 0xD7) && negb (c =? 0xF7))
  || ((0x391 <=? c) && (c <=? 0x3C9) && negb (c =? 0x3A2))
  || ((0x400 <=? c) && (c <=? 0x44F)).

Definition sample_case_ignorable (c : N) : bool :=
  (c =? 0x27) || (c =? 0x2E) || (c =? 0x3A) || (c =? 0x5E) || (c =? 0x60)
  || (c =? 0xB7) || ((0x300 <=? c) && (c <=? 0x36F)).

#[global] Program Instance ucd_sample : UnicodeCase := {
  to_lower_full := sample_lower;
  is_cased := sample_cased;
  is_case_ignorable := sample_case_ignorable
}.
Next Obligation. intros c Hc. unfold sample_lower. N_cases. Qed.
Next Obligation. intros c Hc Hn. unfold sample_lower. N_cases. Qed.
Next Obligation. intros c Hc. unfold sample_lower. N_cases. Qed.

(** Code points whose lowercase the laws of [UnicodeCase] fix: ASCII and
    the CJK unified ideographs. *)
Definition simple_case (c : N) : Prop := c < 128 \/ 0x4E00 <= c <= 0x9FFF.

(** ** Lemmas *)

Lemma lstrip_nil_iff (s : pystr) :
  lstrip s = [] <-> Forall (fun c => isspace c = true) s.
Proof.
  induction s as [|c s IH]; simpl; [split; auto|].
  rewrite Forall_cons, <- IH.
  destruct (isspace c); split; intros; try done; by destruct_and?.
Qed.

Lemma lstrip_head (s : pystr) c s' :
  lstrip s = c :: s' -> isspace c = false.
Proof.
  induction s as [|d s IH]; simpl; [discriminate|].
  destruct (isspace d) eqn:E; [auto | congruence].
Qed.

(** [strip s] is empty exactly when [s] is whitespace only. *)
Lemma strip_nil_iff (s : pystr) :
  strip s = [] <-> Forall (fun c => isspace c = true) s.
Proof.
  unfold strip, rstrip. split.
  - intros Hr. destruct (lstrip s) as [|c s'] eqn:E; [by apply lstrip_nil_iff|].
    exfalso. apply (f_equal reverse) in Hr.
    rewrite reverse_involutive in Hr. simpl in Hr.
    apply lstrip_nil_iff in Hr. rewrite Forall_reverse, Forall_cons in Hr.
    apply lstrip_head in E. destruct Hr; congruence.
  - intros Hs. apply lstrip_nil_iff in Hs. by rewrite Hs.
Qed.

Lemma lstrip_app_space (sp s : pystr) :
  Forall (fun c => isspace c = true) sp -> lstrip (sp ++ s) = lstrip s.
Proof. induction 1 as [|c sp Hc _ IH]; simpl; [done|]. by rewrite Hc. Qed.

Lemma lstrip_nonspace (c : N) (s : pystr) :
  isspace c = false -> lstrip (c :: s) = c :: s.
Proof. simpl. by intros ->. Qed.

Lemma rstrip_app_space (s sp : pystr) :
  Forall (fun c => isspace c = true) sp -> rstrip (s ++ sp) = rstrip s.
Proof.
  intros Hsp. unfold rstrip. rewrite reverse_app, lstrip_app_space; [done|].
  by apply Forall_reverse.
Qed.

Lemma rstrip_nonspace (s : pystr) (d : N) :
  isspace d = false -> rstrip (s ++ [d]) = s ++ [d].
Proof.
  intros Hd. unfold rstrip. rewrite reverse_app, reverse_singleton.
  change ([d] ++ reverse s) with (d :: reverse s).
  rewrite lstrip_nonspace by done. by rewrite reverse_cons, reverse_involutive.
Qed.

(** Padding with whitespace on both sides is removed by [strip]. *)
Lemma strip_pad (sp1 s sp2 : pystr) (c d : N) :
  Forall (fun c => isspace c = true) sp1 ->
  Forall (fun c => isspace c = true) sp2 ->
  isspace c = false -> isspace d = false ->
  strip (sp1 ++ (c :: s ++ [d]) ++ sp2) = c :: s ++ [d].
Proof.
  intros H1 H2 Hc Hd. unfold strip.
  rewrite lstrip_app_space by done. simpl. rewrite Hc.
  rewrite app_comm_cons, rstrip_app_space by done.
  by rewrite app_comm_cons, rstrip_nonspace.
Qed.

Lemma strip_pad1 (sp1 sp2 : pystr) (c : N) :
  Forall (fun c => isspace c = true) sp1 ->
  Forall (fun c => isspace c = true) sp2 ->
  isspace c = false -> strip (sp1 ++ [c] ++ sp2) = [c].
Proof.
  intros H1 H2 Hc. unfold strip.
  rewrite lstrip_app_space by done. simpl. rewrite Hc.
  change (c :: sp2) with ([c] ++ sp2). rewrite rstrip_app_space by done.
  by apply (rstrip_nonspace []).
Qed.

Section LowerLemmas.
Context `{UnicodeCase}.

Lemma lower_ucs4_simple before c after :
  simple_case c -> lower_ucs4 before c after = [ascii_lower c].
Proof.
  intros Hc. unfold lower_ucs4, ascii_lower.
  destruct (N.eqb_spec c 0x3A3); [destruct Hc; lia|].
  destruct (N.leb_spec 65 c), (N.leb_spec c 90); simpl.
  - apply lower_ascii_upper; lia.
  - destruct Hc; [apply lower_ascii_other; lia | apply lower_cjk; lia].
  - destruct Hc; [apply lower_ascii_other; lia | apply lower_cjk; lia].
  - lia.
Qed.

(** On ASCII and CJK text, [str.lower] is the ASCII lowercase map. *)
Lemma lower_simple (s : pystr) :
  Forall simple_case s -> lower s = map ascii_lower s.
Proof.
  unfold lower. generalize (@nil N) as before.
  induction s as [|c s IH]; intros before Hs; [done|].
  inv Hs. simpl. rewrite lower_ucs4_simple by done. simpl. f_equal. auto.
Qed.

End LowerLemmas.

End PyStr.
