(* ===== verification/PyObj.v ===== *)
(** * Python objects, exceptions and subscription

    The values main.py handles: the decoded JSON of a response and the
    dicts and lists it builds (lines 52-63, 84-91), the exceptions its
    [try] statements catch (lines 65-77, 83-96, 128-159), and the
    subscription [o[k]] of line 70, with CPython's results and errors for
    each type of [o]. *)

From S2P Require Import Prelude PyStr.
Open Scope N_scope.

Module PyObj.

(** ** Values *)

(** A Python value as [json.loads] returns it; a [float] is kept as its
    [repr], which the development never computes with. *)
#[warnings="-register-all"]
Inductive pyval :=
| VNone
| VBool (b : bool)
| VInt (z : Z)
| VFloat (r : pystr)
| VStr (s : pystr)
| VList (l : list pyval)
| VDict (d : list (pystr * pyval)).

(** The keys main.py subscripts with: string literals and [0]. *)
Inductive key :=
| KStr (s : pystr)
| KInt (z : Z).

Definition type_name (v : pyval) : pystr :=
  match v with
  | VNone => py "NoneType"
  | VBool _ => py "bool"
  | VInt _ => py "int"
  | VFloat _ => py "float"
  | VStr _ => py "str"
  | VList _ => py "list"
  | VDict _ => py "dict"
  end.

(** [d[k]] on a dict: the last binding of [k] wins, as in the dict that
    [json.loads] builds from an object with repeated names. *)
Fixpoint dict_lookup (k : pystr) (d : list (pystr * pyval)) : option pyval :=
  match d with
  | [] => None
  | (k', v) :: d' =>
      match dict_lookup k d' with
      | Some w => Some w
      | None => if decide (k' = k) then Some v else None
      end
  end.

(** ** Exceptions *)

(** The subclasses of [requests.exceptions.RequestException] that the
    model distinguishes. *)
Inductive request_error :=
| HTTPError | ConnectionError | Timeout | InvalidHeader | JSONDecodeError
| OtherRequestError.

Inductive pyexc :=
| KeyError (k : key)
| IndexError (msg : pystr)
| TypeError (msg : pystr)
| RequestException (kind : request_error) (msg : pystr)
| OtherError (name msg : pystr)      (* any other subclass of Exception *)
| EOFError (msg : pystr)
| KeyboardInterrupt
| BaseExit (name msg : pystr).       (* SystemExit, GeneratorExit *)

(** [isinstance(e, Exception)]: everything but the direct subclasses of
    [BaseException]. *)
Definition is_exception (e : pyexc) : bool :=
  match e with
  | KeyboardInterrupt | BaseExit _ _ => false
  | _ => true
  end.

Definition is_request_exception (e : pyexc) : bool :=
  match e with RequestException _ _ => true | _ => false end.

Definition is_key_error (e : pyexc) : bool :=
  match e with KeyError _ => true | _ => false end.

(** ** [repr] of a key and [str] of an exception *)

Definition hex_digit (n : N) : N := if n <? 10 then 48 + n else 87 + n.

(** The escape [unicode_repr] writes for one code point inside quotes
    [q]; non-ASCII code points are written as they are. *)
Definition repr_char (q c : N) : pystr :=
  if c =? 92 then [92; 92]
  else if c =? q then [92; q]
  else if c =? 9 then [92; 116]
  else if c =? 10 then [92; 110]
  else if c =? 13 then [92; 114]
  else if (c <? 32) || (c =? 127) then
    [92; 120; hex_digit (c / 16); hex_digit (c mod 16)]
  else [c].

(** [repr(s)]: single quotes, unless [s] has a single and no double
    quote. *)
Definition repr_str (s : pystr) : pystr :=
  let q := if bool_decide (39 ∈ s) && negb (bool_decide (34 ∈ s))
           then 34 else 39 in
  [q] ++ mjoin (map (repr_char q) s) ++ [q].

Definition repr_key (k : key) : pystr :=
  match k with
  | KStr s => repr_str s
  | KInt z => PyStr.str_int z
  end.

(** [str(e)]: a [KeyError] shows the [repr] of its key. *)
Definition exc_str (e : pyexc) : pystr :=
  match e with
  | KeyError k => repr_key k
  | IndexError m | TypeError m | RequestException _ m | OtherError _ m
  | EOFError m | BaseExit _ m => m
  | KeyboardInterrupt => []
  end.

(** ** Subscription [o[k]] *)

(** Python sequence indexing: a negative index counts from the end. *)
Definition seq_index {A} (l : list A) (z : Z) : option A :=
  let n := Z.of_nat (length l) in
  let i := if (z <? 0)%Z then (z + n)%Z else z in
  if (0 <=? i)%Z && (i <? n)%Z then l !! Z.to_nat i else None.

Definition getitem (o : pyval) (k : key) : pyexc + pyval :=
  match o, k with
  | VDict d, KStr s =>
      match dict_lookup s d with Some v => inr v | None => raise (KeyError k) end
  | VDict _, KInt _ => raise (KeyError k)
  | VList l, KInt z =>
      match seq_index l z with
      | Some v => inr v
      | None => raise (IndexError (py "list index out of range"))
      end
  | VList _, KStr _ =>
      raise (TypeError (py "list indices must be integers or slices, not str"))
  | VStr s, KInt z =>
      match seq_index s z with
      | Some c => inr (VStr [c])
      | None => raise (IndexError (py "string index out of range"))
      end
  | VStr _, KStr _ =>
      raise (TypeError (py "string indices must be integers, not 'str'"))
  | _, _ =>
      raise (TypeError ([39] ++ type_name o ++ py "' object is not subscriptable"))
  end.

(** ** Standard output *)

(** What [print] and [input(prompt)] write: text, or the [str] of a value
    that an f-string formats (line 152), kept as the value itself. *)
Inductive chunk :=
| Text (s : pystr)
| Shown (v : pyval).

(** [print(s)] for a [str] [s]. *)
Definition print (s : pystr) : list chunk := [Text (s ++ [10])].

End PyObj.
