(* ===== verification/Json.v ===== *)
(** * JSON encoding of the request body, and decoding

    [requests.post(url, json=data, ...)] (src/main.py, line 66) sends
    [complexjson.dumps(data, allow_nan=False).encode("utf-8")] (requests
    2.32, [PreparedRequest.prepare_body]).  Module [Json] models
    CPython's [json.dumps] with its defaults: [ensure_ascii=True], so
    [encode_basestring_ascii] escapes everything outside space..tilde;
    separators [', '] and [': ']; keys in insertion order.  A float
    value is kept as its [repr] text.  The decoder and the theorems
    about this encoder (the body is printable ASCII, and decoding gives
    back the value sent) are in [JsonDecode]. *)

From S2P Require Import Prelude PyStr PyObj.
Import PyObj.
Open Scope N_scope.

Module Json.

(** ** Encoder *)

(** Four lowercase hex digits, as ['\\u{0:04x}'] writes them. *)
Definition hex4 (n : N) : pystr :=
  [hex_digit (N.land (N.shiftr n 12) 15); hex_digit (N.land (N.shiftr n 8) 15);
   hex_digit (N.land (N.shiftr n 4) 15); hex_digit (N.land n 15)].

(** The text [encode_basestring_ascii] writes for one code point:
    [ESCAPE_DCT] for the backslash, the quote and the five named control
    characters; the code point itself from space to tilde; [\uXXXX]
    below U+10000; a surrogate pair above. *)
Definition escape_char (c : N) : pystr :=
  if c =? 92 then [92; 92]
  else if c =? 34 then [92; 34]
  else if c =? 8 then [92; 98]
  else if c =? 12 then [92; 102]
  else if c =? 10 then [92; 110]
  else if c =? 13 then [92; 114]
  else if c =? 9 then [92; 116]
  else if (32 <=? c) && (c <=? 126) then [c]
  else if c <? 0x10000 then [92; 117] ++ hex4 c
  else
    let n := c - 0x10000 in
    [92; 117] ++ hex4 (N.lor 0xD800 (N.land (N.shiftr n 10) 0x3FF))
    ++ [92; 117] ++ hex4 (N.lor 0xDC00 (N.land n 0x3FF)).

Definition encode_basestring_ascii (s : pystr) : pystr :=
  [34] ++ mjoin (map escape_char s) ++ [34].

(** [float.__repr__] of a float kept as its text, with [allow_nan]'s
    spellings of the three special values. *)
Definition float_text (r : pystr) : pystr :=
  if bool_decide (r = py "nan") then py "NaN"
  else if bool_decide (r = py "inf") then py "Infinity"
  else if bool_decide (r = py "-inf") then py "-Infinity"
  else r.

(** [', '.join(parts)] *)
Fixpoint join_items (parts : list pystr) : pystr :=
  match parts with
  | [] => []
  | [p] => p
  | p :: ps => p ++ [44; 32] ++ join_items ps
  end.

(** The text [json.dumps] produces, when it does not raise. *)
Fixpoint encode (v : pyval) : pystr :=
  match v with
  | VNone => py "null"
  | VBool true => py "true"
  | VBool false => py "false"
  | VInt z => PyStr.str_int z
  | VFloat r => float_text r
  | VStr s => encode_basestring_ascii s
  | VList l => [91] ++ join_items (map encode l) ++ [93]
  | VDict d =>
      [123] ++ join_items (map (fun kv => encode_basestring_ascii kv.1 ++ [58; 32]
                                           ++ encode kv.2) d) ++ [125]
  end.

(** The first float, in the order [dumps] visits values, that
    [allow_nan=False] rejects. *)
Fixpoint first_bad_float (v : pyval) : option pystr :=
  match v with
  | VFloat r =>
      if bool_decide (r ∈ [py "nan"; py "inf"; py "-inf"]) then Some r else None
  | VList l => foldr (fun x acc => match first_bad_float x with
                                   | Some r => Some r | None => acc end) None l
  | VDict d => foldr (fun kv acc => match first_bad_float kv.2 with
                                    | Some r => Some r | None => acc end) None d
  | _ => None
  end.

(** [json.dumps(v, allow_nan=False)] *)
Definition dumps (v : pyval) : pyexc + pystr :=
  match first_bad_float v with
  | Some r => raise (OtherError (py "ValueError")
                       (py "Out of range float values are not JSON compliant: " ++ r))
  | None => inr (encode v)
  end.

(** [str.encode('utf-8')] of a string without surrogates. *)
Definition utf8_char (c : N) : list N :=
  if c <? 0x80 then [c]
  else if c <? 0x800 then [0xC0 + N.shiftr c 6; 0x80 + N.land c 63]
  else if c <? 0x10000 then
    [0xE0 + N.shiftr c 12; 0x80 + N.land (N.shiftr c 6) 63; 0x80 + N.land c 63]
  else [0xF0 + N.shiftr c 18; 0x80 + N.land (N.shiftr c 12) 63;
        0x80 + N.land (N.shiftr c 6) 63; 0x80 + N.land c 63].

Definition utf8_encode (s : pystr) : list N := mjoin (map utf8_char s).

(** [PreparedRequest.prepare_body] for [json=v]: a [ValueError] of
    [dumps] becomes [InvalidJSONError], a [RequestException]. *)
Definition prepare_body (v : pyval) : pyexc + list N :=
  match dumps v with
  | inl e => raise (RequestException OtherRequestError (exc_str e))
  | inr text => inr (utf8_encode text)
  end.

End Json.
