(* ===== verification/JsonDecode.v ===== *)
(** * Decoding the request body: CPython's [json.loads]

    The decoder a server applies to the body that [requests] sends
    (module [JsonDecode]), after CPython's C scanner
    ([Modules/_json.c]: [scan_once_unicode], [scanstring_unicode],
    [_match_number_unicode]) and [json.decoder.JSONObject]/[JSONArray].
    A number with a fraction or an exponent is kept as its text (the
    [repr] that [float()] would normalize is not modelled).  Parsing
    runs on fuel; [loads] gives it the length of the input plus one,
    which is always enough because every call consumes input.  The
    round-trip theorems of the encoder of [Json] are here. *)

From Stdlib Require Import DecimalFacts DecimalN.
From S2P Require Import Prelude PyStr PyObj Json.
Import PyObj Json.
Open Scope N_scope.

Module JsonDecode.

(** ** Scanner *)

(** [WHITESPACE]: space, tab, line feed, carriage return. *)
Definition is_ws (c : N) : bool := (c =? 32) || (c =? 9) || (c =? 10) || (c =? 13).

Fixpoint skip_ws (s : pystr) : pystr :=
  match s with
  | c :: s' => if is_ws c then skip_ws s' else s
  | [] => []
  end.

Definition hex_val (c : N) : option N :=
  if (48 <=? c) && (c <=? 57) then Some (c - 48)
  else if (97 <=? c) && (c <=? 102) then Some (c - 87)
  else if (65 <=? c) && (c <=? 70) then Some (c - 55)
  else None.

(** Four hex digits after [\u]; anything else is [Invalid \uXXXX escape]. *)
Definition parse_hex4 (s : pystr) : option (N * pystr) :=
  match s with
  | a :: b :: c :: d :: s' =>
      match hex_val a, hex_val b, hex_val c, hex_val d with
      | Some w, Some x, Some y, Some z => Some (w * 4096 + x * 256 + y * 16 + z, s')
      | _, _, _, _ => None
      end
  | _ => None
  end.

(** The one-character escapes of [scanstring]. *)
Definition simple_escape (e : N) : option N :=
  if e =? 34 then Some 34 else if e =? 92 then Some 92
  else if e =? 47 then Some 47 else if e =? 98 then Some 8
  else if e =? 102 then Some 12 else if e =? 110 then Some 10
  else if e =? 114 then Some 13 else if e =? 116 then Some 9
  else None.

(** [idx <= end_idx && PyUnicode_READ(kind, str, idx) == c] *)
Definition head_is (c : N) (s : pystr) : bool :=
  match s with d :: _ => d =? c | [] => false end.

Definition is_high (c : N) : bool := (0xD800 <=? c) && (c <=? 0xDBFF).
Definition is_low (c : N) : bool := (0xDC00 <=? c) && (c <=? 0xDFFF).

(** After [\uXXXX] gave a high surrogate [u]: a following [\uXXXX] that
    is a low surrogate is joined to it ([Py_UNICODE_JOIN_SURROGATES]);
    any other escape is left for the next step. *)
Definition join_surrogate (u : N) (s : pystr) : option (N * pystr) :=
  if is_high u then
    if head_is 92 s && head_is 117 (tail s) then
      match parse_hex4 (tail (tail s)) with
      | None => None
      | Some (u2, s2) =>
          if is_low u2 then
            Some (N.lor (N.shiftl (N.land u 0x3FF) 10) (N.land u2 0x3FF) + 0x10000, s2)
          else Some (u, s)
      end
    else Some (u, s)
  else Some (u, s).

(** [scanstring]: the text after the opening quote up to the closing
    one, in strict mode (a raw control character is an error). *)
Fixpoint scan_string (fuel : nat) (s : pystr) : option (pystr * pystr) :=
  match fuel with
  | O => None
  | S f =>
      match s with
      | [] => None
      | c :: s1 =>
          if c =? 34 then Some ([], s1)
          else if c =? 92 then
            match s1 with
            | [] => None
            | e :: s2 =>
                if e =? 117 then
                  match parse_hex4 s2 with
                  | None => None
                  | Some (u, s3) =>
                      match join_surrogate u s3 with
                      | None => None
                      | Some (cp, s4) =>
                          match scan_string f s4 with
                          | Some (t, r) => Some (cp :: t, r)
                          | None => None
                          end
                      end
                  end
                else
                  match simple_escape e with
                  | Some ch =>
                      match scan_string f s2 with
                      | Some (t, r) => Some (ch :: t, r)
                      | None => None
                      end
                  | None => None
                  end
            end
          else if c <? 32 then None
          else
            match scan_string f s1 with
            | Some (t, r) => Some (c :: t, r)
            | None => None
            end
      end
  end.

(** ** Numbers *)

Definition is_digit (c : N) : bool := (48 <=? c) && (c <=? 57).

Fixpoint take_digits (s : pystr) : pystr * pystr :=
  match s with
  | c :: s' =>
      if is_digit c then let '(d, r) := take_digits s' in (c :: d, r) else ([], s)
  | [] => ([], [])
  end.

Fixpoint uint_of_digits (ds : pystr) : Decimal.uint :=
  match ds with
  | [] => Decimal.Nil
  | c :: ds' =>
      let d := uint_of_digits ds' in
      if c =? 48 then Decimal.D0 d else if c =? 49 then Decimal.D1 d
      else if c =? 50 then Decimal.D2 d else if c =? 51 then Decimal.D3 d
      else if c =? 52 then Decimal.D4 d else if c =? 53 then Decimal.D5 d
      else if c =? 54 then Decimal.D6 d else if c =? 55 then Decimal.D7 d
      else if c =? 56 then Decimal.D8 d else Decimal.D9 d
  end.

(** The fraction [(\.\d+)?] *)
Definition take_fraction (s : pystr) : pystr * pystr :=
  match s with
  | p :: d :: _ =>
      if (p =? 46) && is_digit d then let '(f, r) := take_digits (tail s) in (46 :: f, r)
      else ([], s)
  | _ => ([], s)
  end.

(** The exponent [([eE][-+]?\d+)?]; without digits it is not taken. *)
Definition take_exponent (s : pystr) : pystr * pystr :=
  match s with
  | e :: s1 =>
      if (e =? 101) || (e =? 69) then
        let '(sg, s2) := match s1 with
                         | c :: s2 => if (c =? 43) || (c =? 45) then ([c], s2) else ([], s1)
                         | [] => ([], s1)
                         end in
        match take_digits s2 with
        | ([], _) => ([], s)
        | (ds, r) => (e :: sg ++ ds, r)
        end
      else ([], s)
  | [] => ([], [])
  end.

(** [_match_number_unicode]: an optional minus, [0] or a non-zero digit
    and digits, an optional fraction, an optional exponent; an integer when there is neither fraction nor exponent. *)
Definition parse_number (s : pystr) : option (pyval * pystr) :=
  let '(neg, s1) := if head_is 45 s then (true, tail s) else (false, s) in
  let int_part :=
    match s1 with
    | c :: s2 =>
        if c =? 48 then Some ([48], s2)
        else if (49 <=? c) && (c <=? 57) then Some (take_digits s1) else None
    | [] => None
    end in
  match int_part with
  | None => None
  | Some (ds, s2) =>
      let '(frac, s3) := take_fraction s2 in
      let '(ex, s4) := take_exponent s3 in
      match frac, ex with
      | [], [] =>
          let n := Z.of_N (N.of_uint (uint_of_digits ds)) in
          Some (VInt (if neg then (- n)%Z else n), s2)
      | _, _ => Some (VFloat ((if neg then [45] else []) ++ ds ++ frac ++ ex), s4)
      end
  end.

Fixpoint strip_prefix (p s : pystr) : option pystr :=
  match p, s with
  | [], _ => Some s
  | c :: p', d :: s' => if c =? d then strip_prefix p' s' else None
  | _ :: _, [] => None
  end.

(** The constants of [scan_once], then a number. *)
Definition parse_literal (s : pystr) : option (pyval * pystr) :=
  match strip_prefix (py "null") s with Some r => Some (VNone, r) | None =>
  match strip_prefix (py "true") s with Some r => Some (VBool true, r) | None =>
  match strip_prefix (py "false") s with Some r => Some (VBool false, r) | None =>
  match strip_prefix (py "NaN") s with Some r => Some (VFloat (py "nan"), r) | None =>
  match strip_prefix (py "Infinity") s with Some r => Some (VFloat (py "inf"), r) | None =>
  match strip_prefix (py "-Infinity") s with Some r => Some (VFloat (py "-inf"), r) | None =>
  parse_number s
  end end end end end end.

(** [dict(pairs)]: a repeated key keeps its first place and its last
    value. *)
Fixpoint dict_set (k : pystr) (v : pyval) (d : list (pystr * pyval))
    : list (pystr * pyval) :=
  match d with
  | [] => [(k, v)]
  | (k', v') :: d' => if decide (k' = k) then (k, v) :: d' else (k', v') :: dict_set k v d'
  end.

Definition dict_of_pairs (ps : list (pystr * pyval)) : list (pystr * pyval) :=
  foldl (fun d kv => dict_set kv.1 kv.2 d) [] ps.

(** ** Values *)

Fixpoint parse_value (fuel : nat) (s : pystr) {struct fuel} : option (pyval * pystr) :=
  match fuel with
  | O => None
  | S f =>
      match skip_ws s with
      | [] => None
      | c :: s1 =>
          if c =? 34 then
            match scan_string (S (length s1)) s1 with
            | Some (t, r) => Some (VStr t, r)
            | None => None
            end
          else if c =? 123 then
            let s2 := skip_ws s1 in
            if head_is 125 s2 then Some (VDict [], tail s2) else parse_members f s2 []
          else if c =? 91 then
            let s2 := skip_ws s1 in
            if head_is 93 s2 then Some (VList [], tail s2) else parse_elems f s2 []
          else parse_literal (c :: s1)
      end
  end
(** [JSONArray], after the first value's position. *)
with parse_elems (fuel : nat) (s : pystr) (acc : list pyval) {struct fuel}
    : option (pyval * pystr) :=
  match fuel with
  | O => None
  | S f =>
      match parse_value f s with
      | None => None
      | Some (v, s1) =>
          let s2 := skip_ws s1 in
          if head_is 93 s2 then Some (VList (acc ++ [v]), tail s2)
          else if head_is 44 s2 then parse_elems f (tail s2) (acc ++ [v])
          else None
      end
  end
(** [JSONObject], at a property name. *)
with parse_members (fuel : nat) (s : pystr) (acc : list (pystr * pyval))
    {struct fuel} : option (pyval * pystr) :=
  match fuel with
  | O => None
  | S f =>
      let s0 := skip_ws s in
      if head_is 34 s0 then
        let s1 := tail s0 in
        match scan_string (S (length s1)) s1 with
        | None => None
        | Some (k, s2) =>
            let s3 := skip_ws s2 in
            if head_is 58 s3 then
              match parse_value f (tail s3) with
              | None => None
              | Some (v, s4) =>
                  let s5 := skip_ws s4 in
                  if head_is 125 s5 then
                    Some (VDict (dict_of_pairs (acc ++ [(k, v)])), tail s5)
                  else if head_is 44 s5 then parse_members f (tail s5) (acc ++ [(k, v)])
                  else None
              end
            else None
        end
      else None
  end.

(** [json.loads(s)]: a value, then only whitespace ("Extra data"
    otherwise). *)
Definition loads (s : pystr) : option pyval :=
  match parse_value (S (length s)) s with
  | Some (v, r) => if bool_decide (skip_ws r = []) then Some v else None
  | None => None
  end.

(** ** What survives a round trip *)

(** No high surrogate directly followed by a low one: the decoder
    would join the two escapes into one code point. *)
Fixpoint no_joined_pair (s : pystr) : bool :=
  match s with
  | a :: ((b :: _) as s') => negb (is_high a && is_low b) && no_joined_pair s'
  | _ => true
  end.

Definition str_safe (s : pystr) : bool :=
  forallb (fun c => c <=? 0x10FFFF) s && no_joined_pair s.

(** No floats (their text is not modelled), safe strings, and dictionary
    keys without repetition. *)
Fixpoint json_safe (v : pyval) : bool :=
  match v with
  | VFloat _ => false
  | VStr s => str_safe s
  | VList l => forallb json_safe l
  | VDict d =>
      bool_decide (NoDup d.*1) && forallb (fun kv => str_safe kv.1 && json_safe kv.2) d
  | _ => true
  end.

Fixpoint float_free (v : pyval) : bool :=
  match v with
  | VFloat _ => false
  | VList l => forallb float_free l
  | VDict d => forallb (fun kv => float_free kv.2) d
  | _ => true
  end.

(** The fuel [parse_value] spends on a value. *)
Fixpoint size (v : pyval) : nat :=
  match v with
  | VList l => S (sum_list_with (fun x => S (size x)) l)
  | VDict d => S (sum_list_with (fun kv => S (size kv.2)) d)
  | _ => 1%nat
  end.

(** What may follow a value in a document [encode] writes. *)
Definition delim (rest : pystr) : bool :=
  match rest with
  | [] => true
  | c :: _ => (c =? 44) || (c =? 93) || (c =? 125)
  end.

(** The decoder reads [v] back from its text, whatever may follow it. *)
Definition reads_back (v : pyval) : Prop :=
  forall fuel rest, (size v <= fuel)%nat -> delim rest = true ->
  parse_value fuel (encode v ++ rest) = Some (v, rest).

(** A request body with a surrogate pair, a lone high surrogate, control
    characters, a negative integer and empty containers. *)
Definition sample_payload : pyval :=
  VDict [(py "model", VStr (py "deepseek-chat"));
         (py "messages", VList [VDict [(py "role", VStr (py "user"));
                                       (py "content", VStr [104; 105; 0x1F600; 10; 34; 92;
                                                            127; 233; 1; 0xD800; 65])]]);
         (py "stream", VBool false);
         (py "n", VList [VInt (-120)%Z; VInt 0%Z; VNone; VList []; VDict []])].

(** Induction on values through their lists and dictionaries. *)
Section pyval_ind'.
Variable P : pyval -> Prop.
Hypothesis HNone : P VNone.
Hypothesis HBool : forall b, P (VBool b).
Hypothesis HInt : forall z, P (VInt z).
Hypothesis HFloat : forall r, P (VFloat r).
Hypothesis HStr : forall s, P (VStr s).
Hypothesis HList : forall l, Forall P l -> P (VList l).
Hypothesis HDict : forall d, Forall (fun kv => P kv.2) d -> P (VDict d).

Fixpoint pyval_ind' (v : pyval) : P v :=
  match v with
  | VNone => HNone
  | VBool b => HBool b
  | VInt z => HInt z
  | VFloat r => HFloat r
  | VStr s => HStr s
  | VList l =>
      HList l ((fix go (l : list pyval) : Forall P l :=
                  match l with
                  | [] => Forall_nil_2 _
                  | x :: l' => Forall_cons_2 _ _ _ (pyval_ind' x) (go l')
                  end) l)
  | VDict d =>
      HDict d ((fix go (d : list (pystr * pyval)) : Forall (fun kv => P kv.2) d :=
                  match d with
                  | [] => Forall_nil_2 _
                  | kv :: d' => Forall_cons_2 _ _ _ (pyval_ind' kv.2) (go d')
                  end) d)
  end.
End pyval_ind'.

(** ** The scanner reads what the encoder writes *)

Lemma hex_val_digit (d : N) : d < 16 -> hex_val (hex_digit d) = Some d.
Proof.
  intros Hd.
  assert (d = 0 \/ d = 1 \/ d = 2 \/ d = 3 \/ d = 4 \/ d = 5 \/ d = 6 \/ d = 7 \/
          d = 8 \/ d = 9 \/ d = 10 \/ d = 11 \/ d = 12 \/ d = 13 \/ d = 14 \/ d = 15)
    as Hcases by lia.
  repeat destruct Hcases as [-> | Hcases]; subst; reflexivity.
Qed.

Lemma land_15_lt (n : N) : N.land n 15 < 16.
Proof. change 15 with (N.ones 4). rewrite N.land_ones. apply N.mod_lt. lia. Qed.

Lemma parse_hex4_hex4 (c : N) (t : pystr) :
  c < 0x10000 -> parse_hex4 (hex4 c ++ t) = Some (c, t).
Proof.
  intros Hc. unfold hex4, parse_hex4. simpl.
  rewrite !hex_val_digit by apply land_15_lt.
  f_equal. f_equal. change 15 with (N.ones 4).
  rewrite !N.land_ones, !N.shiftr_div_pow2.
  change (2 ^ 12) with (16 * 16 * 16); change (2 ^ 8) with (16 * 16);
  change (2 ^ 4) with 16. rewrite <- !N.Div0.div_div.
  pose proof (N.div_mod c 16). pose proof (N.div_mod (c / 16) 16).
  pose proof (N.div_mod (c / 16 / 16) 16).
  rewrite (N.mod_small (c / 16 / 16 / 16)) by (rewrite !N.Div0.div_div; apply N.Div0.div_lt_upper_bound; lia).
  lia.
Qed.

Lemma lor_shiftl_small (a y k : N) :
  y < 2 ^ k -> N.lor (N.shiftl a k) y = N.shiftl a k + y.
Proof.
  intros Hy.
  assert (Hdis : N.land (N.shiftl a k) y = 0).
  { rewrite <- (N.mod_small y (2 ^ k)), <- N.land_ones by assumption.
    rewrite (N.land_comm y), N.land_assoc, N.land_ones, N.shiftl_mul_pow2,
      N.Div0.mod_mul. apply N.land_0_l. }
  rewrite <- N.lxor_lor, N.add_nocarry_lxor by exact Hdis. reflexivity.
Qed.

Lemma land_3FF (x : N) : N.land x 0x3FF = x mod 1024.
Proof. change 0x3FF with (N.ones 10). apply N.land_ones. Qed.

Lemma mod_1024_shift (k x : N) : x < 1024 -> (k * 1024 + x) mod 1024 = x.
Proof.
  intros Hx. rewrite N.add_comm, N.Div0.mod_add. apply N.mod_small, Hx.
Qed.

(** The two halves [encode_basestring_ascii] writes above U+FFFF. *)
Lemma split_high (c : N) :
  0x10000 <= c <= 0x10FFFF ->
  N.lor 0xD800 (N.land (N.shiftr (c - 0x10000) 10) 0x3FF) = 0xD800 + (c - 0x10000) / 1024.
Proof.
  intros Hc. rewrite land_3FF, N.shiftr_div_pow2.
  change 0xD800 with (N.shiftl 54 10). rewrite lor_shiftl_small.
  - change (2 ^ 10) with 1024.
    rewrite N.mod_small by (apply N.Div0.div_lt_upper_bound; lia). reflexivity.
  - apply N.mod_lt. lia.
Qed.

Lemma split_low (c : N) :
  N.lor 0xDC00 (N.land (c - 0x10000) 0x3FF) = 0xDC00 + (c - 0x10000) mod 1024.
Proof.
  rewrite land_3FF. change 0xDC00 with (N.shiftl 55 10).
  rewrite lor_shiftl_small by (apply N.mod_lt; lia). reflexivity.
Qed.

(** [Py_UNICODE_JOIN_SURROGATES] undoes the split. *)
Lemma join_split (c : N) :
  0x10000 <= c <= 0x10FFFF ->
  N.lor (N.shiftl (N.land (0xD800 + (c - 0x10000) / 1024) 0x3FF) 10)
        (N.land (0xDC00 + (c - 0x10000) mod 1024) 0x3FF) + 0x10000 = c.
Proof.
  intros Hc. rewrite !land_3FF.
  change 0xD800 with (54 * 1024). change 0xDC00 with (55 * 1024).
  assert (Hq : (c - 0x10000) / 1024 < 1024) by (apply N.Div0.div_lt_upper_bound; lia).
  pose proof (N.mod_lt (c - 0x10000) 1024 ltac:(lia)) as Hr.
  rewrite !mod_1024_shift by assumption.
  rewrite lor_shiftl_small by exact Hr. rewrite N.shiftl_mul_pow2.
  change (2 ^ 10) with 1024. pose proof (N.div_mod (c - 0x10000) 1024). lia.
Qed.

Lemma join_surrogate_not_high (u : N) (t : pystr) :
  is_high u = false -> join_surrogate u t = Some (u, t).
Proof. intros H. unfold join_surrogate. rewrite H. reflexivity. Qed.

(** One code point: the scanner reads back [escape_char c] and goes on
    with the rest; a lone high surrogate needs the rest not to be taken
    for its other half. *)
Lemma scan_escape_char (f : nat) (c : N) (t : pystr) :
  c <= 0x10FFFF ->
  (is_high c = true -> join_surrogate c t = Some (c, t)) ->
  scan_string (S f) (escape_char c ++ t) =
    match scan_string f t with Some (x, r) => Some (c :: x, r) | None => None end.
Proof.
  intros Hmax Hjoin. unfold escape_char.
  destruct (N.eqb_spec c 92) as [-> | H92]; [reflexivity |].
  destruct (N.eqb_spec c 34) as [-> | H34]; [reflexivity |].
  destruct (N.eqb_spec c 8) as [-> | H8]; [reflexivity |].
  destruct (N.eqb_spec c 12) as [-> | H12]; [reflexivity |].
  destruct (N.eqb_spec c 10) as [-> | H10]; [reflexivity |].
  destruct (N.eqb_spec c 13) as [-> | H13]; [reflexivity |].
  destruct (N.eqb_spec c 9) as [-> | H9]; [reflexivity |].
  destruct ((32 <=? c) && (c <=? 126)) eqn:Hpr.
  { apply andb_true_iff in Hpr as [Hlo _]. apply N.leb_le in Hlo.
    cbn [app scan_string]. apply N.eqb_neq in H34, H92. rewrite H34, H92.
    replace (c <? 32) with false by (symmetry; apply N.ltb_ge; lia). reflexivity. }
  destruct (N.ltb_spec c 0x10000) as [Hbmp | Hsup].
  { cbn [app scan_string]. rewrite parse_hex4_hex4 by exact Hbmp.
    destruct (is_high c) eqn:Hh; [rewrite Hjoin by reflexivity
                                  | rewrite join_surrogate_not_high by exact Hh];
      reflexivity. }
  assert (Hq : (c - 0x10000) / 1024 < 1024) by (apply N.Div0.div_lt_upper_bound; lia).
  pose proof (N.mod_lt (c - 0x10000) 1024 ltac:(lia)) as Hr.
  rewrite split_high, split_low by lia. rewrite <- !app_assoc.
  set (q := (c - 0x10000) / 1024) in *. set (r := (c - 0x10000) mod 1024) in *.
  cbn [app scan_string]. rewrite parse_hex4_hex4 by lia.
  unfold join_surrogate.
  replace (is_high (0xD800 + q)) with true
    by (symmetry; unfold is_high; apply andb_true_iff; split; apply N.leb_le; lia).
  cbn [app head_is tail andb N.eqb Pos.eqb]. rewrite parse_hex4_hex4 by lia.
  replace (is_low (0xDC00 + r)) with true
    by (symmetry; unfold is_low; apply andb_true_iff; split; apply N.leb_le; lia).
  unfold q, r. rewrite join_split by lia. reflexivity.
Qed.

Lemma high_not_low (c : N) : is_high c = true -> is_low c = false.
Proof.
  unfold is_high, is_low. intros [H1 H2]%andb_true_iff.
  apply N.leb_le in H1, H2. apply andb_false_iff. left. apply N.leb_gt. lia.
Qed.

(** The escape of a code point that is not a low surrogate is never
    taken for the second half of a pair. *)
Lemma join_surrogate_next (u d : N) (t : pystr) :
  d <= 0x10FFFF -> is_low d = false ->
  join_surrogate u (escape_char d ++ t) = Some (u, escape_char d ++ t).
Proof.
  intros Hmax Hlow. unfold join_surrogate. destruct (is_high u); [| reflexivity].
  unfold escape_char.
  destruct (N.eqb_spec d 92) as [-> | H92]; [reflexivity |].
  destruct (N.eqb_spec d 34) as [-> | H34]; [reflexivity |].
  destruct (N.eqb_spec d 8) as [-> | H8]; [reflexivity |].
  destruct (N.eqb_spec d 12) as [-> | H12]; [reflexivity |].
  destruct (N.eqb_spec d 10) as [-> | H10]; [reflexivity |].
  destruct (N.eqb_spec d 13) as [-> | H13]; [reflexivity |].
  destruct (N.eqb_spec d 9) as [-> | H9]; [reflexivity |].
  destruct ((32 <=? d) && (d <=? 126)).
  { cbn. apply N.eqb_neq in H92. rewrite H92. reflexivity. }
  destruct (N.ltb_spec d 0x10000) as [Hbmp | Hsup].
  { cbn [app head_is tail andb N.eqb Pos.eqb].
    rewrite parse_hex4_hex4, Hlow by exact Hbmp. reflexivity. }
  assert (Hq : (d - 0x10000) / 1024 < 1024) by (apply N.Div0.div_lt_upper_bound; lia).
  rewrite split_high by lia. set (q := (d - 0x10000) / 1024) in *.
  rewrite <- !app_assoc. cbn [app head_is tail andb N.eqb Pos.eqb].
  rewrite parse_hex4_hex4 by lia.
  replace (is_low (0xD800 + q)) with false; [reflexivity |].
  symmetry. apply high_not_low. unfold is_high. apply andb_true_iff. split; apply N.leb_le; lia.
Qed.

Lemma join_surrogate_quote (u : N) (rest : pystr) :
  join_surrogate u (34 :: rest) = Some (u, 34 :: rest).
Proof. unfold join_surrogate. destruct (is_high u); reflexivity. Qed.

Lemma str_safe_cons (c : N) (s : pystr) :
  str_safe (c :: s) = true ->
  c <= 0x10FFFF /\ str_safe s = true /\
  (forall d s', s = d :: s' -> is_high c = true -> is_low d = false).
Proof.
  unfold str_safe. intros [Hall Hpair]%andb_true_iff.
  cbn [forallb] in Hall. apply andb_true_iff in Hall as [Hc Hall].
  apply N.leb_le in Hc. split; [exact Hc |].
  destruct s as [| d s']; [split; [reflexivity | congruence] |].
  change (no_joined_pair (c :: d :: s'))
    with (negb (is_high c && is_low d) && no_joined_pair (d :: s')) in Hpair.
  apply andb_true_iff in Hpair as [Hcd Hrest]. split.
  - rewrite Hall, Hrest. reflexivity.
  - intros d' s'' [= <- <-] Hh. rewrite Hh in Hcd. destruct (is_low d); [discriminate | reflexivity].
Qed.

Lemma escaped_cons (c : N) (s : pystr) :
  mjoin (map escape_char (c :: s)) = escape_char c ++ mjoin (map escape_char s).
Proof. reflexivity. Qed.

Lemma escape_length (s : pystr) : (length s <= length (mjoin (map escape_char s)))%nat.
Proof.
  induction s as [| c s IH]; [cbn; lia |]. rewrite escaped_cons, length_app.
  assert (1 <= length (escape_char c))%nat.
  { unfold escape_char. repeat case_match; cbn; lia. }
  cbn [length]. lia.
Qed.

(** [scanstring] reads the body [encode_basestring_ascii] writes for a
    safe string, up to its closing quote. *)
Lemma scan_escaped (s rest : pystr) (f : nat) :
  str_safe s = true -> (length s < f)%nat ->
  scan_string f (mjoin (map escape_char s) ++ 34 :: rest) = Some (s, rest).
Proof.
  revert f. induction s as [| c s IH]; intros f Hs Hf; (destruct f as [| f]; [lia |]).
  - reflexivity.
  - apply str_safe_cons in Hs as (Hc & Hs & Hpair).
    assert (Hj : is_high c = true ->
              join_surrogate c (mjoin (map escape_char s) ++ 34 :: rest) =
              Some (c, mjoin (map escape_char s) ++ 34 :: rest)).
    { intros Hh. destruct s as [| d s']; [apply join_surrogate_quote |].
      rewrite escaped_cons, <- app_assoc. apply join_surrogate_next.
      - apply (str_safe_cons _ _ Hs).
      - exact (Hpair d s' eq_refl Hh). }
    rewrite escaped_cons, <- app_assoc, scan_escape_char by assumption.
    rewrite IH; [reflexivity | exact Hs | cbn in Hf; lia].
Qed.

(** ** The number reader reads what [int.__repr__] writes *)

Lemma uint_of_digits_inv (u : Decimal.uint) : uint_of_digits (PyStr.uint_digits u) = u.
Proof. induction u; cbn; rewrite ?IHu; reflexivity. Qed.

Lemma uint_digits_are_digits (u : Decimal.uint) :
  forallb is_digit (PyStr.uint_digits u) = true.
Proof. induction u; cbn; rewrite ?IHu; reflexivity. Qed.

Lemma take_digits_app (ds rest : pystr) :
  forallb is_digit ds = true -> delim rest = true -> take_digits (ds ++ rest) = (ds, rest).
Proof.
  intros Hds Hr. induction ds as [| c ds IH].
  - destruct rest as [| c rest]; [reflexivity |]. cbn in Hr |- *.
    unfold is_digit. destruct (N.eqb_spec c 44), (N.eqb_spec c 93), (N.eqb_spec c 125);
      try discriminate; subst; reflexivity.
  - cbn in Hds |- *. apply andb_true_iff in Hds as [Hc Hds]. rewrite Hc, IH by exact Hds.
    reflexivity.
Qed.

(** [N.to_uint] writes no leading zero: the numeral of [n] is [0]
    itself, or starts with a non-zero digit. *)
Lemma to_uint_head (n : N) :
  (n = 0 /\ PyStr.uint_digits (N.to_uint n) = [48]) \/
  exists c ds, PyStr.uint_digits (N.to_uint n) = c :: ds /\ 49 <= c <= 57.
Proof.
  assert (Hnorm : Decimal.unorm (N.to_uint n) = N.to_uint n).
  { rewrite <- DecimalN.Unsigned.to_of, DecimalN.Unsigned.of_to. reflexivity. }
  destruct (N.to_uint n) as [| d | d | d | d | d | d | d | d | d | d] eqn:Hu;
    try (right; eexists _, _; split; [reflexivity | lia]).
  - discriminate Hnorm.
  - left. rewrite DecimalFacts.unorm_D0 in Hnorm.
    destruct d; [split; [| reflexivity];
                 apply DecimalN.Unsigned.to_uint_inj; rewrite Hu; reflexivity |..];
      exfalso; match type of Hnorm with
               | Decimal.unorm ?u = _ =>
                   pose proof (DecimalFacts.nb_digits_unorm u ltac:(discriminate)) as Hle
               end;
      rewrite Hnorm in Hle; cbn in Hle; lia.
Qed.

Lemma delim_no_suffix (rest : pystr) :
  delim rest = true -> take_fraction rest = ([], rest) /\ take_exponent rest = ([], rest).
Proof.
  destruct rest as [| c rest]; [split; reflexivity |]. cbn. intros Hr.
  destruct (N.eqb_spec c 44), (N.eqb_spec c 93), (N.eqb_spec c 125);
    try discriminate; subst; destruct rest; split; reflexivity.
Qed.

Lemma take_int_part (n : N) (rest : pystr) :
  delim rest = true ->
  exists c ds, PyStr.uint_digits (N.to_uint n) = c :: ds /\ 48 <= c <= 57 /\
  (if c =? 48 then Some ([48], ds ++ rest)
   else if (49 <=? c) && (c <=? 57) then Some (take_digits (c :: ds ++ rest)) else None)
  = Some (PyStr.uint_digits (N.to_uint n), rest).
Proof.
  intros Hr. destruct (to_uint_head n) as [[-> ->] | (c & ds & Hds & Hc)].
  - exists 48, []. split_and!; [reflexivity | lia | lia | reflexivity].
  - exists c, ds. split_and!; [exact Hds | lia | lia |].
    replace (c =? 48) with false by (symmetry; apply N.eqb_neq; lia).
    replace ((49 <=? c) && (c <=? 57)) with true
      by (symmetry; apply andb_true_iff; split; apply N.leb_le; lia).
    change (c :: ds ++ rest) with ((c :: ds) ++ rest).
    rewrite <- Hds, take_digits_app by (exact (uint_digits_are_digits _) || exact Hr).
    reflexivity.
Qed.

(** [_match_number_unicode] reads an integer [int.__repr__] wrote. *)
Lemma parse_number_int (z : Z) (rest : pystr) :
  delim rest = true -> parse_number (PyStr.str_int z ++ rest) = Some (VInt z, rest).
Proof.
  intros Hr. destruct (delim_no_suffix rest Hr) as [Hf He].
  destruct (take_int_part (Z.to_N (Z.abs z)) rest Hr) as (c & ds & Hds & Hc & Hint).
  unfold parse_number, PyStr.str_int. rewrite <- app_assoc.
  destruct (Z.ltb_spec z 0) as [Hneg | Hpos]; rewrite Hds; cbn [app head_is tail N.eqb Pos.eqb];
    [| replace (c =? 45) with false by (symmetry; apply N.eqb_neq; lia)];
    rewrite Hint, Hf, He, uint_of_digits_inv, DecimalN.Unsigned.of_to, Z2N.id by lia;
    repeat f_equal; lia.
Qed.

Lemma py_null : py "null" = [110; 117; 108; 108].
Proof. reflexivity. Qed.
Lemma py_true : py "true" = [116; 114; 117; 101].
Proof. reflexivity. Qed.
Lemma py_false : py "false" = [102; 97; 108; 115; 101].
Proof. reflexivity. Qed.
Lemma py_NaN : py "NaN" = [78; 97; 78].
Proof. reflexivity. Qed.
Lemma py_Infinity : py "Infinity" = [73; 110; 102; 105; 110; 105; 116; 121].
Proof. reflexivity. Qed.
Lemma py_mInfinity : py "-Infinity" = [45; 73; 110; 102; 105; 110; 105; 116; 121].
Proof. reflexivity. Qed.

(** An integer's text is none of the constants [scan_once] tries first. *)
Lemma parse_literal_int (z : Z) (rest : pystr) :
  delim rest = true -> parse_literal (PyStr.str_int z ++ rest) = Some (VInt z, rest).
Proof.
  intros Hr. rewrite <- (parse_number_int z rest Hr).
  unfold parse_literal, PyStr.str_int.
  rewrite py_null, py_true, py_false, py_NaN, py_Infinity, py_mInfinity, <- app_assoc.
  destruct (to_uint_head (Z.to_N (Z.abs z))) as [[_ ->] | (c & ds & -> & Hc)];
    destruct (z <? 0)%Z; cbn [app strip_prefix];
    eqb_false; reflexivity.
Qed.

(** ** Values *)

Lemma str_int_head (z : Z) :
  exists c t, PyStr.str_int z = c :: t /\ (c = 45 \/ 48 <= c <= 57).
Proof.
  unfold PyStr.str_int. destruct (z <? 0)%Z; [do 2 eexists; split; [reflexivity | lia] |].
  destruct (to_uint_head (Z.to_N (Z.abs z))) as [[_ ->] | (c & ds & -> & Hc)];
    do 2 eexists; (split; [reflexivity | lia]).
Qed.

(** What [encode] writes starts with a character that is not
    whitespace and not the closing bracket. *)
Lemma encode_head (v : pyval) :
  float_free v = true ->
  exists c t, encode v = c :: t /\ is_ws c = false /\ c <> 93.
Proof.
  intros Hf. destruct v as [| [] | z | r | str | l | d]; try discriminate;
    cbn [encode]; rewrite ?py_null, ?py_true, ?py_false;
    try (do 2 eexists; split; [reflexivity | split; [reflexivity | lia]]).
  destruct (str_int_head z) as (c & t & -> & Hc). exists c, t.
  split_and!; [reflexivity | unfold is_ws; eqb_false; reflexivity | lia].
Qed.

Lemma skip_ws_head (c : N) (t : pystr) : is_ws c = false -> skip_ws (c :: t) = c :: t.
Proof. intros H. cbn. rewrite H. reflexivity. Qed.

Lemma parse_value_space (f : nat) (s : pystr) : parse_value f (32 :: s) = parse_value f s.
Proof. destruct f; reflexivity. Qed.

Lemma parse_elems_space (f : nat) (s : pystr) (acc : list pyval) :
  parse_elems f (32 :: s) acc = parse_elems f s acc.
Proof. destruct f; [reflexivity |]. cbn [parse_elems]. rewrite parse_value_space. reflexivity. Qed.

Lemma parse_members_space (f : nat) (s : pystr) (acc : list (pystr * pyval)) :
  parse_members f (32 :: s) acc = parse_members f s acc.
Proof. destruct f; reflexivity. Qed.

Lemma join_items_cons (p q : pystr) (ps : list pystr) :
  join_items (p :: q :: ps) = p ++ [44; 32] ++ join_items (q :: ps).
Proof. reflexivity. Qed.

Lemma join_items_length (ps : list pystr) :
  (sum_list_with length ps + 2 * length ps <= length (join_items ps) + 2)%nat.
Proof.
  induction ps as [| p [| q ps] IH]; [cbn; lia | cbn; lia |].
  rewrite join_items_cons, !length_app. cbn [length sum_list_with] in *. lia.
Qed.

(** Python's [dict(pairs)] keeps pairs with distinct keys as they are. *)
Lemma dict_set_fresh (k : pystr) (v : pyval) (d : list (pystr * pyval)) :
  k ∉ d.*1 -> dict_set k v d = d ++ [(k, v)].
Proof.
  induction d as [| [k' v'] d IH]; intros Hk; [reflexivity |]. cbn.
  rewrite fmap_cons, elem_of_cons in Hk. case_decide; [naive_solver |].
  rewrite IH by naive_solver. reflexivity.
Qed.

Lemma foldl_dict_set (acc d : list (pystr * pyval)) :
  NoDup (acc ++ d).*1 ->
  foldl (fun d kv => dict_set kv.1 kv.2 d) acc d = acc ++ d.
Proof.
  revert acc. induction d as [| [k v] d IH]; intros acc Hnd; cbn; [by rewrite app_nil_r |].
  rewrite dict_set_fresh.
  - rewrite IH, <- app_assoc; [reflexivity |]. rewrite <- app_assoc. exact Hnd.
  - intros Hin. rewrite fmap_app, fmap_cons, NoDup_app in Hnd.
    destruct Hnd as (_ & Hdis & _). apply (Hdis k Hin). cbn. constructor.
Qed.

Lemma dict_of_pairs_nodup (d : list (pystr * pyval)) :
  NoDup d.*1 -> dict_of_pairs d = d.
Proof. intros Hnd. apply foldl_dict_set. exact Hnd. Qed.

Lemma json_safe_float_free (v : pyval) : json_safe v = true -> float_free v = true.
Proof.
  induction v as [| b | z | r | str | l IH | d IH] using pyval_ind'; cbn; try done.
  - rewrite Forall_forall in IH. rewrite !forallb_forall. intros Hl x Hx.
    apply IH; [apply list_elem_of_In, Hx | apply Hl, Hx].
  - intros [_ Hd]%andb_true_iff. rewrite Forall_forall in IH.
    rewrite forallb_forall in Hd |- *. intros kv Hkv.
    apply IH; [apply list_elem_of_In, Hkv |]. apply Hd in Hkv.
    apply andb_true_iff in Hkv. apply Hkv.
Qed.

Lemma join_items_head (p : pystr) (ps : list pystr) (X : pystr) (c : N) (t : pystr) :
  p = c :: t -> exists Y, join_items (p :: ps) ++ X = c :: Y.
Proof. intros ->. destruct ps; eexists; reflexivity. Qed.

(** [JSONArray] reads the items [encode] writes, up to the bracket. *)
Lemma parse_elems_encode (l : list pyval) (rest : pystr) (acc : list pyval) (f : nat) :
  Forall (fun v => json_safe v = true /\ reads_back v) l -> l <> [] ->
  (sum_list_with (fun x => S (size x)) l <= f)%nat ->
  parse_elems f (join_items (map encode l) ++ 93 :: rest) acc = Some (VList (acc ++ l), rest).
Proof.
  revert acc f. induction l as [| v [| w l] IH]; intros acc f Hall Hne Hf; [congruence | |];
    apply Forall_cons in Hall as [[_ Hv] Hall]; (destruct f as [| f]; [cbn in Hf; lia |]).
  - cbn [map join_items parse_elems]. rewrite Hv by (cbn in Hf |- *; lia). reflexivity.
  - cbn [map]. rewrite join_items_cons, <- !app_assoc. cbn [parse_elems].
    rewrite Hv by (cbn in Hf |- *; lia). cbn [app skip_ws is_ws head_is tail].
    cbn -[parse_elems join_items]. rewrite parse_elems_space, IH.
    + rewrite <- app_assoc. reflexivity.
    + exact Hall.
    + discriminate.
    + cbn in Hf |- *. lia.
Qed.

Definition member_text (kv : pystr * pyval) : pystr :=
  encode_basestring_ascii kv.1 ++ [58; 32] ++ encode kv.2.

Lemma parse_member (k : pystr) (v : pyval) (X : pystr) (acc : list (pystr * pyval)) (f : nat) :
  str_safe k = true -> reads_back v -> (size v <= f)%nat -> delim X = true ->
  parse_members (S f) (member_text (k, v) ++ X) acc =
    if head_is 125 (skip_ws X) then
      Some (VDict (dict_of_pairs (acc ++ [(k, v)])), tail (skip_ws X))
    else if head_is 44 (skip_ws X) then parse_members f (tail (skip_ws X)) (acc ++ [(k, v)])
    else None.
Proof.
  intros Hk Hv Hf HX. unfold member_text, encode_basestring_ascii. cbn [fst snd].
  rewrite <- !app_assoc. cbn [app parse_members].
  rewrite skip_ws_head by reflexivity. cbn [head_is tail]. rewrite N.eqb_refl.
  rewrite scan_escaped by (try exact Hk; rewrite length_app; pose proof (escape_length k); lia).
  rewrite skip_ws_head by reflexivity. cbn [head_is tail]. rewrite N.eqb_refl.
  rewrite parse_value_space, Hv by assumption. reflexivity.
Qed.

(** [JSONObject] reads the members [encode] writes, up to the brace. *)
Lemma parse_members_encode (d : list (pystr * pyval)) (rest : pystr)
    (acc : list (pystr * pyval)) (f : nat) :
  Forall (fun kv => str_safe kv.1 = true /\ json_safe kv.2 = true /\ reads_back kv.2) d ->
  d <> [] -> (sum_list_with (fun kv => S (size kv.2)) d <= f)%nat ->
  parse_members f (join_items (map member_text d) ++ 125 :: rest) acc =
    Some (VDict (dict_of_pairs (acc ++ d)), rest).
Proof.
  revert acc f. induction d as [| [k v] [| kv' d] IH]; intros acc f Hall Hne Hf; [congruence | |];
    apply Forall_cons in Hall as [(Hk & _ & Hv) Hall]; (destruct f as [| f]; [cbn in Hf; lia |]).
  - cbn [map join_items]. rewrite parse_member by (try assumption; try reflexivity; cbn in Hf; lia). reflexivity.
  - cbn [map]. rewrite join_items_cons, <- !app_assoc.
    rewrite parse_member by (try assumption; try reflexivity; cbn in Hf |- *; lia).
    cbn [skip_ws is_ws head_is tail]. cbn -[parse_members join_items].
    rewrite parse_members_space, IH.
    + rewrite <- app_assoc. reflexivity.
    + exact Hall.
    + discriminate.
    + cbn in Hf |- *. lia.
Qed.

Lemma Forall_safe_ih (l : list pyval) :
  Forall (fun v => json_safe v = true -> reads_back v) l -> forallb json_safe l = true ->
  Forall (fun v => json_safe v = true /\ reads_back v) l.
Proof.
  rewrite !Forall_forall, forallb_forall. intros IH Hl x Hx.
  assert (Hs : json_safe x = true) by (apply Hl, list_elem_of_In, Hx). auto.
Qed.

Lemma Forall_member_ih (d : list (pystr * pyval)) :
  Forall (fun kv => json_safe kv.2 = true -> reads_back kv.2) d ->
  forallb (fun kv => str_safe kv.1 && json_safe kv.2) d = true ->
  Forall (fun kv => str_safe kv.1 = true /\ json_safe kv.2 = true /\ reads_back kv.2) d.
Proof.
  rewrite !Forall_forall, forallb_forall. intros IH Hd x Hx.
  assert (Hs : str_safe x.1 && json_safe x.2 = true) by (apply Hd, list_elem_of_In, Hx).
  apply andb_true_iff in Hs as [Hk Hs]. auto.
Qed.

(** Every safe value is read back from its text by [scan_once]. *)
Lemma parse_value_encode (v : pyval) : json_safe v = true -> reads_back v.
Proof.
  induction v as [| b | z | r | str | l IH | d IH] using pyval_ind';
    intros Hs fuel rest Hf Hr; (destruct fuel as [| f]; [cbn in Hf; lia |]).
  - cbn [encode]. rewrite py_null. reflexivity.
  - destruct b; cbn [encode]; rewrite ?py_true, ?py_false; reflexivity.
  - cbn [encode]. rewrite <- (parse_literal_int z rest Hr).
    destruct (str_int_head z) as (c & t & -> & Hc).
    cbn [app parse_value]. rewrite skip_ws_head by (unfold is_ws; eqb_false; reflexivity).
    eqb_false. reflexivity.
  - discriminate.
  - cbn [encode]. unfold encode_basestring_ascii. rewrite <- !app_assoc. cbn [app parse_value].
    rewrite skip_ws_head by reflexivity. cbn -[scan_string].
    rewrite scan_escaped; [reflexivity | exact Hs |].
    rewrite length_app. pose proof (escape_length str). cbn [length]. lia.
  - cbn [encode]. rewrite <- !app_assoc. cbn [app parse_value].
    rewrite skip_ws_head by reflexivity. cbn -[skip_ws head_is parse_elems join_items].
    cbn in Hs. apply Forall_safe_ih in IH; [| exact Hs].
    destruct l as [| v l]; [reflexivity |].
    destruct (Forall_inv IH) as [Hv _].
    destruct (encode_head v (json_safe_float_free v Hv)) as (c & t & Hct & Hws & H93).
    destruct (join_items_head (encode v) (map encode l) (93 :: rest) c t Hct) as [Y HY].
    cbn [map]. rewrite HY, skip_ws_head by exact Hws. cbn [head_is]. eqb_false.
    rewrite <- HY. apply (parse_elems_encode (v :: l) rest [] f); [exact IH | discriminate | cbn in Hf |- *; lia].
  - cbn [encode].
    change (map (fun kv => encode_basestring_ascii kv.1 ++ [58; 32] ++ encode kv.2))
      with (map member_text).
    rewrite <- !app_assoc. cbn [app parse_value].
    rewrite skip_ws_head by reflexivity.
    cbn -[skip_ws head_is parse_members join_items member_text].
    cbn in Hs. apply andb_true_iff in Hs as [Hnd Hs]. apply bool_decide_eq_true in Hnd.
    apply Forall_member_ih in IH; [| exact Hs].
    destruct d as [| [k v] d]; [reflexivity |].
    destruct (join_items_head (member_text (k, v)) (map member_text d) (125 :: rest) 34
                (mjoin (map escape_char k) ++ [34] ++ [58; 32] ++ encode v)) as [Y HY].
    { unfold member_text, encode_basestring_ascii. cbn. rewrite <- !app_assoc. reflexivity. }
    cbn [map]. rewrite HY, skip_ws_head by reflexivity. cbn [head_is]. eqb_false.
    rewrite <- HY. change (member_text (k, v) :: map member_text d)
                     with (map member_text ((k, v) :: d)). rewrite (parse_members_encode ((k, v) :: d) rest [] f); [| exact IH | discriminate | cbn in Hf |- *; lia].
    rewrite dict_of_pairs_nodup by exact Hnd. reflexivity.
Qed.

Lemma sum_items_bound {A} (sz : A -> nat) (txt : A -> pystr) (l : list A) :
  Forall (fun x => (sz x <= S (length (txt x)))%nat) l ->
  (sum_list_with (fun x => S (sz x)) l <= length (join_items (map txt l)) + 2)%nat.
Proof.
  intros Hl. pose proof (join_items_length (map txt l)) as Hj.
  enough (sum_list_with (fun x => S (sz x)) l <=
          sum_list_with length (map txt l) + 2 * length (map txt l))%nat by lia.
  clear Hj. induction Hl; cbn; lia.
Qed.

(** The fuel [loads] gives, one more than the length of the text, is
    enough. *)
Lemma size_le_encode (v : pyval) : (size v <= S (length (encode v)))%nat.
Proof.
  induction v as [| b | z | r | str | l IH | d IH] using pyval_ind'; cbn [size]; try lia.
  - cbn [encode]. rewrite !length_app. cbn [length].
    pose proof (sum_items_bound size encode l IH). lia.
  - cbn [encode]. change (map (fun kv => encode_basestring_ascii kv.1 ++ [58; 32] ++ encode kv.2))
      with (map member_text).
    rewrite !length_app. cbn [length].
    enough (Forall (fun kv => (size kv.2 <= S (length (member_text kv)))%nat) d)
      by (pose proof (sum_items_bound (fun kv => size kv.2) member_text d H); lia).
    eapply Forall_impl; [exact IH |]. intros kv Hkv. unfold member_text.
    rewrite !length_app. cbn [length]. cbn beta in Hkv. lia.
Qed.

(** ** The round trip *)

Lemma loads_of_reads_back (v : pyval) : reads_back v -> loads (encode v) = Some v.
Proof.
  intros Hv. unfold loads.
  pose proof (Hv (S (length (encode v))) [] (size_le_encode v) eq_refl) as Hp.
  rewrite app_nil_r in Hp. rewrite Hp. reflexivity.
Qed.

(** C23: [json.loads] reads back exactly the value [json.dumps] wrote,
    for every value without floats whose strings hold code points and
    no high surrogate right before a low one, and whose dictionaries
    have distinct keys. *)
Theorem loads_encode (v : pyval) : json_safe v = true -> loads (encode v) = Some v.
Proof. intros Hs. apply loads_of_reads_back, parse_value_encode, Hs. Qed.

(** ** The text is printable ASCII *)

Definition printable (c : N) : bool := (32 <=? c) && (c <=? 126).

Lemma hex_digit_printable (n : N) : printable (hex_digit (N.land n 15)) = true.
Proof.
  pose proof (land_15_lt n). unfold printable, hex_digit.
  destruct (N.ltb_spec (N.land n 15) 10); apply andb_true_iff; split; apply N.leb_le; lia.
Qed.

Lemma hex4_printable (n : N) : forallb printable (hex4 n) = true.
Proof.
  unfold hex4. cbn [forallb].
  rewrite !hex_digit_printable. reflexivity.
Qed.

Lemma escape_char_printable (c : N) : forallb printable (escape_char c) = true.
Proof.
  unfold escape_char.
  repeat case_match; rewrite ?forallb_app; cbn [forallb app];
    rewrite ?hex4_printable; try reflexivity.
  match goal with H : (32 <=? c) && (c <=? 126) = true |- _ =>
    unfold printable; rewrite H; reflexivity end.
Qed.

Lemma escaped_printable (s : pystr) : forallb printable (mjoin (map escape_char s)) = true.
Proof.
  induction s as [| c s IH]; [reflexivity |].
  rewrite escaped_cons, forallb_app, escape_char_printable, IH. reflexivity.
Qed.

Lemma digits_printable (u : Decimal.uint) : forallb printable (PyStr.uint_digits u) = true.
Proof. induction u; cbn; rewrite ?IHu; reflexivity. Qed.

Lemma join_items_printable (ps : list pystr) :
  Forall (fun p => forallb printable p = true) ps -> forallb printable (join_items ps) = true.
Proof.
  induction 1 as [| p [| q ps] Hp Hps IH]; [reflexivity | cbn; rewrite Hp; reflexivity |].
  rewrite join_items_cons, !forallb_app, Hp, IH. reflexivity.
Qed.

Lemma Forall_forallb_ih {A} (P : A -> Prop) (b : A -> bool) (l : list A) :
  Forall (fun x => b x = true -> P x) l -> forallb b l = true -> Forall P l.
Proof.
  rewrite !Forall_forall, forallb_forall. intros IH Hl x Hx.
  apply IH; [exact Hx | apply Hl, list_elem_of_In, Hx].
Qed.

(** The text [json.dumps] writes for a value without floats is
    printable ASCII ([ensure_ascii=True]). *)
Lemma encode_ascii (v : pyval) :
  float_free v = true -> forallb printable (encode v) = true.
Proof.
  induction v as [| b | z | r | str | l IH | d IH] using pyval_ind'; intros Hf;
    cbn [encode]; try discriminate.
  - rewrite py_null. reflexivity.
  - destruct b; rewrite ?py_true, ?py_false; reflexivity.
  - unfold PyStr.str_int. rewrite forallb_app, digits_printable. destruct (z <? 0)%Z; reflexivity.
  - unfold encode_basestring_ascii. rewrite !forallb_app, escaped_printable. reflexivity.
  - rewrite !forallb_app, join_items_printable; [reflexivity |].
    apply Forall_map. exact (Forall_forallb_ih _ _ _ IH Hf).
  - rewrite !forallb_app, join_items_printable; [reflexivity |].
    apply Forall_map. cbn in Hf.
    apply (Forall_forallb_ih _ (fun kv => float_free kv.2)) in IH; [| exact Hf].
    eapply Forall_impl; [exact IH |]. intros kv Hkv. cbn beta in Hkv |- *.
    unfold encode_basestring_ascii. rewrite !forallb_app, escaped_printable, Hkv. reflexivity.
Qed.

Lemma first_bad_float_free (v : pyval) : float_free v = true -> first_bad_float v = None.
Proof.
  induction v as [| b | z | r | str | l IH | d IH] using pyval_ind'; intros Hf;
    cbn in Hf |- *; try reflexivity; try discriminate.
  - apply (Forall_forallb_ih _ _ _ IH) in Hf. clear IH. induction Hf as [| x l Hx _ IHl]; [reflexivity |].
    cbn. rewrite Hx. exact IHl.
  - apply (Forall_forallb_ih _ (fun kv => float_free kv.2) _ IH) in Hf. clear IH.
    induction Hf as [| kv d Hkv _ IHd]; [reflexivity |]. cbn. rewrite Hkv. exact IHd.
Qed.

Lemma utf8_encode_ascii (t : pystr) : forallb printable t = true -> utf8_encode t = t.
Proof.
  induction t as [| c t IH]; [reflexivity |]. cbn [forallb].
  intros [Hc Ht]%andb_true_iff.
  change (utf8_encode (c :: t)) with (utf8_char c ++ utf8_encode t). rewrite IH by exact Ht.
  unfold printable in Hc. apply andb_true_iff in Hc as [_ Hc]. apply N.leb_le in Hc.
  unfold utf8_char. replace (c <? 0x80) with true by (symmetry; apply N.ltb_lt; lia).
  reflexivity.
Qed.

Lemma utf8_decode_ascii (t : pystr) : forallb printable t = true -> utf8_decode t = t.
Proof.
  induction t as [| c t IH]; [reflexivity |]. cbn [forallb].
  intros [Hc Ht]%andb_true_iff. unfold printable in Hc.
  apply andb_true_iff in Hc as [_ Hc]. apply N.leb_le in Hc. cbn.
  replace (c <? 128) with true by (symmetry; apply N.ltb_lt; lia). rewrite IH by exact Ht.
  reflexivity.
Qed.

Lemma prepare_body_text (v : pyval) :
  float_free v = true -> prepare_body v = inr (encode v).
Proof.
  intros Hf. unfold prepare_body, dumps.
  rewrite first_bad_float_free, utf8_encode_ascii by (exact Hf || apply encode_ascii, Hf).
  reflexivity.
Qed.

Lemma loads_utf8_encode (v : pyval) :
  json_safe v = true -> loads (utf8_decode (encode v)) = Some v.
Proof.
  intros Hs. rewrite utf8_decode_ascii by apply encode_ascii, json_safe_float_free, Hs.
  apply loads_of_reads_back, parse_value_encode, Hs.
Qed.

(** C24: for a value without floats, [requests]' [prepare_body] does
    not raise and sends the [json.dumps] text itself as its bytes: the
    text is printable ASCII ([ensure_ascii=True]), so its UTF-8
    encoding changes nothing. *)
Theorem prepare_body_ascii (v : pyval) :
  float_free v = true ->
  prepare_body v = inr (encode v) /\ forallb printable (encode v) = true.
Proof. intros Hf. split; [apply prepare_body_text, Hf | apply encode_ascii, Hf]. Qed.

(** For a safe value, a server that decodes the bytes
    [prepare_body] sends as UTF-8 and then as JSON gets the value
    back. *)
Theorem prepare_body_loads (v : pyval) :
  json_safe v = true ->
  exists body, prepare_body v = inr body /\ loads (utf8_decode body) = Some v.
Proof.
  intros Hs. exists (encode v). split.
  - apply prepare_body_text, json_safe_float_free, Hs.
  - apply loads_utf8_encode, Hs.
Qed.

Lemma loads_encode_witness :
  json_safe sample_payload = true /\ loads (encode sample_payload) = Some sample_payload.
Proof. split; [vm_compute; reflexivity | apply loads_encode; vm_compute; reflexivity]. Defined.

Lemma prepare_body_ascii_witness :
  float_free sample_payload = true /\
  prepare_body sample_payload = inr (encode sample_payload) /\
  forallb printable (encode sample_payload) = true.
Proof.
  split; [vm_compute; reflexivity | apply prepare_body_ascii; vm_compute; reflexivity].
Defined.

Lemma prepare_body_loads_witness :
  json_safe sample_payload = true /\
  exists body, prepare_body sample_payload = inr body /\
    loads (utf8_decode body) = Some sample_payload.
Proof.
  assert (Hs : json_safe sample_payload = true) by (vm_compute; reflexivity).
  split; [exact Hs | apply prepare_body_loads, Hs].
Defined.

End JsonDecode.
