(* ===== verification/Resolver.v ===== *)
(** * Provider resolution: [init_client] (src/main.py, lines 14-44)

    [load_dotenv()] (line 15) and the process environment give the
    mapping [os.getenv] reads; it is modelled as a finite map from
    variable names to values, already loaded.  [init_client] returns the
    printed lines and the pair [(provider, client_or_key)] of the code.
    The abstract contract of spec.md section 4.1 is [resolve], and
    [init_client_refines] shows that the code implements it, for
    credentials that are not the empty string. *)

From S2P Require Import Prelude PyStr PyObj.
Import PyObj.
Open Scope N_scope.

Module Resolver.

(** The environment after [load_dotenv()]. *)
Abbreviation environ := (gmap pystr pystr).

(** [os.getenv(k)] and [os.getenv(k, d)] *)
Definition getenv (env : environ) (k : pystr) : option pystr := env !! k.

Definition getenv_default (env : environ) (k d : pystr) : pystr :=
  match env !! k with Some v => v | None => d end.

(** [OpenAI(api_key=api_key)] (line 38): a client that holds its key. *)
Record openai_client := { client_api_key : pystr }.

(** The second component of the result: the raw DeepSeek key or the
    OpenAI client. *)
Inductive handle :=
| HKey (k : pystr)
| HClient (c : openai_client).

(** [(provider, client_or_key)]; [None] is Python's [None]. *)
Abbreviation init_result := (option pystr * option handle)%type.

(** [not api_key] for the result of [os.getenv]: [None] or [''].*)
Definition falsy_str (o : option pystr) : bool :=
  match o with None => true | Some s => bool_decide (s = []) end.

(** ** Witnesses, on the sample Unicode database *)

Definition env_default : environ := {[py "DEEPSEEK_API_KEY" := py "sk-1"]}.
Definition env_deepseek : environ :=
  <[py "MODEL_PROVIDER" := py "DeepSeek"]> {[py "DEEPSEEK_API_KEY" := py "sk-1"]}.
Definition env_openai : environ :=
  <[py "MODEL_PROVIDER" := py "OpenAI"]> {[py "OPENAI_API_KEY" := py "sk-2"]}.
Definition env_empty_key : environ := {[py "DEEPSEEK_API_KEY" := []]}.
Definition env_other : environ := {[py "MODEL_PROVIDER" := py "Claude"]}.

Section Init.
Context `{PyStr.UnicodeCase}.

(** [os.getenv('MODEL_PROVIDER', 'deepseek').lower()] (line 21) *)
Definition provider_name (env : environ) : pystr :=
  PyStr.lower (getenv_default env (py "MODEL_PROVIDER") (py "deepseek")).

Definition init_client (env : environ) : list chunk * init_result :=
  let model_provider := provider_name env in
  if bool_decide (model_provider = py "deepseek") then
    let api_key := getenv env (py "DEEPSEEK_API_KEY") in
    match api_key with
    | Some k =>
        if falsy_str api_key then
          (print (py "❌ 错误：未找到DEEPSEEK_API_KEY环境变量")
           ++ print (py "请在.env文件中设置DEEPSEEK_API_KEY"), (None, None))
        else ([], (Some (py "deepseek"), Some (HKey k)))
    | None =>
        (print (py "❌ 错误：未找到DEEPSEEK_API_KEY环境变量")
         ++ print (py "请在.env文件中设置DEEPSEEK_API_KEY"), (None, None))
    end
  else if bool_decide (model_provider = py "openai") then
    let api_key := getenv env (py "OPENAI_API_KEY") in
    match api_key with
    | Some k =>
        if falsy_str api_key then
          (print (py "❌ 错误：未找到OPENAI_API_KEY环境变量")
           ++ print (py "请在.env文件中设置OPENAI_API_KEY"), (None, None))
        else
          let client := {| client_api_key := k |} in
          ([], (Some (py "openai"), Some (HClient client)))
    | None =>
        (print (py "❌ 错误：未找到OPENAI_API_KEY环境变量")
         ++ print (py "请在.env文件中设置OPENAI_API_KEY"), (None, None))
    end
  else
    (print (py "❌ 错误：不支持的模型提供商 '" ++ model_provider ++ py "'")
     ++ print (py "支持的提供商：deepseek, openai"), (None, None)).

(** ** The contract of spec.md section 4.1 *)

Inductive provider_selection :=
| DeepSeek (credential : pystr)
| OpenAI (credential : pystr).

Inductive resolution_error :=
| UnsupportedProvider (name : pystr)
| MissingCredential (provider : pystr).

(** [resolve()]: the provider name, lower-cased, selects the provider;
    an absent credential is [MissingCredential]. *)
Definition resolve (env : environ) : resolution_error + provider_selection :=
  let name := provider_name env in
  if bool_decide (name = py "deepseek") then
    match env !! py "DEEPSEEK_API_KEY" with
    | Some k => inr (DeepSeek k)
    | None => inl (MissingCredential name)
    end
  else if bool_decide (name = py "openai") then
    match env !! py "OPENAI_API_KEY" with
    | Some k => inr (OpenAI k)
    | None => inl (MissingCredential name)
    end
  else inl (UnsupportedProvider name).

(** The selection that a result of [init_client] denotes. *)
Definition selection_of (r : init_result) : option provider_selection :=
  match r with
  | (Some p, Some (HKey k)) =>
      if bool_decide (p = py "deepseek") then Some (DeepSeek k) else None
  | (Some p, Some (HClient c)) =>
      if bool_decide (p = py "openai") then Some (OpenAI (client_api_key c))
      else None
  | _ => None
  end.

(** The credential a selection holds. *)
Definition credential (sel : provider_selection) : pystr :=
  match sel with DeepSeek k | OpenAI k => k end.

(** ** Theorems *)

(** Unfold [init_client] on a known provider name and key lookup. *)
Ltac init_case Hp :=
  unfold init_client, getenv, falsy_str; rewrite Hp;
  repeat (case_bool_decide; try congruence; try discriminate).

(** C1: with the provider name [deepseek] (the default) and a non-empty
    [DEEPSEEK_API_KEY], [init_client] prints nothing and returns the
    pair [('deepseek', api_key)]. *)
Theorem init_client_deepseek (env : environ) (k : pystr) :
  provider_name env = py "deepseek" ->
  env !! py "DEEPSEEK_API_KEY" = Some k -> k <> [] ->
  init_client env = ([], (Some (py "deepseek"), Some (HKey k))).
Proof.
  intros Hp Hk Hne. init_case Hp. rewrite Hk.
  by rewrite bool_decide_eq_false_2.
Qed.

(** With the provider name [openai] and a non-empty [OPENAI_API_KEY],
    [init_client] prints nothing and returns [('openai', OpenAI(api_key))]. *)
Theorem init_client_openai (env : environ) (k : pystr) :
  provider_name env = py "openai" ->
  env !! py "OPENAI_API_KEY" = Some k -> k <> [] ->
  init_client env =
    ([], (Some (py "openai"), Some (HClient {| client_api_key := k |}))).
Proof.
  intros Hp Hk Hne. init_case Hp. rewrite Hk.
  by rewrite bool_decide_eq_false_2.
Qed.

(** Split every test and lookup of [init_client] and [resolve]. *)
Ltac init_split :=
  unfold init_client, resolve, getenv, falsy_str;
  repeat (case_bool_decide || case_match); simplify_eq/=;
  try discriminate.

(** The three shapes of the result of [init_client]. *)
Lemma init_client_shapes (env : environ) :
  (init_client env).2 = (None, None) \/
  (exists k, (init_client env).2 = (Some (py "deepseek"), Some (HKey k))) \/
  (exists c, (init_client env).2 = (Some (py "openai"), Some (HClient c))).
Proof. init_split; eauto. Qed.

(** C2: a recognized provider whose key variable is unset or empty makes
    [init_client] print the two error lines naming the variable and
    return [(None, None)]. *)
Theorem init_client_missing_key (env : environ) (p kv : pystr) :
  (p, kv) ∈ [(py "deepseek", py "DEEPSEEK_API_KEY");
             (py "openai", py "OPENAI_API_KEY")] ->
  provider_name env = p -> falsy_str (env !! kv) = true ->
  init_client env =
    (print (py "❌ 错误：未找到" ++ kv ++ py "环境变量")
     ++ print (py "请在.env文件中设置" ++ kv), (None, None)).
Proof.
  intros Hin Hp Hf. unfold falsy_str in Hf.
  repeat rewrite elem_of_cons in Hin. rewrite elem_of_nil in Hin.
  destruct Hin as [Hin|[Hin|[]]]; injection Hin as -> ->;
    init_case Hp; destruct (env !! _) eqn:E; rewrite ?E;
    try case_bool_decide; simplify_eq; try discriminate; reflexivity.
Qed.

(** C3: any other provider name is rejected: [init_client] prints the
    lower-cased name and the supported names, and returns [(None, None)]. *)
Theorem init_client_unsupported (env : environ) :
  provider_name env <> py "deepseek" -> provider_name env <> py "openai" ->
  init_client env =
    (print (py "❌ 错误：不支持的模型提供商 '" ++ provider_name env ++ py "'")
     ++ print (py "支持的提供商：deepseek, openai"), (None, None)).
Proof.
  intros H1 H2. unfold init_client.
  by rewrite !bool_decide_eq_false_2 by done.
Qed.

(** C4: whatever the environment, [init_client] either prints an error and
    returns [(None, None)], or prints nothing and returns a pair that
    denotes a provider selection with a non-empty credential. *)
Theorem init_client_wf (env : environ) :
  let '(out, r) := init_client env in
  (r = (None, None) /\ out <> []) \/
  (out = [] /\ exists sel, selection_of r = Some sel /\ credential sel <> []).
Proof.
  init_split; first [left; split; [done | discriminate]
                    | right; split; [done|]; eexists; split; [done|done]].
Qed.

(** C5: refinement of the contract of spec.md 4.1: when no credential
    variable is set to the empty string, [init_client] returns exactly
    the selection [resolve] specifies, and [(None, None)] where [resolve]
    fails. *)
Theorem init_client_refines (env : environ) :
  env !! py "DEEPSEEK_API_KEY" <> Some [] ->
  env !! py "OPENAI_API_KEY" <> Some [] ->
  match resolve env with
  | inr sel => selection_of (init_client env).2 = Some sel
  | inl _ => (init_client env).2 = (None, None)
  end.
Proof.
  intros Hd Ho. init_split; unfold selection_of; try case_bool_decide;
    simplify_eq; done.
Qed.

(** C6: a credential variable set to the empty string is a success for
    the contract of spec.md 4.1 but a missing key for [init_client]. *)
Theorem init_client_empty_key (env : environ) :
  provider_name env = py "deepseek" ->
  env !! py "DEEPSEEK_API_KEY" = Some [] ->
  resolve env = inr (DeepSeek []) /\ (init_client env).2 = (None, None).
Proof.
  intros Hp Hk. unfold resolve, init_client, getenv, falsy_str.
  rewrite Hp, Hk. by rewrite !bool_decide_eq_true_2.
Qed.

End Init.

Lemma init_client_deepseek_witness :
  init_client env_deepseek = ([], (Some (py "deepseek"), Some (HKey (py "sk-1")))).
Proof.
  apply init_client_deepseek; [vm_compute; reflexivity | vm_compute; reflexivity
                              | vm_compute; discriminate].
Defined.

Lemma init_client_openai_witness :
  init_client env_openai =
    ([], (Some (py "openai"), Some (HClient {| client_api_key := py "sk-2" |}))).
Proof.
  apply init_client_openai; [vm_compute; reflexivity | vm_compute; reflexivity
                            | vm_compute; discriminate].
Defined.

Lemma init_client_missing_key_witness :
  init_client env_empty_key =
    (print (py "❌ 错误：未找到" ++ py "DEEPSEEK_API_KEY" ++ py "环境变量")
     ++ print (py "请在.env文件中设置" ++ py "DEEPSEEK_API_KEY"), (None, None)).
Proof.
  apply (init_client_missing_key _ (py "deepseek") (py "DEEPSEEK_API_KEY"));
    [by left | vm_compute; reflexivity
                                 | vm_compute; reflexivity].
Defined.

Lemma init_client_unsupported_witness :
  init_client env_other =
    (print (py "❌ 错误：不支持的模型提供商 '" ++ provider_name env_other ++ py "'")
     ++ print (py "支持的提供商：deepseek, openai"), (None, None)).
Proof.
  apply init_client_unsupported; vm_compute; discriminate.
Defined.

Lemma init_client_refines_witness :
  match resolve env_openai with
  | inr sel => selection_of (init_client env_openai).2 = Some sel
  | inl _ => (init_client env_openai).2 = (None, None)
  end.
Proof. apply init_client_refines; vm_compute; discriminate. Defined.

Lemma init_client_empty_key_witness :
  resolve env_empty_key = inr (DeepSeek []) /\
  (init_client env_empty_key).2 = (None, None).
Proof. apply init_client_empty_key; vm_compute; reflexivity. Defined.

End Resolver.
