(* ===== verification/Dotenv.v ===== *)
(** * [load_dotenv()] (src/main.py, line 15)

    Module [Dotenv] models what python-dotenv 1.x's [load_dotenv()]
    does with the bindings of the [.env] file it finds, with its
    defaults [override=False] and [interpolate=True]:
    [DotEnv.dict] resolves [${NAME}] and [${NAME:-default}] in each
    value ([resolve_variables], [parse_variables]), keeping the bindings
    in a dict, so a repeated key keeps its first place and its last
    value; [set_as_environment_variables] then writes each binding with
    a value into [os.environ], except the keys already there.  The
    search for the file ([find_dotenv]) and the parsing of its text into
    bindings are not modelled: the file is given as its bindings, [None]
    when there is no [.env]. *)

From S2P Require Import Prelude PyStr Resolver.
Import Resolver.
Open Scope N_scope.

Module Dotenv.

(** A binding of the file: [KEY=value], or [KEY] alone (value [None]). *)
Abbreviation binding := (pystr * option pystr)%type.

(** [Literal] and [Variable] of [dotenv.variables] ([Variable] is a keyword of Rocq). *)
Inductive atom :=
| Literal (value : pystr)
| Variable' (name : pystr) (default : option pystr).

(** The longest prefix of [s] whose characters satisfy [p], and the rest. *)
Fixpoint span (p : N -> bool) (s : pystr) : pystr * pystr :=
  match s with
  | c :: s' => if p c then let '(a, b) := span p s' in (c :: a, b) else ([], s)
  | [] => ([], [])
  end.

(** [_posix_variable] matched at the start of [s]: a dollar and an
    opening brace, a name of characters other than a closing brace or a
    colon, optionally a colon, a dash and a default of characters other
    than a closing brace, then a closing brace.  It gives the name, the
    default and what follows the match. *)
Definition match_variable (s : pystr) : option (pystr * option pystr * pystr) :=
  match s with
  | d :: b :: s1 =>
      if (d =? 36) && (b =? 123) then
        let '(name, s2) := span (fun c => negb ((c =? 125) || (c =? 58))) s1 in
        match s2 with
        | e :: s3 =>
            if e =? 125 then Some (name, None, s3)
            else
              match s3 with
              | h :: s4 =>
                  if (e =? 58) && (h =? 45) then
                    let '(dflt, s5) := span (fun c => negb (c =? 125)) s4 in
                    match s5 with
                    | [] => None
                    | _ :: s6 => Some (name, Some dflt, s6)
                    end
                  else None
              | [] => None
              end
        | [] => None
        end
      else None
  | _ => None
  end.

(** [parse_variables]: the text between matches as literals (none when
    empty), each match as a variable; [finditer] tries every position in
    turn.  [lit] is the literal read so far, reversed. *)
Fixpoint parse_variables_from (fuel : nat) (s lit : pystr) : list atom :=
  let flush := if bool_decide (lit = []) then [] else [Literal (rev lit)] in
  match fuel with
  | O => flush
  | S f =>
      match s with
      | [] => flush
      | c :: s' =>
          match match_variable s with
          | Some (name, dflt, rest) => flush ++ Variable' name dflt :: parse_variables_from f rest []
          | None => parse_variables_from f s' (c :: lit)
          end
      end
  end.

Definition parse_variables (value : pystr) : list atom :=
  parse_variables_from (length value) value [].

(** The values [resolve_variables] sees: with [override=False],
    [os.environ] over the values of the file resolved so far (a value
    of the file may be [None]). *)
Definition interp_env (os_env : environ) (new_values : list (pystr * option pystr))
    (name : pystr) : option (option pystr) :=
  match os_env !! name with
  | Some v => Some (Some v)
  | None => snd <$> list_find (fun kv => kv.1 = name) new_values ≫= fun p => Some p.2
  end.

(** [Variable.resolve]: [env.get(name, default)], and [""] for [None]. *)
Definition resolve_atom (lookup : pystr -> option (option pystr)) (a : atom) : pystr :=
  match a with
  | Literal v => v
  | Variable' name dflt =>
      match lookup name with
      | Some (Some v) => v
      | Some None => []
      | None => default [] dflt
      end
  end.

Definition resolve_value (lookup : pystr -> option (option pystr)) (value : pystr) : pystr :=
  mjoin (map (resolve_atom lookup) (parse_variables value)).

(** [new_values[name] = result] on a dict kept as a list in insertion
    order. *)
Fixpoint dict_assign (k : pystr) (v : option pystr) (d : list (pystr * option pystr))
    : list (pystr * option pystr) :=
  match d with
  | [] => [(k, v)]
  | (k', v') :: d' => if bool_decide (k' = k) then (k, v) :: d' else (k', v') :: dict_assign k v d'
  end.

(** [resolve_variables(raw_values, override=False)] *)
Definition resolve_variables (os_env : environ) (raw : list binding)
    : list (pystr * option pystr) :=
  foldl (fun new_values '(name, value) =>
           let result := (fun v => resolve_value (interp_env os_env new_values) v) <$> value in
           dict_assign name result new_values) [] raw.

(** [set_as_environment_variables] with [override=False]. *)
Definition set_as_environment_variables (os_env : environ) (d : list (pystr * option pystr))
    : environ :=
  foldl (fun env '(k, v) =>
           match env !! k with
           | Some _ => env
           | None => match v with Some s => <[k := s]> env | None => env end
           end) os_env d.

(** [load_dotenv()]: [None] when no [.env] file is found. *)
Definition load_dotenv (os_env : environ) (file : option (list binding)) : environ :=
  match file with
  | None => os_env
  | Some raw => set_as_environment_variables os_env (resolve_variables os_env raw)
  end.

(** The value a dict built by [dict_assign] holds for [k]. *)
Fixpoint dict_get (d : list (pystr * option pystr)) (k : pystr) : option (option pystr) :=
  match d with
  | [] => None
  | (k', v) :: d' => if bool_decide (k' = k) then Some v else dict_get d' k
  end.

(** No [${] in a value: nothing for [parse_variables] to expand. *)
Fixpoint no_dollar_brace (s : pystr) : bool :=
  match s with
  | a :: ((b :: _) as s') => negb ((a =? 36) && (b =? 123)) && no_dollar_brace s'
  | _ => true
  end.

(** A shell and a [.env] that both set the DeepSeek key; the shell's is
    empty. *)
Definition shell_empty_key : environ := {[py "DEEPSEEK_API_KEY" := []]}.
Definition dotenv_key : list binding :=
  [(py "DEEPSEEK_API_KEY", Some (py "sk-1")); (py "MODEL_PROVIDER", Some (py "deepseek"))].

(** ** [set_as_environment_variables] *)

Lemma dict_get_keys (d : list (pystr * option pystr)) (k : pystr) :
  k ∉ d.*1 -> dict_get d k = None.
Proof.
  induction d as [| [k' v] d IH]; intros Hk; [reflexivity |]. cbn.
  rewrite fmap_cons, elem_of_cons in Hk. case_bool_decide; [naive_solver |].
  apply IH. naive_solver.
Qed.

Lemma set_env_cons (env : environ) (k : pystr) (v : option pystr) (d : list (pystr * option pystr)) :
  set_as_environment_variables env ((k, v) :: d) =
  set_as_environment_variables
    (match env !! k with
     | Some _ => env
     | None => match v with Some s => <[k := s]> env | None => env end
     end) d.
Proof. reflexivity. Qed.

(** A key already set is never written. *)
Lemma set_env_keep (env : environ) (d : list (pystr * option pystr)) (k v : pystr) :
  env !! k = Some v -> set_as_environment_variables env d !! k = Some v.
Proof.
  revert env. induction d as [| [k' v'] d IH]; intros env Hk; [exact Hk |].
  rewrite set_env_cons. apply IH.
  destruct (env !! k') eqn:E; [exact Hk |]. destruct v' as [s |]; [| exact Hk].
  rewrite lookup_insert_ne; [exact Hk | congruence].
Qed.

(** The environment after [set_as_environment_variables]: a key
    already set keeps its value, any other takes the dict's value when
    there is one. *)
Lemma set_env_lookup (env : environ) (d : list (pystr * option pystr)) (k : pystr) :
  NoDup d.*1 ->
  set_as_environment_variables env d !! k =
    match env !! k with Some v => Some v | None => dict_get d k ≫= id end.
Proof.
  revert env. induction d as [| [k' v] d IH]; intros env Hnd; [cbn; destruct (env !! k); reflexivity |].
  rewrite fmap_cons in Hnd. apply NoDup_cons in Hnd as [Hk' Hnd].
  rewrite set_env_cons, IH by exact Hnd. cbn [dict_get].
  case_bool_decide as Heq.
  - subst k'. rewrite dict_get_keys by exact Hk'.
    destruct (env !! k) eqn:E; [rewrite E; reflexivity |].
    destruct v; [rewrite lookup_insert_eq |]; rewrite ?E; reflexivity.
  - destruct (env !! k') eqn:E; [reflexivity |].
    destruct v; [rewrite lookup_insert_ne by exact Heq |]; reflexivity.
Qed.

Lemma dict_assign_keys (k : pystr) (v : option pystr) (d : list (pystr * option pystr)) :
  NoDup d.*1 -> NoDup (dict_assign k v d).*1.
Proof.
  induction d as [| [k' v'] d IH]; intros Hnd; cbn [dict_assign].
  - repeat constructor. set_solver.
  - rewrite fmap_cons in Hnd. apply NoDup_cons in Hnd as [Hk' Hnd].
    case_bool_decide as Heq; [subst k'; rewrite fmap_cons; constructor; assumption |].
    rewrite fmap_cons. constructor; [| apply IH, Hnd].
    clear IH Hnd. induction d as [| [k'' v''] d IHd]; cbn; [set_solver |].
    case_bool_decide; rewrite fmap_cons in Hk' |- *; set_solver.
Qed.

Lemma resolve_variables_nodup (os_env : environ) (raw : list binding) :
  NoDup (resolve_variables os_env raw).*1.
Proof.
  unfold resolve_variables.
  cut (forall l : list (pystr * option pystr), NoDup l.*1 ->
         NoDup (foldl (fun new_values '(name, value) =>
                         dict_assign name
                           ((fun v => resolve_value (interp_env os_env new_values) v) <$> value)
                           new_values) l raw).*1);
    [intros H; apply H; constructor |].
  induction raw as [| [name value] raw IH]; intros l Hl; [exact Hl |].
  cbn [foldl]. apply IH, dict_assign_keys, Hl.
Qed.

(** C34: [load_dotenv()] with [override=False] never changes a variable
    the shell set; every other variable takes the value the [.env] file
    gives it after interpolation, and one the file leaves without a
    value stays unset. *)
Theorem load_dotenv_lookup (os_env : environ) (raw : list binding) (k : pystr) :
  load_dotenv os_env (Some raw) !! k =
    match os_env !! k with
    | Some v => Some v
    | None => dict_get (resolve_variables os_env raw) k ≫= id
    end.
Proof. apply set_env_lookup, resolve_variables_nodup. Qed.

(** ** Interpolation *)

Lemma match_variable_none (s : pystr) : no_dollar_brace s = true -> match_variable s = None.
Proof.
  destruct s as [| a [| b s]]; try reflexivity. cbn [no_dollar_brace].
  intros [Hab _]%andb_true_iff. unfold match_variable.
  apply negb_true_iff in Hab. rewrite Hab. reflexivity.
Qed.

Lemma no_dollar_brace_tail (a : N) (s : pystr) :
  no_dollar_brace (a :: s) = true -> no_dollar_brace s = true.
Proof. destruct s; [reflexivity |]. cbn [no_dollar_brace]. intros [_ H]%andb_true_iff. exact H. Qed.

Lemma rev_nil_iff (l : pystr) : rev l = [] <-> l = [].
Proof.
  split; [| intros ->; reflexivity].
  intros H. apply (f_equal (@rev N)) in H. rewrite rev_involutive in H. exact H.
Qed.

Lemma parse_variables_literal (f : nat) (s lit : pystr) :
  no_dollar_brace s = true -> (length s <= f)%nat ->
  parse_variables_from f s lit =
    if bool_decide (rev lit ++ s = []) then [] else [Literal (rev lit ++ s)].
Proof.
  revert f lit. induction s as [| c s IH]; intros f lit Hs Hf.
  - rewrite app_nil_r, (bool_decide_ext _ _ (rev_nil_iff lit)). destruct f; reflexivity.
  - destruct f as [| f]; [cbn in Hf; lia |]. cbn [parse_variables_from].
    rewrite match_variable_none by exact Hs.
    rewrite IH by (apply no_dollar_brace_tail in Hs; exact Hs || (cbn in Hf; lia)).
    cbn [rev]. rewrite <- app_assoc. reflexivity.
Qed.

(** A value without [${] is left as it is, whatever the environment. *)
Lemma resolve_value_plain (lookup : pystr -> option (option pystr)) (v : pystr) :
  no_dollar_brace v = true -> resolve_value lookup v = v.
Proof.
  intros Hv. unfold resolve_value, parse_variables.
  rewrite parse_variables_literal by (exact Hv || lia). cbn [rev app].
  case_bool_decide as Hnil; [subst v; reflexivity |]. cbn. apply app_nil_r.
Qed.

(** C36: interpolation leaves a value without [${] as it is, and turns
    a value that is exactly [${NAME}] into the value of [NAME]: the
    shell's, else the file's so far, else the empty string. *)
Theorem resolve_value_cases (lookup : pystr -> option (option pystr)) (v name : pystr) :
  (no_dollar_brace v = true -> resolve_value lookup v = v) /\
  (forallb (fun c => negb ((c =? 125) || (c =? 58))) name = true ->
   resolve_value lookup ([36; 123] ++ name ++ [125]) =
     match lookup name with Some (Some x) => x | _ => [] end).
Proof.
  split.
  - apply resolve_value_plain.
  - intros Hn. unfold resolve_value, parse_variables.
    assert (Hspan : forall rest, span (fun c => negb ((c =? 125) || (c =? 58))) (name ++ 125 :: rest)
                                = (name, 125 :: rest)).
    { intros rest. clear lookup. induction name as [| c name IHn]; [reflexivity |].
      cbn in Hn |- *. apply andb_true_iff in Hn as [Hc Hn]. rewrite Hc, IHn by exact Hn.
      reflexivity. }
    cbn [app length]. cbn [parse_variables_from]. unfold match_variable.
    cbn [N.eqb Pos.eqb andb]. rewrite Hspan. cbn.
    destruct (lookup name) as [[x |] |]; cbn; rewrite ?app_nil_r; reflexivity.
Qed.

Lemma resolve_value_cases_witness :
  resolve_value (interp_env ∅ []) (py "sk-1") = py "sk-1" /\
  resolve_value (interp_env {[py "A" := py "s"]} []) ([36; 123] ++ py "A" ++ [125]) = py "s".
Proof.
  split.
  - apply (proj1 (resolve_value_cases (interp_env ∅ []) (py "sk-1") (py "A"))).
    vm_compute. reflexivity.
  - rewrite (proj2 (resolve_value_cases (interp_env {[py "A" := py "s"]} []) [] (py "A")))
      by (vm_compute; reflexivity).
    vm_compute. reflexivity.
Defined.

End Dotenv.
