(* ===== verification/DotenvParser.v ===== *)
(** * The [.env] text: python-dotenv's parser

    Module [DotenvParser] reads the text of the [.env] file into the
    bindings that [Dotenv.load_dotenv] takes, after python-dotenv 1.x's
    [dotenv/parser.py] ([Reader], [parse_binding], [parse_key],
    [parse_value], [parse_stream]) and [DotEnv.parse], which keeps the
    bindings that have a key.  The reader's state is the rest of the
    text; each regular expression of the parser is a function that
    reads a prefix of it, [None] where [read_regex] raises [Error].
    [\s] is [PyStr.isspace], the [Py_UNICODE_ISSPACE] of [re]'s
    Unicode patterns, and [[^\S\r\n]] is [is_hspace].  The warnings for
    invalid lines are logging, not modelled. *)

From S2P Require Import Prelude PyStr Resolver Dotenv.
Import Resolver Dotenv.
Open Scope N_scope.

Module DotenvParser.

(** A binding as [parse_binding] returns it: key, value, [error]. *)
Record parsed := { b_key : option pystr; b_value : option pystr; b_error : bool }.

Definition is_nl (c : N) : bool := (c =? 10) || (c =? 13).

(** [[^\S\r\n]]: whitespace other than a line break. *)
Definition is_hspace (c : N) : bool := PyStr.isspace c && negb (is_nl c).

(** The rest after the longest prefix whose characters satisfy [p]. *)
Definition skip (p : N -> bool) (s : pystr) : pystr := snd (span p s).

(** [reader.peek(1) == c] *)
Definition peek_is (c : N) (s : pystr) : bool :=
  match s with d :: _ => d =? c | [] => false end.

(** [_export]: [(?:export[^\S\r\n]+)?], the word [export] and at
    least one horizontal space, or nothing. *)
Definition read_export (s : pystr) : pystr :=
  let r := drop 6 s in
  if bool_decide (take 6 s = py "export") &&
     match r with c :: _ => is_hspace c | [] => false end
  then skip is_hspace r else s.

(** [parse_key]: [None] at a comment; [_single_quoted_key]
    [['([^']+)']] or [_unquoted_key] [([^=\#\s]+)]; the outer [None]
    is [Error]. *)
Definition parse_key (s : pystr) : option (option pystr * pystr) :=
  if peek_is 35 s then Some (None, s)
  else if peek_is 39 s then
    let '(k, r) := span (fun c => negb (c =? 39)) (tail s) in
    match k with
    | [] => None
    | _ => if peek_is 39 r then Some (Some k, tail r) else None
    end
  else
    let '(k, r) := span (fun c => negb ((c =? 61) || (c =? 35) || PyStr.isspace c)) s in
    match k with [] => None | _ => Some (Some k, r) end.

(** The body of [_single_quoted_value] after its opening quote [q]
    (and of [_double_quoted_value]): any number of [\q] or characters
    other than [q], then [q], in the order [re] tries them: [\q] first,
    then any other character, then the closing quote.  When no quote closes the
    value, the last [\q] read is taken back: its backslash is a
    character and its quote closes the value. *)
Fixpoint quoted_body (q : N) (s : pystr) : option (pystr * pystr) :=
  match s with
  | [] => None
  | c :: s1 =>
      if c =? q then Some ([], s1)
      else
        match s1 with
        | d :: s2 =>
            if (c =? 92) && (d =? q) then
              match quoted_body q s2 with
              | Some (t, r) => Some (92 :: q :: t, r)
              | None => Some ([92], s2)
              end
            else
              match quoted_body q s1 with
              | Some (t, r) => Some (c :: t, r)
              | None => None
              end
        | [] => None
        end
  end.

(** [decode_escapes(_double_quote_escapes, v)]: a backslash followed
    by a backslash, a quote or a double quote, or by one of [a b f n r
    t v], is replaced by its character
    ([codecs.decode(..., 'unicode-escape')]), left to right. *)
Definition double_escape (c : N) : option N :=
  if c =? 92 then Some 92 else if c =? 39 then Some 39 else if c =? 34 then Some 34
  else if c =? 97 then Some 7 else if c =? 98 then Some 8 else if c =? 102 then Some 12
  else if c =? 110 then Some 10 else if c =? 114 then Some 13 else if c =? 116 then Some 9
  else if c =? 118 then Some 11 else None.

(** [decode_escapes(_single_quote_escapes, v)]: [\\] and [\'] only. *)
Definition single_escape (c : N) : option N :=
  if c =? 92 then Some 92 else if c =? 39 then Some 39 else None.

Fixpoint decode_escapes (esc : N -> option N) (s : pystr) : pystr :=
  match s with
  | 92 :: s1 =>
      match s1 with
      | c :: s' =>
          match esc c with
          | Some d => d :: decode_escapes esc s'
          | None => 92 :: decode_escapes esc s1
          end
      | [] => [92]
      end
  | c :: s' => c :: decode_escapes esc s'
  | [] => []
  end.

(** [re.sub] of the pattern [\s+#.*] by the empty string: the value
    stops at the first run of whitespace followed by [#]. *)
Fixpoint cut_comment (s : pystr) : pystr :=
  match s with
  | [] => []
  | c :: s' =>
      if PyStr.isspace c && peek_is 35 (skip PyStr.isspace s') then []
      else c :: cut_comment s'
  end.

(** [parse_value] of [dotenv/parser.py]; [None] is [Error]. *)
Definition parse_env_value (s : pystr) : option (pystr * pystr) :=
  if peek_is 39 s then
    match quoted_body 39 (tail s) with
    | Some (v, r) => Some (decode_escapes single_escape v, r)
    | None => None
    end
  else if peek_is 34 s then
    match quoted_body 34 (tail s) with
    | Some (v, r) => Some (decode_escapes double_escape v, r)
    | None => None
    end
  else
    match s with
    | [] => Some ([], [])
    | c :: _ =>
        if is_nl c then Some ([], s)
        else
          (* [parse_unquoted_value]: up to the line break, the comment cut, [rstrip] *)
          let '(part, r) := span (fun d => negb (is_nl d)) s in
          Some (PyStr.rstrip (cut_comment part), r)
    end.

(** [_comment]: optionally, horizontal whitespace, [#] and the rest of
    the line. *)
Definition read_comment (s : pystr) : pystr :=
  let r := skip is_hspace s in
  if peek_is 35 r then skip (fun d => negb (is_nl d)) (tail r) else s.

(** [_end_of_line]: [[^\S\r\n]*(?:\r\n|\n|\r|$)]; [None] is [Error]. *)
Definition read_end_of_line (s : pystr) : option pystr :=
  match skip is_hspace s with
  | 13 :: 10 :: r => Some r
  | 10 :: r => Some r
  | 13 :: r => Some r
  | [] => Some []
  | _ => None
  end.

(** [_rest_of_line]: [[^\r\n]*(?:\r|\n|\r\n)?] *)
Definition read_rest_of_line (s : pystr) : pystr :=
  match skip (fun d => negb (is_nl d)) s with
  | 13 :: r => r
  | 10 :: r => r
  | r => r
  end.

(** The [try] block of [parse_binding] after the leading whitespace:
    the key, the value after [=], the comment, the end of the line; an
    [Error] carries the text where it was raised. *)
Definition binding_body (s : pystr) : pystr + (option pystr * option pystr * pystr) :=
  let s2 := read_export s in
  match parse_key s2 with
  | None => inl s2
  | Some (key, s3) =>
      let s4 := skip is_hspace s3 in
      let value :=
        if peek_is 61 s4 then
          let s5 := skip is_hspace (tail s4) in
          match parse_env_value s5 with
          | Some (v, r) => inr (Some v, r)
          | None => inl s5
          end
        else inr (None, s4) in
      match value with
      | inl e => inl e
      | inr (v, s6) =>
          let s7 := read_comment s6 in
          match read_end_of_line s7 with
          | Some s8 => inr (key, v, s8)
          | None => inl s7
          end
      end
  end.

(** [parse_binding]: after [_multiline_whitespace], nothing left is an
    empty binding; an [Error] skips the rest of its line. *)
Definition parse_binding (s : pystr) : parsed * pystr :=
  match skip PyStr.isspace s with
  | [] => ({| b_key := None; b_value := None; b_error := false |}, [])
  | s1 =>
      match binding_body s1 with
      | inl e => ({| b_key := None; b_value := None; b_error := true |}, read_rest_of_line e)
      | inr (k, v, r) => ({| b_key := k; b_value := v; b_error := false |}, r)
      end
  end.

(** [parse_stream]: [while reader.has_next(): yield parse_binding(reader)],
    one step of fuel per binding. *)
Fixpoint parse_stream (fuel : nat) (s : pystr) : list parsed :=
  match fuel with
  | O => []
  | S f =>
      match s with
      | [] => []
      | _ => let '(b, r) := parse_binding s in b :: parse_stream f r
      end
  end.

(** [DotEnv.parse]: the bindings with a key, from the whole text. *)
Definition dotenv_parse (text : pystr) : list binding :=
  omap (fun b => match b_key b with Some k => Some (k, b_value b) | None => None end)
       (parse_stream (length text) text).

(** [load_dotenv()] with the text of the [.env] file found, if any. *)
Definition load_dotenv_text (os_env : environ) (text : option pystr) : environ :=
  load_dotenv os_env (dotenv_parse <$> text).

(** ** Plain lines *)

(** A key [_unquoted_key] reads whole: not empty, no [=], [#] or
    whitespace, no opening quote. *)
Definition key_plain (k : pystr) : bool :=
  bool_decide (k <> []) && forallb (fun c => negb ((c =? 61) || (c =? 35) || PyStr.isspace c)) k
  && negb (peek_is 39 k).

(** No whitespace run followed by [#]: nothing for the comment cut. *)
Fixpoint no_space_hash (s : pystr) : bool :=
  match s with
  | [] => true
  | c :: s' => negb (PyStr.isspace c && peek_is 35 (skip PyStr.isspace s')) && no_space_hash s'
  end.

(** A value [parse_unquoted_value] reads back as it is: on one line,
    not quoted, no leading horizontal space (eaten by [_equal_sign]),
    no comment, no trailing whitespace (eaten by [rstrip]). *)
Definition value_plain (v : pystr) : bool :=
  forallb (fun c => negb (is_nl c)) v && negb (peek_is 39 v) && negb (peek_is 34 v)
  && negb (match v with c :: _ => is_hspace c | [] => false end) && no_space_hash v
  && match last v with Some c => negb (PyStr.isspace c) | None => true end.

(** ** Every binding consumes text *)

Lemma span_length (p : N -> bool) (s a b : pystr) :
  span p s = (a, b) -> length s = (length a + length b)%nat.
Proof.
  revert a b. induction s as [| c s IH]; intros a b; cbn; [intros [= <- <-]; reflexivity |].
  destruct (p c); [| intros [= <- <-]; reflexivity].
  destruct (span p s) as [a' b'] eqn:E. intros [= <- <-]. cbn. rewrite (IH a' b'); auto.
Qed.

Lemma skip_length (p : N -> bool) (s : pystr) : (length (skip p s) <= length s)%nat.
Proof.
  unfold skip. destruct (span p s) as [a b] eqn:E. apply span_length in E. cbn. lia.
Qed.

Lemma skip_stop (p : N -> bool) (c : N) (s : pystr) : p c = false -> skip p (c :: s) = c :: s.
Proof. intros Hc. unfold skip. cbn. rewrite Hc. reflexivity. Qed.

Lemma tail_length_le (s : pystr) : (length (tail s) <= length s)%nat.
Proof. destruct s; cbn; lia. Qed.

Lemma peek_is_length (c : N) (s : pystr) : peek_is c s = true -> S (length (tail s)) = length s.
Proof. destruct s; [discriminate | reflexivity]. Qed.

Lemma read_export_length (s : pystr) : (length (read_export s) <= length s)%nat.
Proof.
  unfold read_export. destruct (_ && _); [| lia].
  pose proof (skip_length is_hspace (drop 6 s)). rewrite length_drop in H. lia.
Qed.

Lemma parse_key_length (s : pystr) (k : option pystr) (r : pystr) :
  parse_key s = Some (k, r) ->
  (k <> None /\ (length r < length s)%nat) \/ (k = None /\ r = s /\ peek_is 35 s = true).
Proof.
  unfold parse_key. destruct (peek_is 35 s) eqn:Hh; [intros [= <- <-]; right; auto |].
  destruct (peek_is 39 s) eqn:Hq.
  - apply peek_is_length in Hq.
    destruct (span _ (tail s)) as [[| c a] b] eqn:E; [discriminate |].
    destruct (peek_is 39 b) eqn:Hb; [| discriminate]. intros [= <- <-]. left.
    apply span_length in E. apply peek_is_length in Hb. cbn in E. split; [discriminate | lia].
  - destruct (span _ s) as [[| c a] b] eqn:E; [discriminate |]. intros [= <- <-]. left.
    apply span_length in E. cbn in E. split; [discriminate | lia].
Qed.

Lemma quoted_body_length (q : N) (s t r : pystr) :
  quoted_body q s = Some (t, r) -> (length r < length s)%nat.
Proof.
  remember (length s) as n eqn:Hn. revert s t Hn.
  induction n as [n IH] using lt_wf_ind. intros s t Hn.
  destruct s as [| c s1]; [discriminate |]. cbn [quoted_body].
  destruct (c =? q); [intros [= _ <-]; cbn in Hn; lia |].
  destruct s1 as [| d s2]; [discriminate |].
  destruct ((c =? 92) && (d =? q)).
  - cbn in Hn. destruct (quoted_body q s2) as [[t' r'] |] eqn:E.
    + intros [= _ <-]. pose proof (IH (length s2) ltac:(lia) s2 t' eq_refl E). lia.
    + intros [= _ <-]. lia.
  - cbn in Hn. destruct (quoted_body q (d :: s2)) as [[t' r'] |] eqn:E; [| discriminate].
    intros [= _ <-]. pose proof (IH (length (d :: s2)) ltac:(cbn; lia) _ t' eq_refl E). cbn in *. lia.
Qed.

Lemma parse_value_length (s v r : pystr) :
  parse_env_value s = Some (v, r) -> (length r <= length s)%nat.
Proof.
  unfold parse_env_value. destruct (peek_is 39 s) eqn:H1.
  { destruct (quoted_body 39 (tail s)) as [[t r'] |] eqn:E; [| discriminate].
    intros [= _ <-]. apply quoted_body_length in E. pose proof (tail_length_le s). lia. }
  destruct (peek_is 34 s) eqn:H2.
  { destruct (quoted_body 34 (tail s)) as [[t r'] |] eqn:E; [| discriminate].
    intros [= _ <-]. apply quoted_body_length in E. pose proof (tail_length_le s). lia. }
  destruct s as [| c s']; [intros [= _ <-]; lia |].
  destruct (is_nl c); [intros [= _ <-]; lia |].
  destruct (span _ (c :: s')) as [part r'] eqn:E. intros [= _ <-].
  apply span_length in E. lia.
Qed.

Lemma read_comment_length (s : pystr) : (length (read_comment s) <= length s)%nat.
Proof.
  unfold read_comment. destruct (peek_is 35 _); [| lia].
  pose proof (skip_length (fun d => negb (is_nl d)) (tail (skip is_hspace s))).
  pose proof (tail_length_le (skip is_hspace s)). pose proof (skip_length is_hspace s). lia.
Qed.

(** At a comment, [_comment] reads at least the [#]. *)
Lemma read_comment_hash (s : pystr) :
  peek_is 35 s = true -> (length (read_comment s) < length s)%nat.
Proof.
  intros H. destruct s as [| c s']; [discriminate |]. cbn in H. apply N.eqb_eq in H. subst c.
  unfold read_comment. rewrite skip_stop by reflexivity. cbn [peek_is N.eqb Pos.eqb tail].
  pose proof (skip_length (fun d => negb (is_nl d)) s'). cbn. lia.
Qed.

Lemma read_end_of_line_length (s r : pystr) :
  read_end_of_line s = Some r -> (length r <= length s)%nat.
Proof.
  unfold read_end_of_line. pose proof (skip_length is_hspace s).
  destruct (skip is_hspace s) as [| c r']; [intros [= <-]; cbn; lia |].
  repeat case_match; intros [= <-]; subst; cbn in *; lia.
Qed.

Lemma read_rest_of_line_length (s : pystr) :
  s <> [] -> (length (read_rest_of_line s) < length s)%nat.
Proof.
  intros Hs. unfold read_rest_of_line, skip.
  destruct (span (fun d => negb (is_nl d)) s) as [a b] eqn:E. cbn [snd].
  pose proof (span_length _ _ _ _ E) as Hl.
  destruct a as [| c a].
  - destruct s as [| c s]; [congruence |]. cbn in E.
    destruct (negb (is_nl c)) eqn:Hc; [destruct (span _ s); discriminate |].
    injection E as <-. apply negb_false_iff in Hc. unfold is_nl in Hc.
    destruct (orb_true_elim _ _ Hc) as [H | H]; apply N.eqb_eq in H; subst c; cbn; lia.
  - repeat case_match; subst; cbn in *; lia.
Qed.

Lemma binding_body_error (s e : pystr) :
  binding_body s = inl e -> (length e <= length s)%nat.
Proof.
  unfold binding_body. pose proof (read_export_length s) as Hx.
  destruct (parse_key (read_export s)) as [[k s3] |] eqn:K; [| intros [= <-]; lia].
  assert (H3 : (length s3 <= length (read_export s))%nat)
    by (destruct (parse_key_length _ _ _ K) as [[_ ?] | (_ & -> & _)]; lia).
  pose proof (skip_length is_hspace s3) as H4.
  destruct (peek_is 61 (skip is_hspace s3)).
  - pose proof (tail_length_le (skip is_hspace s3)).
    pose proof (skip_length is_hspace (tail (skip is_hspace s3))).
    destruct (parse_env_value _) as [[v r] |] eqn:V; [| intros [= <-]; lia].
    apply parse_value_length in V. pose proof (read_comment_length r).
    destruct (read_end_of_line _); [discriminate | intros [= <-]; lia].
  - pose proof (read_comment_length (skip is_hspace s3)).
    destruct (read_end_of_line _); [discriminate | intros [= <-]; lia].
Qed.

(** A binding that parses consumes text: a key, or at least the [#] of
    a comment. *)
Lemma binding_body_ok (s : pystr) (k v : option pystr) (r : pystr) :
  binding_body s = inr (k, v, r) -> (length r < length s)%nat.
Proof.
  unfold binding_body. pose proof (read_export_length s) as Hx.
  destruct (parse_key (read_export s)) as [[k' s3] |] eqn:K; [| discriminate].
  destruct (parse_key_length _ _ _ K) as [[_ H3] | (_ & -> & Hh)].
  - pose proof (skip_length is_hspace s3) as H4.
    destruct (peek_is 61 (skip is_hspace s3)).
    + pose proof (tail_length_le (skip is_hspace s3)).
      pose proof (skip_length is_hspace (tail (skip is_hspace s3))).
      destruct (parse_env_value _) as [[v' r'] |] eqn:V; [| discriminate].
      apply parse_value_length in V. pose proof (read_comment_length r').
      destruct (read_end_of_line _) eqn:L; [| discriminate].
      apply read_end_of_line_length in L. intros [= _ _ <-]. lia.
    + pose proof (read_comment_length (skip is_hspace s3)).
      destruct (read_end_of_line _) eqn:L; [| discriminate].
      apply read_end_of_line_length in L. intros [= _ _ <-]. lia.
  - destruct (read_export s) as [| c t] eqn:Ex; [discriminate |].
    cbn in Hh. apply N.eqb_eq in Hh. subst c.
    rewrite skip_stop by reflexivity. cbn [peek_is N.eqb Pos.eqb].
    pose proof (read_comment_hash (35 :: t) eq_refl).
    destruct (read_end_of_line _) eqn:L; [| discriminate].
    apply read_end_of_line_length in L. intros [= _ _ <-]. lia.
Qed.

Lemma parse_binding_length (s : pystr) :
  s <> [] -> (length (snd (parse_binding s)) < length s)%nat.
Proof.
  intros Hs. unfold parse_binding. pose proof (skip_length PyStr.isspace s) as Hk.
  destruct (skip PyStr.isspace s) as [| c t] eqn:E; [cbn; destruct s; [congruence | cbn; lia] |].
  destruct (binding_body (c :: t)) as [e | [[k v] r]] eqn:B; cbn [snd].
  - apply binding_body_error in B. destruct e as [| d e]; [cbn in *; lia |].
    pose proof (read_rest_of_line_length (d :: e) ltac:(discriminate)). lia.
  - apply binding_body_ok in B. lia.
Qed.

(** [parse_stream] needs one step per character at most: any more fuel
    gives the same bindings. *)
Lemma parse_stream_fuel (f g : nat) (s : pystr) :
  (length s <= f)%nat -> (length s <= g)%nat -> parse_stream f s = parse_stream g s.
Proof.
  revert g s. induction f as [| f IH]; intros g s Hf Hg.
  - destruct s; [destruct g; reflexivity | cbn in Hf; lia].
  - destruct s as [| c t]; [destruct g; reflexivity |].
    destruct g as [| g]; [cbn in Hg; lia |]. cbn [parse_stream].
    pose proof (parse_binding_length (c :: t) ltac:(discriminate)) as Hl.
    destruct (parse_binding (c :: t)) as [b r]. cbn in Hl, Hf, Hg.
    f_equal. apply IH; lia.
Qed.

(** ** A plain line reads back *)

Lemma span_prefix (p : N -> bool) (k : pystr) (c : N) (x : pystr) :
  forallb p k = true -> p c = false -> span p (k ++ c :: x) = (k, c :: x).
Proof.
  intros Hk Hc. induction k as [| d k IH]; cbn; [rewrite Hc; reflexivity |].
  cbn in Hk. apply andb_true_iff in Hk as [Hd Hk]. rewrite Hd, IH by exact Hk. reflexivity.
Qed.

Lemma py_export : py "export" = [101; 120; 112; 111; 114; 116].
Proof. reflexivity. Qed.

Lemma key_plain_chars (k : pystr) (c : N) :
  key_plain k = true -> c ∈ k -> PyStr.isspace c = false /\ c <> 61 /\ c <> 35.
Proof.
  unfold key_plain. intros [[_ Hk]%andb_true_iff _]%andb_true_iff Hc.
  rewrite forallb_forall in Hk. apply list_elem_of_In, Hk in Hc.
  apply negb_true_iff, orb_false_iff in Hc as [[H61 H35]%orb_false_iff Hs].
  apply N.eqb_neq in H61, H35. auto.
Qed.

(** [_export] reads nothing before a plain key: [export] would have to
    be followed by a space inside the key. *)
Lemma read_export_plain (k x : pystr) :
  key_plain k = true -> read_export (k ++ 61 :: x) = k ++ 61 :: x.
Proof.
  intros Hk. unfold read_export.
  destruct (decide (length k < 6)%nat) as [Hl | Hl].
  - rewrite bool_decide_eq_false_2; [reflexivity |]. rewrite py_export. intros H.
    assert (Hin : 61 ∈ take 6 (k ++ 61 :: x)).
    { rewrite take_app, elem_of_app. right.
      replace (6 - length k)%nat with (S (5 - length k)) by lia. cbn. left. }
    rewrite H in Hin. apply list_elem_of_In in Hin. cbn in Hin. lia.
  - assert (Hm : match drop 6 (k ++ 61 :: x) with c :: _ => is_hspace c | [] => false end = false).
    { rewrite drop_app_le by lia. destruct (drop 6 k) as [| c t] eqn:D; [reflexivity |].
      assert (Hc : c ∈ k) by (rewrite <- (take_drop 6 k), D; set_solver).
      cbn [app]. unfold is_hspace. rewrite (proj1 (key_plain_chars k c Hk Hc)). reflexivity. }
    rewrite Hm, andb_false_r. reflexivity.
Qed.

Lemma parse_key_plain (k x : pystr) :
  key_plain k = true -> parse_key (k ++ 61 :: x) = Some (Some k, 61 :: x).
Proof.
  intros Hk. pose proof Hk as Hk'. unfold key_plain in Hk'.
  apply andb_true_iff in Hk' as [[Hne Hall]%andb_true_iff Hq]. apply bool_decide_eq_true in Hne.
  destruct k as [| c k]; [congruence |].
  unfold parse_key. cbn [app peek_is].
  destruct (key_plain_chars (c :: k) c Hk ltac:(left)) as (_ & _ & H35).
  rewrite (proj2 (N.eqb_neq c 35) H35). cbn in Hq. apply negb_true_iff in Hq. rewrite Hq.
  change (c :: k ++ 61 :: x) with ((c :: k) ++ 61 :: x). rewrite span_prefix by (exact Hall || reflexivity).
  reflexivity.
Qed.

Lemma cut_comment_plain (v : pystr) : no_space_hash v = true -> cut_comment v = v.
Proof.
  induction v as [| c v IH]; [reflexivity |]. cbn. intros [Hc Hv]%andb_true_iff.
  apply negb_true_iff in Hc. rewrite Hc, IH by exact Hv. reflexivity.
Qed.

Lemma rstrip_plain (v : pystr) :
  match last v with Some c => negb (PyStr.isspace c) | None => true end = true ->
  PyStr.rstrip v = v.
Proof.
  destruct v as [| c v] using rev_ind; [reflexivity |]. rewrite last_snoc.
  intros H. apply negb_true_iff in H. apply PyStr.rstrip_nonspace, H.
Qed.

Lemma parse_value_plain (v rest : pystr) :
  value_plain v = true -> parse_env_value (v ++ 10 :: rest) = Some (v, 10 :: rest).
Proof.
  unfold value_plain.
  intros [[[[[Hnl H39]%andb_true_iff H34]%andb_true_iff _]%andb_true_iff Hh]%andb_true_iff Hl]%andb_true_iff.
  unfold parse_env_value. destruct v as [| c v']; [reflexivity |].
  cbn [app peek_is] in H39, H34 |- *. apply negb_true_iff in H39, H34. rewrite H39, H34.
  cbn [forallb] in Hnl. apply andb_true_iff in Hnl as [Hc Hnl]. apply negb_true_iff in Hc.
  rewrite Hc.
  change (c :: v' ++ 10 :: rest) with ((c :: v') ++ 10 :: rest).
  rewrite span_prefix; [| cbn [forallb]; rewrite Hc, Hnl; reflexivity | reflexivity].
  rewrite cut_comment_plain, rstrip_plain by assumption. reflexivity.
Qed.

Lemma parse_binding_plain (k v rest : pystr) :
  key_plain k = true -> value_plain v = true ->
  parse_binding (k ++ 61 :: v ++ 10 :: rest) =
    ({| b_key := Some k; b_value := Some v; b_error := false |}, rest).
Proof.
  intros Hk Hv. unfold parse_binding.
  assert (Hsk0 : skip PyStr.isspace (k ++ 61 :: v ++ 10 :: rest) = k ++ 61 :: v ++ 10 :: rest).
  { destruct k as [| c k']; [discriminate |].
    destruct (key_plain_chars (c :: k') c Hk ltac:(left)) as (Hs & _ & _).
    apply skip_stop, Hs. }
  rewrite Hsk0. destruct k as [| c k'] eqn:Ek; [discriminate |]. cbn [app].
  change (c :: k' ++ 61 :: v ++ 10 :: rest) with ((c :: k') ++ 61 :: v ++ 10 :: rest).
  rewrite <- Ek in Hk |- *. unfold binding_body.
  rewrite read_export_plain, parse_key_plain by exact Hk.
  rewrite skip_stop by reflexivity. cbn [peek_is N.eqb Pos.eqb tail].
  assert (Hsk : skip is_hspace (v ++ 10 :: rest) = v ++ 10 :: rest).
  { destruct v as [| d v']; [apply skip_stop; reflexivity |].
    apply skip_stop. unfold value_plain in Hv. cbn in Hv.
    destruct (is_hspace d); [rewrite !andb_false_r in Hv; discriminate | reflexivity]. }
  rewrite Hsk, parse_value_plain by exact Hv. reflexivity.
Qed.

(** [DotEnv.parse] of a text: the first binding, if it has a key, then
    the rest. *)
Lemma dotenv_parse_step (s r : pystr) (b : parsed) :
  s <> [] -> parse_binding s = (b, r) ->
  dotenv_parse s =
    match b_key b with Some k => [(k, b_value b)] | None => [] end ++ dotenv_parse r.
Proof.
  intros Hs E. pose proof (parse_binding_length s Hs) as Hl. rewrite E in Hl. cbn [snd] in Hl.
  unfold dotenv_parse. destruct s as [| c t]; [congruence |]. cbn [length parse_stream].
  rewrite E. cbn [omap list_omap]. cbn [length] in Hl.
  rewrite (parse_stream_fuel (length t) (length r) r) by lia.
  destruct (b_key b); reflexivity.
Qed.

(** C39: a line [KEY=value] with a plain key and value reads back as
    the binding [(KEY, value)], whatever follows it. *)
Theorem dotenv_line_roundtrip (k v rest : pystr) :
  key_plain k = true -> value_plain v = true ->
  dotenv_parse (k ++ [61] ++ v ++ [10] ++ rest) = (k, Some v) :: dotenv_parse rest.
Proof.
  intros Hk Hv. cbn [app].
  rewrite (dotenv_parse_step (k ++ 61 :: v ++ 10 :: rest) rest _ ltac:(intros Hn; apply app_eq_nil in Hn as [_ Hn]; discriminate)
             (parse_binding_plain k v rest Hk Hv)).
  reflexivity.
Qed.

Section Configured.
Context `{PyStr.UnicodeCase}.

(** C40: a [.env] file holding the line [DEEPSEEK_API_KEY=key], with a
    plain key, configures the DeepSeek client with that key when the
    shell does not set the variable: [init_client] prints nothing and
    returns [('deepseek', key)]. *)
Theorem dotenv_text_configures_deepseek (shell : environ) (k : pystr) :
  shell !! py "DEEPSEEK_API_KEY" = None ->
  value_plain k = true -> k <> [] -> no_dollar_brace k = true ->
  provider_name (load_dotenv_text shell (Some (py "DEEPSEEK_API_KEY=" ++ k ++ [10])))
    = py "deepseek" ->
  init_client (load_dotenv_text shell (Some (py "DEEPSEEK_API_KEY=" ++ k ++ [10]))) =
    ([], (Some (py "deepseek"), Some (HKey k))).
Proof.
  intros Hs Hv Hne Hd Hp.
  assert (Hparse : dotenv_parse (py "DEEPSEEK_API_KEY=" ++ k ++ [10]) =
                   [(py "DEEPSEEK_API_KEY", Some k)]).
  { replace (py "DEEPSEEK_API_KEY=" ++ k ++ [10])
      with (py "DEEPSEEK_API_KEY" ++ 61 :: k ++ 10 :: []) by (vm_compute; reflexivity).
    rewrite (dotenv_parse_step (py "DEEPSEEK_API_KEY" ++ 61 :: k ++ 10 :: []) []
               _ ltac:(vm_compute; discriminate)
               (parse_binding_plain (py "DEEPSEEK_API_KEY") k [] ltac:(vm_compute; reflexivity) Hv)).
    reflexivity. }
  assert (Hk : load_dotenv_text shell (Some (py "DEEPSEEK_API_KEY=" ++ k ++ [10]))
                 !! py "DEEPSEEK_API_KEY" = Some k).
  { unfold load_dotenv_text. cbn [fmap option_fmap option_map]. rewrite Hparse.
    cbn [load_dotenv]. rewrite set_env_lookup by apply resolve_variables_nodup. rewrite Hs.
    cbn. rewrite resolve_value_plain by exact Hd.
    rewrite bool_decide_eq_true_2 by reflexivity. reflexivity. }
  unfold init_client, getenv, falsy_str. rewrite Hp.
  rewrite bool_decide_eq_true_2 by reflexivity. rewrite Hk.
  rewrite bool_decide_eq_false_2 by exact Hne. reflexivity.
Qed.

End Configured.

Lemma dotenv_line_roundtrip_witness :
  dotenv_parse (py "DEEPSEEK_API_KEY" ++ [61] ++ py "sk-1" ++ [10] ++ py "MODEL_PROVIDER=deepseek") =
    (py "DEEPSEEK_API_KEY", Some (py "sk-1")) :: dotenv_parse (py "MODEL_PROVIDER=deepseek").
Proof. apply dotenv_line_roundtrip; vm_compute; reflexivity. Defined.

Lemma dotenv_text_configures_deepseek_witness :
  @init_client PyStr.ucd_sample (load_dotenv_text ∅ (Some (py "DEEPSEEK_API_KEY=" ++ py "sk-1" ++ [10]))) =
    ([], (Some (py "deepseek"), Some (HKey (py "sk-1")))).
Proof.
  apply (@dotenv_text_configures_deepseek PyStr.ucd_sample);
    vm_compute; first [reflexivity | discriminate].
Defined.

End DotenvParser.
