(* ===== verification/Net.v ===== *)
(** * The network calls of main.py and the libraries behind them

    [requests.post] (line 66), [Response.raise_for_status] (line 67) and
    [Response.json] (line 69) of the requests library, and
    [client.chat.completions.create] (lines 84-91) of the openai
    library.  The network itself is not modelled: a call is an effect of
    the free monad [netM], whose answer (a response or an exception) the
    environment chooses.  [raise_for_status] and [json] are modelled after
    requests 2.32 ([models.py]), in which [JSONDecodeError] is a
    [RequestException]. *)

From S2P Require Import Prelude PyStr PyObj Resolver.
Import PyObj.
Open Scope N_scope.

Module Net.

(** ** requests *)

(** The arguments of [requests.post(url, json=data, headers=headers,
    timeout=30)]. *)
Record http_request := {
  req_url : pystr;
  req_headers : list (pystr * pystr);
  req_json : pyval;
  req_timeout : Z
}.

(** The body as [Response.json()] sees it: a decoded value, or text that
    is not JSON, with the decoder's message. *)
Inductive json_body :=
| JsonValue (v : pyval)
| JsonInvalid (msg : pystr).

Record http_response := {
  status_code : Z;
  reason : pystr;
  resp_url : pystr;
  resp_body : json_body
}.

(** What [requests.post] does: return a response or raise. *)
Abbreviation post_outcome := (pyexc + http_response)%type.

(** [Response.raise_for_status()] *)
Definition raise_for_status (r : http_response) : pyexc + unit :=
  let s := status_code r in
  let http_error_msg :=
    if ((400 <=? s) && (s <? 500))%Z then
      PyStr.str_int s ++ py " Client Error: " ++ reason r ++ py " for url: "
        ++ resp_url r
    else if ((500 <=? s) && (s <? 600))%Z then
      PyStr.str_int s ++ py " Server Error: " ++ reason r ++ py " for url: "
        ++ resp_url r
    else [] in
  if bool_decide (http_error_msg = []) then inr tt
  else raise (RequestException HTTPError http_error_msg).

(** [Response.json()] *)
Definition response_json (r : http_response) : pyexc + pyval :=
  match resp_body r with
  | JsonValue v => inr v
  | JsonInvalid m => raise (RequestException JSONDecodeError m)
  end.

(** ** openai *)

(** The arguments of [client.chat.completions.create(...)], with the
    client that makes the call. *)
Record chat_request := {
  oa_client : Resolver.openai_client;
  oa_model : pystr;
  oa_messages : pyval;
  oa_max_tokens : Z;
  oa_temperature : pyval
}.

(** A [ChatCompletion]: the [message.content] of each of its [choices],
    [None] when the model returned no text. *)
Record chat_completion := { oa_choices : list (option pystr) }.

Abbreviation create_outcome := (pyexc + chat_completion)%type.

(** ** The network effect *)

Inductive netM (A : Type) :=
| NRet (a : A)
| NPost (req : http_request) (k : post_outcome -> netM A)
| NCreate (req : chat_request) (k : create_outcome -> netM A).
Arguments NRet {A} a.
Arguments NPost {A} req k.
Arguments NCreate {A} req k.

(** A call as the environment sees it. *)
Inductive netcall :=
| CallPost (req : http_request)
| CallCreate (req : chat_request).

(** The calls a computation makes when every call is answered from the
    scripts [posts] and [creates], in order; [None] when a script runs
    out. *)
Fixpoint run_net {A} (m : netM A) (posts : list post_outcome)
    (creates : list create_outcome)
    : option (A * list netcall * list post_outcome * list create_outcome) :=
  match m with
  | NRet a => Some (a, [], posts, creates)
  | NPost req k =>
      match posts with
      | [] => None
      | o :: posts' =>
          match run_net (k o) posts' creates with
          | Some (a, calls, ps, cs) => Some (a, CallPost req :: calls, ps, cs)
          | None => None
          end
      end
  | NCreate req k =>
      match creates with
      | [] => None
      | o :: creates' =>
          match run_net (k o) posts creates' with
          | Some (a, calls, ps, cs) => Some (a, CallCreate req :: calls, ps, cs)
          | None => None
          end
      end
  end.

End Net.
