(* ===== verification/Adapter.v ===== *)
(** * The chat adapter: [chat_with_deepseek], [chat_with_openai] and
      [chat_with_ai] (src/main.py, lines 46-107)

    Each function is a computation of [Net.netM]: it makes its network
    call, and its [try] block and [except] clauses run on the answer the
    environment gives.  The [except] clauses are tried in the order of the
    source, and an exception that none of them matches (one that is not an
    [Exception], such as [KeyboardInterrupt]) leaves the function. *)

From S2P Require Import Prelude PyStr PyObj Resolver Net.
Import PyObj Net.
Open Scope N_scope.

Module Adapter.

Section Adapter.

(** [str(obj)] of an OpenAI client object: its default [repr], which
    holds a memory address and is left unspecified. *)
Variable client_repr : Resolver.openai_client -> pystr.

(** [f"{client_or_key}"]: the text of the second component of the
    result of [init_client]. *)
Definition handle_text (h : option Resolver.handle) : pystr :=
  match h with
  | Some (Resolver.HKey k) => k
  | Some (Resolver.HClient c) => client_repr c
  | None => py "None"
  end.

(** ** DeepSeek (lines 46-77) *)

Definition deepseek_url : pystr :=
  py "https://api.deepseek.com/v1/chat/completions".

Definition deepseek_headers (api_key : pystr) : list (pystr * pystr) :=
  [(py "Content-Type", py "application/json");
   (py "Authorization", py "Bearer " ++ api_key)].

Definition deepseek_data (message : pystr) : pyval :=
  VDict [(py "model", VStr (py "deepseek-chat"));
         (py "messages",
           VList [VDict [(py "role", VStr (py "user"));
                         (py "content", VStr message)]]);
         (py "stream", VBool false)].

Definition deepseek_request (api_key message : pystr) : http_request :=
  {| req_url := deepseek_url; req_headers := deepseek_headers api_key;
     req_json := deepseek_data message; req_timeout := 30 |}.

(** [result['choices'][0]['message']['content']] (line 70) *)
Definition content_of (result : pyval) : pyexc + pyval :=
  (let! choices := getitem result (KStr (py "choices")) in
   let! choice := getitem choices (KInt 0) in
   let! msg := getitem choice (KStr (py "message")) in
   getitem msg (KStr (py "content")))%py.

(** The [try] block after [requests.post] returned or raised (66-70). *)
Definition deepseek_try (o : post_outcome) : pyexc + pyval :=
  (let! response := o in
   let! _ := raise_for_status response in
   let! result := response_json response in
   content_of result)%py.

(** The three [except] clauses (72-77). *)
Definition deepseek_except (e : pyexc) : pyexc + pyval :=
  if is_request_exception e then
    inr (VStr (py "❌ DeepSeek API请求失败: " ++ exc_str e))
  else if is_key_error e then
    inr (VStr (py "❌ DeepSeek API响应格式错误: " ++ exc_str e))
  else if is_exception e then
    inr (VStr (py "❌ 未知错误: " ++ exc_str e))
  else raise e.

(** The value of the call once [requests.post] answered [o]. *)
Definition deepseek_answer (o : post_outcome) : pyexc + pyval :=
  try_except (deepseek_try o) deepseek_except.

Definition chat_with_deepseek (api_key message : pystr)
    : netM (pyexc + pyval) :=
  NPost (deepseek_request api_key message) (fun o => NRet (deepseek_answer o)).

(** ** OpenAI (lines 79-96) *)

Definition openai_messages (message : pystr) : pyval :=
  VList [VDict [(py "role", VStr (py "user")); (py "content", VStr message)]].

Definition openai_request (c : Resolver.openai_client) (message : pystr)
    : chat_request :=
  {| oa_client := c; oa_model := py "gpt-3.5-turbo";
     oa_messages := openai_messages message; oa_max_tokens := 1000;
     oa_temperature := VFloat (py "0.7") |}.

(** [response.choices[0].message.content] (line 93) *)
Definition openai_try (o : create_outcome) : pyexc + pyval :=
  (let! response := o in
   match seq_index (oa_choices response) 0 with
   | Some (Some text) => inr (VStr text)
   | Some None => inr VNone
   | None => raise (IndexError (py "list index out of range"))
   end)%py.

Definition openai_except (e : pyexc) : pyexc + pyval :=
  if is_exception e then inr (VStr (py "❌ OpenAI API请求失败: " ++ exc_str e))
  else raise e.

Definition openai_answer (o : create_outcome) : pyexc + pyval :=
  try_except (openai_try o) openai_except.

(** [client.chat] on a value that is not a client raises
    [AttributeError] inside the [try], before any call. *)
Definition chat_with_openai (client : option Resolver.handle) (message : pystr)
    : netM (pyexc + pyval) :=
  match client with
  | Some (Resolver.HClient c) =>
      NCreate (openai_request c message) (fun o => NRet (openai_answer o))
  | Some (Resolver.HKey _) =>
      NRet (openai_except (OtherError (py "AttributeError")
                             (py "'str' object has no attribute 'chat'")))
  | None =>
      NRet (openai_except (OtherError (py "AttributeError")
                             (py "'NoneType' object has no attribute 'chat'")))
  end.

(** ** Dispatch (lines 98-107) *)

Definition chat_with_ai (provider : option pystr)
    (client_or_key : option Resolver.handle) (message : pystr)
    : netM (pyexc + pyval) :=
  if bool_decide (provider = Some (py "deepseek")) then
    chat_with_deepseek (handle_text client_or_key) message
  else if bool_decide (provider = Some (py "openai")) then
    chat_with_openai client_or_key message
  else NRet (inr (VStr (py "❌ 不支持的AI提供商"))).

(** ** Witnesses *)

Definition hello_content : list (pystr * pyval) := [(py "content", VStr (py "hello"))].
Definition hello_choice : list (pystr * pyval) := [(py "message", VDict hello_content)].
Definition hello_body : list (pystr * pyval) :=
  [(py "choices", VList [VDict hello_choice])].

(** The server of spec.md section 8: status 200 and
    [{"choices":[{"message":{"content":"hello"}}]}]. *)
Definition resp_hello : http_response :=
  {| status_code := 200; reason := py "OK"; resp_url := deepseek_url;
     resp_body := JsonValue (VDict hello_body) |}.

Definition resp_500 : http_response :=
  {| status_code := 500; reason := py "Internal Server Error";
     resp_url := deepseek_url; resp_body := JsonInvalid (py "Expecting value") |}.

Definition resp_no_choices : http_response :=
  {| status_code := 200; reason := py "OK"; resp_url := deepseek_url;
     resp_body := JsonValue (VDict [(py "error", VStr (py "busy"))]) |}.

Definition resp_empty_choices : http_response :=
  {| status_code := 200; reason := py "OK"; resp_url := deepseek_url;
     resp_body := JsonValue (VDict [(py "choices", VList [])]) |}.

(** ** Theorems *)

(** A status for which [raise_for_status] does not raise. *)
Definition status_ok (s : Z) : Prop := (s < 400 \/ 600 <= s)%Z.

Lemma raise_for_status_ok (r : http_response) :
  status_ok (status_code r) -> raise_for_status r = inr tt.
Proof.
  unfold raise_for_status, status_ok. intros Hs.
  destruct (Z.leb_spec 400 (status_code r)), (Z.ltb_spec (status_code r) 500),
    (Z.leb_spec 500 (status_code r)), (Z.ltb_spec (status_code r) 600);
    simpl; try lia; reflexivity.
Qed.

(** Every exception the libraries' models raise is an [Exception]. *)
Lemma getitem_raises_exception (o : pyval) (k : key) (e : pyexc) :
  getitem o k = inl e -> is_exception e = true.
Proof.
  destruct o, k; simpl; unfold raise; repeat case_match; intros; simplify_eq; done.
Qed.

Lemma content_of_raises_exception (v : pyval) (e : pyexc) :
  content_of v = inl e -> is_exception e = true.
Proof.
  unfold content_of, bind_exc.
  repeat case_match; intros; simplify_eq; eauto using getitem_raises_exception.
Qed.

Lemma deepseek_try_raises (o : post_outcome) (e : pyexc) :
  deepseek_try o = inl e -> is_exception e = true \/ o = inl e.
Proof.
  unfold deepseek_try, bind_exc, raise_for_status, response_json, raise.
  repeat case_match; intros; simplify_eq;
    eauto using content_of_raises_exception.
Qed.

(** The answer when the server's status passes [raise_for_status] and
    its body is JSON. *)
Lemma deepseek_answer_json (r : http_response) (v : pyval) :
  status_ok (status_code r) -> resp_body r = JsonValue v ->
  deepseek_answer (inr r) = try_except (content_of v) deepseek_except.
Proof.
  intros Hs Hb. unfold deepseek_answer, deepseek_try. simpl.
  rewrite raise_for_status_ok by done. unfold response_json. by rewrite Hb.
Qed.

Lemma app_nonempty_r {A} (l1 l2 : list A) : l2 <> [] -> l1 ++ l2 <> [].
Proof. intros H Happ. apply app_eq_nil in Happ. tauto. Qed.

Lemma py_nonempty_client : py " Client Error: " <> [].
Proof. discriminate. Qed.

Lemma py_nonempty_server : py " Server Error: " <> [].
Proof. discriminate. Qed.

#[local] Hint Resolve app_nonempty_r py_nonempty_client py_nonempty_server
  : pymodel.


(** C8: when the server answers with a status below 400 (or 600 and
    above) and a JSON object whose [choices] is a list whose first
    element has a [message] with a [content], [chat_with_deepseek]
    returns that content, whatever its type. *)
Theorem deepseek_success (r : http_response) d d0 d1 rest (c : pyval) :
  status_ok (status_code r) -> resp_body r = JsonValue (VDict d) ->
  dict_lookup (py "choices") d = Some (VList (VDict d0 :: rest)) ->
  dict_lookup (py "message") d0 = Some (VDict d1) ->
  dict_lookup (py "content") d1 = Some c ->
  deepseek_answer (inr r) = inr c.
Proof.
  intros Hs Hb H1 H2 H3. rewrite (deepseek_answer_json r _ Hs Hb).
  unfold content_of. simpl. rewrite H1. simpl. rewrite H2. simpl.
  by rewrite H3.
Qed.

(** C9: a 4xx or 5xx status makes [chat_with_deepseek] return the
    request-failure message with the text of the [HTTPError] that
    [raise_for_status] raises, whatever the body. *)
Theorem deepseek_http_error (r : http_response) :
  (400 <= status_code r < 600)%Z ->
  deepseek_answer (inr r) =
    inr (VStr (py "❌ DeepSeek API请求失败: " ++ PyStr.str_int (status_code r)
               ++ (if (status_code r <? 500)%Z then py " Client Error: "
                   else py " Server Error: ")
               ++ reason r ++ py " for url: " ++ resp_url r)).
Proof.
  intros Hs. unfold deepseek_answer, deepseek_try, raise_for_status. simpl.
  destruct (Z.leb_spec 400 (status_code r)), (Z.ltb_spec (status_code r) 500),
    (Z.leb_spec 500 (status_code r)), (Z.ltb_spec (status_code r) 600);
    simpl; try lia;
    rewrite bool_decide_eq_false_2 by eauto 6 with pymodel; reflexivity.
Qed.

(** C10: a response whose JSON has no [choices] key gives the
    response-format message naming the missing key. *)
Theorem deepseek_missing_choices (r : http_response) d :
  status_ok (status_code r) -> resp_body r = JsonValue (VDict d) ->
  dict_lookup (py "choices") d = None ->
  deepseek_answer (inr r) =
    inr (VStr (py "❌ DeepSeek API响应格式错误: 'choices'")).
Proof.
  intros Hs Hb H1. rewrite (deepseek_answer_json r _ Hs Hb).
  unfold content_of. simpl. by rewrite H1.
Qed.

(** C11: an empty [choices] list raises [IndexError], which the third
    [except] clause reports as an unknown error, not as a
    response-format error. *)
Theorem deepseek_empty_choices (r : http_response) d :
  status_ok (status_code r) -> resp_body r = JsonValue (VDict d) ->
  dict_lookup (py "choices") d = Some (VList []) ->
  deepseek_answer (inr r) =
    inr (VStr (py "❌ 未知错误: " ++ py "list index out of range")).
Proof.
  intros Hs Hb H1. rewrite (deepseek_answer_json r _ Hs Hb).
  unfold content_of. simpl. by rewrite H1.
Qed.

(** C12: no [Exception] leaves [chat_with_deepseek]: it raises only when
    [requests.post] itself raised an exception that is not an
    [Exception] (a [KeyboardInterrupt]), and then raises that one. *)
Theorem deepseek_no_exception_escapes (o : post_outcome) (e : pyexc) :
  deepseek_answer o = inl e -> o = inl e /\ is_exception e = false.
Proof.
  unfold deepseek_answer, try_except.
  destruct (deepseek_try o) as [e0|] eqn:E; [|discriminate].
  unfold deepseek_except, raise. intros H.
  destruct (is_request_exception e0), (is_key_error e0), (is_exception e0) eqn:Ex;
    simplify_eq.
  destruct (deepseek_try_raises o e E); [congruence | auto].
Qed.

(** C13: given a client, [chat_with_openai] makes exactly one call, a
    [create] with [gpt-3.5-turbo], the one-message list, 1000 tokens and
    temperature 0.7, and returns the text of the first choice. *)
Theorem openai_success (c : Resolver.openai_client) (m t : pystr) rest
    (ps : list post_outcome) (cs : list create_outcome) :
  run_net (chat_with_openai (Some (Resolver.HClient c)) m) ps
          (inr {| oa_choices := Some t :: rest |} :: cs) =
    Some (inr (VStr t), [CallCreate (openai_request c m)], ps, cs) /\
  oa_model (openai_request c m) = py "gpt-3.5-turbo" /\
  oa_max_tokens (openai_request c m) = 1000%Z /\
  oa_messages (openai_request c m) = openai_messages m.
Proof. done. Qed.

(** C14: every [Exception] of the OpenAI call, and an empty [choices]
    list, become the OpenAI failure message with the exception's text. *)
Theorem openai_errors (e : pyexc) :
  is_exception e = true ->
  openai_answer (inl e) = inr (VStr (py "❌ OpenAI API请求失败: " ++ exc_str e)) /\
  openai_answer (inr {| oa_choices := [] |}) =
    inr (VStr (py "❌ OpenAI API请求失败: " ++ py "list index out of range")).
Proof.
  intros He. unfold openai_answer, openai_except. simpl. by rewrite He.
Qed.

(** C15: on any result of [init_client] that names a provider,
    [chat_with_ai] is the adapter of that provider applied to its key or
    client; its fallback branch is never reached from [main]. *)
Theorem chat_with_ai_after_init `{PyStr.UnicodeCase}
    (env : Resolver.environ) (m : pystr) :
  (Resolver.init_client env).2.1 <> None ->
  (exists k, (Resolver.init_client env).2 =
               (Some (py "deepseek"), Some (Resolver.HKey k)) /\
     chat_with_ai (Resolver.init_client env).2.1 (Resolver.init_client env).2.2 m
       = chat_with_deepseek k m) \/
  (exists c, (Resolver.init_client env).2 =
               (Some (py "openai"), Some (Resolver.HClient c)) /\
     chat_with_ai (Resolver.init_client env).2.1 (Resolver.init_client env).2.2 m
       = chat_with_openai (Some (Resolver.HClient c)) m).
Proof.
  intros Hp. destruct (Resolver.init_client_shapes env) as [E|[[k E]|[c E]]];
    rewrite E in *; simpl in *; [done| left | right]; eexists; split; [done| |done|];
    unfold chat_with_ai; [by rewrite bool_decide_eq_true_2|].
  rewrite bool_decide_eq_false_2, bool_decide_eq_true_2 by (try discriminate; done).
  done.
Qed.

End Adapter.

Lemma deepseek_success_witness :
  deepseek_answer (inr resp_hello) = inr (VStr (py "hello")).
Proof.
  apply (deepseek_success resp_hello hello_body hello_choice hello_content []);
    [unfold status_ok; simpl; lia | reflexivity | vm_compute; reflexivity
    | vm_compute; reflexivity | vm_compute; reflexivity].
Defined.

Lemma deepseek_http_error_witness :
  deepseek_answer (inr resp_500) =
    inr (VStr (py "❌ DeepSeek API请求失败: " ++ PyStr.str_int (status_code resp_500)
               ++ (if (status_code resp_500 <? 500)%Z then py " Client Error: "
                   else py " Server Error: ")
               ++ reason resp_500 ++ py " for url: " ++ resp_url resp_500)).
Proof. apply deepseek_http_error. simpl. lia. Defined.

Lemma deepseek_missing_choices_witness :
  deepseek_answer (inr resp_no_choices) =
    inr (VStr (py "❌ DeepSeek API响应格式错误: 'choices'")).
Proof.
  apply (deepseek_missing_choices _ [(py "error", VStr (py "busy"))]);
    [unfold status_ok; simpl; lia | reflexivity | vm_compute; reflexivity].
Defined.

Lemma deepseek_empty_choices_witness :
  deepseek_answer (inr resp_empty_choices) =
    inr (VStr (py "❌ 未知错误: " ++ py "list index out of range")).
Proof.
  apply (deepseek_empty_choices _ [(py "choices", VList [])]);
    [unfold status_ok; simpl; lia | reflexivity | vm_compute; reflexivity].
Defined.

Lemma deepseek_no_exception_escapes_witness :
  inl KeyboardInterrupt = inl (B := http_response) KeyboardInterrupt /\
  is_exception KeyboardInterrupt = false.
Proof. apply (deepseek_no_exception_escapes (inl KeyboardInterrupt)). reflexivity. Defined.

Lemma openai_errors_witness :
  openai_answer (inl (RequestException Timeout (py "Request timed out."))) =
    inr (VStr (py "❌ OpenAI API请求失败: " ++ py "Request timed out.")) /\
  openai_answer (inr {| oa_choices := [] |}) =
    inr (VStr (py "❌ OpenAI API请求失败: " ++ py "list index out of range")).
Proof. apply (openai_errors (RequestException Timeout _)). reflexivity. Defined.

Lemma chat_with_ai_after_init_witness :
  let cr := fun _ : Resolver.openai_client => @nil N in
  (exists k, (Resolver.init_client Resolver.env_default).2 =
               (Some (py "deepseek"), Some (Resolver.HKey k)) /\
     chat_with_ai cr (Resolver.init_client Resolver.env_default).2.1
       (Resolver.init_client Resolver.env_default).2.2 (py "hi")
       = chat_with_deepseek k (py "hi")) \/
  (exists c, (Resolver.init_client Resolver.env_default).2 =
               (Some (py "openai"), Some (Resolver.HClient c)) /\
     chat_with_ai cr (Resolver.init_client Resolver.env_default).2.1
       (Resolver.init_client Resolver.env_default).2.2 (py "hi")
       = chat_with_openai (Some (Resolver.HClient c)) (py "hi")).
Proof. apply (@chat_with_ai_after_init _ PyStr.ucd_sample). vm_compute. discriminate. Defined.

End Adapter.
