(* ===== verification/Repl.v ===== *)
(** * The interactive loop: [main] (src/main.py, lines 109-159)

    The state of the loop is what it reads and writes: the lines still to
    come on standard input, the answers the network will give, what it
    has printed, and the calls it has made.  [iteration] is one pass of
    the body of [while True] (lines 128-159) with its two [except]
    clauses; [step] is the same pass as a relation, one rule per path
    through the body; [main_start] is lines 110-124, before the loop. *)

From S2P Require Import Prelude PyStr PyObj Resolver Net Adapter.
Import PyObj Net.
Open Scope N_scope.

Module Repl.

(** What [input()] does: return a line (without its newline) or raise;
    once the input is exhausted it raises [EOFError] every time. *)
Inductive input_event :=
| ILine (s : pystr)
| IRaise (e : pyexc).

(** [main] is in its loop, has returned, or was left by an exception. *)
Inductive phase := Looping | Returned | Raised (e : pyexc).

Record state := {
  st_phase : phase;
  st_provider : option pystr;              (* provider *)
  st_client : option Resolver.handle;      (* client_or_key *)
  st_inputs : list input_event;
  st_posts : list post_outcome;
  st_creates : list create_outcome;
  st_out : list chunk;
  st_calls : list netcall
}.

Definition eof_error : pyexc := EOFError (py "EOF when reading a line").

(** [input()] on what is left of standard input. *)
Definition read_input (l : list input_event) : input_event * list input_event :=
  match l with
  | [] => (IRaise eof_error, [])
  | ev :: l' => (ev, l')
  end.

Definition exit_words : list pystr := [py "quit"; py "exit"; py "退出"; py "q"].

Section Loop.
Context `{PyStr.UnicodeCase}.

(** [user_input.lower() in ['quit', 'exit', '退出', 'q']] (line 133) *)
Definition is_exit_command (user_input : pystr) : bool :=
  bool_decide (PyStr.lower user_input ∈ exit_words).

Definition set_phase (ph : phase) (st : state) : state :=
  {| st_phase := ph; st_provider := st_provider st; st_client := st_client st;
     st_inputs := st_inputs st; st_posts := st_posts st;
     st_creates := st_creates st; st_out := st_out st; st_calls := st_calls st |}.

Definition emit (c : list chunk) (st : state) : state :=
  {| st_phase := st_phase st; st_provider := st_provider st;
     st_client := st_client st; st_inputs := st_inputs st;
     st_posts := st_posts st; st_creates := st_creates st;
     st_out := st_out st ++ c; st_calls := st_calls st |}.

Definition set_inputs (l : list input_event) (st : state) : state :=
  {| st_phase := st_phase st; st_provider := st_provider st;
     st_client := st_client st; st_inputs := l;
     st_posts := st_posts st; st_creates := st_creates st;
     st_out := st_out st; st_calls := st_calls st |}.

(** The network after the calls [calls] consumed answers. *)
Definition set_net (calls : list netcall) (ps : list post_outcome)
    (cs : list create_outcome) (st : state) : state :=
  {| st_phase := st_phase st; st_provider := st_provider st;
     st_client := st_client st; st_inputs := st_inputs st;
     st_posts := ps; st_creates := cs;
     st_out := st_out st; st_calls := st_calls st ++ calls |}.

(** The two [except] clauses of the loop (lines 154-159); an exception
    they do not match leaves [main]. *)
Definition loop_except (e : pyexc) (st : state) : state :=
  match e with
  | KeyboardInterrupt =>
      set_phase Returned (emit (print ([10] ++ py "👋 程序被用户中断，再见!")) st)
  | _ =>
      if is_exception e then
        emit (print (py "❌ 发生错误: " ++ exc_str e)
              ++ print (py "请重试..." ++ [10])) st
      else set_phase (Raised e) st
  end.

(** [print(f"🤖 AI: {response}\n")] (line 152) *)
Definition reply_chunks (v : pyval) : list chunk :=
  [Text (py "🤖 AI: "); Shown v; Text [10; 10]].

Definition thinking (provider : option pystr) : list chunk :=
  if bool_decide (provider = Some (py "deepseek"))
  then print (py "🤖 DeepSeek AI正在思考...")
  else print (py "🤖 OpenAI正在思考...").

(** The end of a turn, once [chat_with_ai] returned or raised. *)
Definition finish_turn (r : pyexc + pyval) (st : state) : state :=
  match r with
  | inr v => emit (reply_chunks v) st
  | inl e => loop_except e st
  end.

(** [input("👤 你: ")] writes its prompt first. *)
Definition prompt : list chunk := [Text (py "👤 你: ")].

(** One pass of the body of [while True]; [None] when the network
    answers that the environment provides run out. *)
Definition iteration (client_repr : Resolver.openai_client -> pystr)
    (st : state) : option state :=
  let st0 := emit prompt st in
  let '(ev, rest) := read_input (st_inputs st) in
  let st1 := set_inputs rest st0 in
  match ev with
  | IRaise e => Some (loop_except e st1)
  | ILine raw =>
      let user_input := PyStr.strip raw in
      if is_exit_command user_input then
        Some (set_phase Returned (emit (print (py "👋 再见!")) st1))
      else if bool_decide (user_input = []) then
        Some (emit (print (py "请输入一些内容...")) st1)
      else
        let st2 := emit (thinking (st_provider st)) st1 in
        match run_net (Adapter.chat_with_ai client_repr (st_provider st)
                         (st_client st) user_input)
                      (st_posts st) (st_creates st) with
        | None => None
        | Some (r, calls, ps, cs) => Some (finish_turn r (set_net calls ps cs st2))
        end
  end.

(** [main] up to the loop (lines 110-124), on the environment [env] and
    the inputs and network answers to come. *)
Definition main_start (env : Resolver.environ) (inputs : list input_event)
    (posts : list post_outcome) (creates : list create_outcome) : state :=
  let banner :=
    print (py "🤖 简单的大模型聊天机器人Demo") ++ print (py "支持DeepSeek和OpenAI模型")
    ++ print (py "输入 'quit' 或 'exit' 退出程序" ++ [10]) in
  let '(out, (provider, client_or_key)) := Resolver.init_client env in
  let st := {| st_phase := Looping; st_provider := provider;
               st_client := client_or_key; st_inputs := inputs;
               st_posts := posts; st_creates := creates;
               st_out := banner ++ out; st_calls := [] |} in
  if Resolver.falsy_str provider then set_phase Returned st
  else
    emit ((if bool_decide (provider = Some (py "deepseek"))
           then print (py "✅ DeepSeek客户端初始化成功!")
           else print (py "✅ OpenAI客户端初始化成功!")) ++ print []) st.

(** [n] passes of the loop, or fewer if [main] leaves it. *)
Fixpoint run (client_repr : Resolver.openai_client -> pystr) (n : nat)
    (st : state) : option state :=
  match n with
  | O => Some st
  | S n' =>
      match st_phase st with
      | Looping =>
          match iteration client_repr st with
          | Some st' => run client_repr n' st'
          | None => None
          end
      | _ => Some st
      end
  end.

(** One pass of the loop as a relation, one rule per path through the
    body. *)
Inductive step (client_repr : Resolver.openai_client -> pystr)
    : state -> state -> Prop :=
| step_input_raises st e rest :
    st_phase st = Looping ->
    read_input (st_inputs st) = (IRaise e, rest) ->
    step client_repr st (loop_except e (set_inputs rest (emit prompt st)))
| step_exit st raw rest :
    st_phase st = Looping ->
    read_input (st_inputs st) = (ILine raw, rest) ->
    is_exit_command (PyStr.strip raw) = true ->
    step client_repr st
      (set_phase Returned (emit (print (py "👋 再见!"))
                             (set_inputs rest (emit prompt st))))
| step_blank st raw rest :
    st_phase st = Looping ->
    read_input (st_inputs st) = (ILine raw, rest) ->
    is_exit_command (PyStr.strip raw) = false ->
    PyStr.strip raw = [] ->
    step client_repr st
      (emit (print (py "请输入一些内容...")) (set_inputs rest (emit prompt st)))
| step_chat st raw rest r calls ps cs :
    st_phase st = Looping ->
    read_input (st_inputs st) = (ILine raw, rest) ->
    is_exit_command (PyStr.strip raw) = false ->
    PyStr.strip raw <> [] ->
    run_net (Adapter.chat_with_ai client_repr (st_provider st) (st_client st)
               (PyStr.strip raw)) (st_posts st) (st_creates st)
      = Some (r, calls, ps, cs) ->
    step client_repr st
      (finish_turn r (set_net calls ps cs
         (emit (thinking (st_provider st)) (set_inputs rest (emit prompt st))))).

(** The text one pass prints when standard input is exhausted. *)
Definition eof_turn : list chunk :=
  prompt ++ print (py "❌ 发生错误: " ++ py "EOF when reading a line")
  ++ print (py "请重试..." ++ [10]).

(** The part of the state the network reads and writes. *)
Definition net_view (st : state) :=
  (st_provider st, st_client st, st_posts st, st_creates st, st_calls st).

(** A call the adapter makes for the message [m]. *)
Definition call_of (cr : Resolver.openai_client -> pystr) (p : option pystr)
    (h : option Resolver.handle) (m : pystr) (c : netcall) : Prop :=
  (p = Some (py "deepseek") /\
   c = CallPost (Adapter.deepseek_request (Adapter.handle_text cr h) m)) \/
  (exists cl, p = Some (py "openai") /\ h = Some (Resolver.HClient cl) /\
   c = CallCreate (Adapter.openai_request cl m)).

(** The invariant of the loop: the calls made so far are answered one
    for one from the scripts, and each is a call of the provider for a
    line that is neither blank nor an exit word. *)
Definition calls_inv (cr : Resolver.openai_client -> pystr) (n : nat)
    (st : state) : Prop :=
  (length (st_calls st) + length (st_posts st) + length (st_creates st) = n)%nat /\
  Forall (fun c => exists m, m <> [] /\ is_exit_command m = false /\
            call_of cr (st_provider st) (st_client st) m c) (st_calls st).

(** ** Witnesses *)

Definition no_repr : Resolver.openai_client -> pystr := fun _ => [].

(** [main] configured for DeepSeek with the key [sk-1], before a pass. *)
Definition st_deepseek (inputs : list input_event) (posts : list post_outcome)
    : state :=
  {| st_phase := Looping; st_provider := Some (py "deepseek");
     st_client := Some (Resolver.HKey (py "sk-1")); st_inputs := inputs;
     st_posts := posts; st_creates := []; st_out := []; st_calls := [] |}.

(** ** Theorems *)

Lemma emit_emit (a b : list chunk) (st : state) :
  emit a (emit b st) = emit (b ++ a) st.
Proof. unfold emit. simpl. by rewrite app_assoc. Qed.

Lemma set_inputs_same (st : state) : set_inputs (st_inputs st) st = st.
Proof. by destruct st. Qed.

#[local] Hint Rewrite emit_emit : pymodel_rw.


Lemma iteration_line (cr : Resolver.openai_client -> pystr) st raw rest :
  st_inputs st = ILine raw :: rest ->
  iteration cr st =
    let st1 := set_inputs rest (emit prompt st) in
    let user_input := PyStr.strip raw in
    if is_exit_command user_input then
      Some (set_phase Returned (emit (print (py "👋 再见!")) st1))
    else if bool_decide (user_input = []) then
      Some (emit (print (py "请输入一些内容...")) st1)
    else
      match run_net (Adapter.chat_with_ai cr (st_provider st) (st_client st)
                       user_input) (st_posts st) (st_creates st) with
      | None => None
      | Some (r, calls, ps, cs) =>
          Some (finish_turn r (set_net calls ps cs
                  (emit (thinking (st_provider st)) st1)))
      end.
Proof. intros Hin. unfold iteration. by rewrite Hin. Qed.

Lemma is_exit_command_nil : is_exit_command [] = false.
Proof. reflexivity. Qed.

(** C17: an input line that, stripped and lower-cased, is an exit word
    ends the loop after the farewell, without any network call. *)
Theorem loop_exit (cr : Resolver.openai_client -> pystr) st raw rest :
  st_inputs st = ILine raw :: rest ->
  is_exit_command (PyStr.strip raw) = true ->
  exists st', iteration cr st = Some st' /\ st_phase st' = Returned /\
    st_out st' = st_out st ++ prompt ++ print (py "👋 再见!") /\
    st_calls st' = st_calls st /\ st_inputs st' = rest.
Proof.
  intros Hin Hx. rewrite (iteration_line cr st raw rest Hin). simpl.
  rewrite Hx. eexists; split; [done|]. simpl.
  split_and!; try done. by rewrite <- app_assoc.
Qed.

(** C18: the exit words are recognized in any ASCII letter case, for
    every Unicode database: [QUIT], [Exit], [Q] and [退出] all exit. *)
Theorem exit_words_any_case (s : pystr) :
  Forall PyStr.simple_case s -> map PyStr.ascii_lower s ∈ exit_words ->
  is_exit_command s = true.
Proof.
  intros Hs Hin. unfold is_exit_command.
  rewrite PyStr.lower_simple by done. by apply bool_decide_eq_true_2.
Qed.

(** A line of whitespace only makes the loop print a reminder and go
    on, without any network call. *)
Theorem loop_blank (cr : Resolver.openai_client -> pystr) st raw rest :
  st_inputs st = ILine raw :: rest ->
  Forall (fun c => PyStr.isspace c = true) raw ->
  exists st', iteration cr st = Some st' /\ st_phase st' = st_phase st /\
    st_out st' = st_out st ++ prompt ++ print (py "请输入一些内容...") /\
    st_calls st' = st_calls st /\ st_inputs st' = rest.
Proof.
  intros Hin Hsp. apply PyStr.strip_nil_iff in Hsp.
  rewrite (iteration_line cr st raw rest Hin). cbv zeta.
  rewrite Hsp, is_exit_command_nil.
  eexists; split; [reflexivity|]. simpl.
  split_and!; try done. by rewrite <- app_assoc.
Qed.

(** C19: with the DeepSeek provider, a line that is neither blank nor an
    exit word makes exactly one POST, of the stripped line, and the turn
    ends on the answer to that request. *)
Theorem loop_chat_deepseek (cr : Resolver.openai_client -> pystr) st raw rest
    k o ps :
  st_provider st = Some (py "deepseek") ->
  st_client st = Some (Resolver.HKey k) ->
  st_inputs st = ILine raw :: rest ->
  is_exit_command (PyStr.strip raw) = false -> PyStr.strip raw <> [] ->
  st_posts st = o :: ps ->
  iteration cr st =
    Some (finish_turn (Adapter.deepseek_answer o)
      (set_net [CallPost (Adapter.deepseek_request k (PyStr.strip raw))]
               ps (st_creates st)
        (emit (print (py "🤖 DeepSeek AI正在思考..."))
          (set_inputs rest (emit prompt st))))).
Proof.
  intros Hp Hc Hin Hx Hne Hps. rewrite (iteration_line cr st raw rest Hin).
  simpl. rewrite Hx, bool_decide_eq_false_2 by done.
  rewrite Hp, Hc, Hps. unfold Adapter.chat_with_ai, thinking.
  by rewrite !bool_decide_eq_true_2.
Qed.

(** C20: only an exit word or a [KeyboardInterrupt] (raised by [input]
    or during the network call) makes [main] return; every other failure
    of a turn leaves the loop running. *)
Theorem loop_returns_only_on_exit_or_interrupt
    (cr : Resolver.openai_client -> pystr) st st' :
  step cr st st' -> st_phase st' = Returned ->
  (exists raw rest, read_input (st_inputs st) = (ILine raw, rest) /\
     is_exit_command (PyStr.strip raw) = true) \/
  (exists rest, read_input (st_inputs st) = (IRaise KeyboardInterrupt, rest)) \/
  (exists raw rest calls ps cs, read_input (st_inputs st) = (ILine raw, rest) /\
     run_net (Adapter.chat_with_ai cr (st_provider st) (st_client st)
                (PyStr.strip raw)) (st_posts st) (st_creates st)
       = Some (inl KeyboardInterrupt, calls, ps, cs)).
Proof.
  intros Hs Hret. inv Hs.
  - right; left. unfold loop_except in Hret.
    destruct e; simpl in *; try congruence; eauto.
  - left. eauto.
  - simpl in Hret. congruence.
  - right; right. unfold finish_turn, loop_except in Hret.
    destruct r as [e|v]; [|simpl in Hret; congruence].
    destruct e; simpl in *; try congruence; eauto 10.
Qed.

(** C21: once standard input is exhausted, the loop never ends: every
    pass prints the prompt and the [EOFError] message and loops again,
    for any number of passes. *)
Theorem loop_eof_diverges (cr : Resolver.openai_client -> pystr) st (n : nat) :
  st_phase st = Looping -> st_inputs st = [] ->
  run cr n st = Some (emit (mjoin (replicate n eof_turn)) st).
Proof.
  revert st. induction n as [|n IH]; intros st Hph Hin; simpl.
  - destruct st; unfold emit; simpl. by rewrite app_nil_r.
  - rewrite Hph.
    assert (iteration cr st = Some (emit eof_turn st)) as ->.
    { unfold iteration. rewrite Hin.
      transitivity (Some (emit (print (py "❌ 发生错误: " ++ py "EOF when reading a line")
                                ++ print (py "请重试..." ++ [10])) (emit prompt st))).
      - destruct st; simpl in Hin; subst. reflexivity.
      - by rewrite emit_emit. }
    rewrite IH by done. by rewrite emit_emit.
Qed.

Lemma net_view_emit c st : net_view (emit c st) = net_view st.
Proof. done. Qed.
Lemma net_view_set_phase ph st : net_view (set_phase ph st) = net_view st.
Proof. done. Qed.
Lemma net_view_set_inputs l st : net_view (set_inputs l st) = net_view st.
Proof. done. Qed.
Lemma net_view_loop_except e st : net_view (loop_except e st) = net_view st.
Proof. unfold loop_except. by repeat case_match. Qed.
Lemma net_view_finish_turn r st : net_view (finish_turn r st) = net_view st.
Proof. destruct r; [apply net_view_loop_except | done]. Qed.

#[local] Hint Rewrite net_view_emit net_view_set_phase net_view_set_inputs
  net_view_loop_except net_view_finish_turn : pymodel_rw.

Lemma chat_with_ai_calls (cr : Resolver.openai_client -> pystr) p h m ps cs
    r calls ps' cs' :
  run_net (Adapter.chat_with_ai cr p h m) ps cs = Some (r, calls, ps', cs') ->
  (length calls + length ps' + length cs' = length ps + length cs)%nat /\
  Forall (call_of cr p h m) calls.
Proof.
  unfold Adapter.chat_with_ai, call_of. case_bool_decide as Hd.
  - unfold Adapter.chat_with_deepseek. destruct ps as [|o ps0]; simpl;
      intros; simplify_eq/=. split; [lia|]. repeat constructor; try by left.
  - case_bool_decide as Ho; [|intros; simplify_eq/=; split; [lia | done]].
    unfold Adapter.chat_with_openai. destruct h as [[k|cl]|];
      [intros; simplify_eq/=; split; [lia | done]| |
       intros; simplify_eq/=; split; [lia | done]].
    destruct cs as [|o cs0]; simpl; intros; simplify_eq/=.
    split; [lia|]. constructor; [|constructor]. right. eauto.
Qed.

Lemma calls_inv_view cr n st st' :
  net_view st' = net_view st -> calls_inv cr n st -> calls_inv cr n st'.
Proof.
  unfold net_view, calls_inv. intros Hv.
  injection Hv as E1 E2 E3 E4 E5. by rewrite E1, E2, E3, E4, E5.
Qed.

Lemma calls_inv_start cr env ins ps0 cs0 :
  calls_inv cr (length ps0 + length cs0) (main_start env ins ps0 cs0).
Proof.
  unfold main_start. destruct (Resolver.init_client env) as [out [p h]].
  by destruct (Resolver.falsy_str p); split.
Qed.


(** When [init_client] fails, [main] returns before the loop: it
    reads no input and makes no call, however long it is run. *)
Theorem main_init_failure (cr : Resolver.openai_client -> pystr)
    (env : Resolver.environ) ins ps0 cs0 (n : nat) :
  (Resolver.init_client env).2.1 = None ->
  st_phase (main_start env ins ps0 cs0) = Returned /\
  run cr n (main_start env ins ps0 cs0) = Some (main_start env ins ps0 cs0) /\
  st_inputs (main_start env ins ps0 cs0) = ins /\
  st_calls (main_start env ins ps0 cs0) = [].
Proof.
  unfold main_start. destruct (Resolver.init_client env) as [out [p h]].
  simpl. intros ->. simpl. split_and!; try done. by destruct n.
Qed.

End Loop.

Lemma loop_exit_witness :
  exists st', iteration no_repr (st_deepseek [ILine (py "  QUIT ")] []) = Some st' /\
    st_phase st' = Returned /\
    st_out st' = st_out (st_deepseek [ILine (py "  QUIT ")] [])
                   ++ prompt ++ print (py "👋 再见!") /\
    st_calls st' = st_calls (st_deepseek [ILine (py "  QUIT ")] []) /\
    st_inputs st' = [].
Proof. apply (loop_exit _ _ (py "  QUIT ")); vm_compute; reflexivity. Defined.

(** [Exit] *)
Lemma exit_words_any_case_witness : is_exit_command [69; 120; 105; 116] = true.
Proof.
  apply exit_words_any_case.
  - repeat (constructor; [left; lia|]). constructor.
  - apply list_elem_of_In. right. left. reflexivity.
Defined.

Lemma loop_blank_witness :
  exists st', iteration no_repr (st_deepseek [ILine [32; 9]] []) = Some st' /\
    st_phase st' = st_phase (st_deepseek [ILine [32; 9]] []) /\
    st_out st' = st_out (st_deepseek [ILine [32; 9]] [])
                   ++ prompt ++ print (py "请输入一些内容...") /\
    st_calls st' = st_calls (st_deepseek [ILine [32; 9]] []) /\
    st_inputs st' = [].
Proof.
  apply (loop_blank _ _ [32; 9]); [reflexivity | repeat constructor].
Defined.

Lemma loop_chat_deepseek_witness :
  iteration no_repr (st_deepseek [ILine (py " hi ")] [inr Adapter.resp_hello]) =
    Some (finish_turn (Adapter.deepseek_answer (inr Adapter.resp_hello))
      (set_net [CallPost (Adapter.deepseek_request (py "sk-1")
                            (PyStr.strip (py " hi ")))] [] []
        (emit (print (py "🤖 DeepSeek AI正在思考..."))
          (set_inputs [] (emit prompt
             (st_deepseek [ILine (py " hi ")] [inr Adapter.resp_hello])))))).
Proof.
  apply loop_chat_deepseek; try reflexivity; vm_compute; discriminate.
Defined.

Lemma loop_returns_only_on_exit_or_interrupt_witness :
  let st := st_deepseek [IRaise KeyboardInterrupt] [] in
  let st' := loop_except KeyboardInterrupt (set_inputs [] (emit prompt st)) in
  (exists raw rest, read_input (st_inputs st) = (ILine raw, rest) /\
     is_exit_command (PyStr.strip raw) = true) \/
  (exists rest, read_input (st_inputs st) = (IRaise KeyboardInterrupt, rest)) \/
  (exists raw rest calls ps cs, read_input (st_inputs st) = (ILine raw, rest) /\
     run_net (Adapter.chat_with_ai no_repr (st_provider st) (st_client st)
                (PyStr.strip raw)) (st_posts st) (st_creates st)
       = Some (inl KeyboardInterrupt, calls, ps, cs)).
Proof.
  intros st st'. apply (loop_returns_only_on_exit_or_interrupt no_repr st st').
  - by apply step_input_raises.
  - reflexivity.
Defined.

Lemma loop_eof_diverges_witness :
  run no_repr 3 (st_deepseek [] []) =
    Some (emit (mjoin (replicate 3 eof_turn)) (st_deepseek [] [])).
Proof. apply loop_eof_diverges; reflexivity. Defined.


Lemma main_init_failure_witness :
  let st0 := main_start Resolver.env_other [ILine (py "hi")] [] [] in
  st_phase st0 = Returned /\ run no_repr 5 st0 = Some st0 /\
  st_inputs st0 = [ILine (py "hi")] /\ st_calls st0 = [].
Proof. apply main_init_failure. vm_compute. reflexivity. Defined.

End Repl.
