(* ===== verification/Transport.v ===== *)
(** * What [requests.post] does on the wire (line 66)

    Module [Transport] models two things the call
    [requests.post(url, json=data, headers=headers, timeout=30)] does
    below the answer [Net] abstracts it to.

    - The body: [prepare_body] of [Json] applied to the request's
      [json=] value, the bytes a server decodes with [JsonDecode.loads].
    - The clock: [timeout=30] is urllib3's [Timeout(connect=30,
      read=30)], a bound on each socket operation: the connection, then
      every wait for the next bytes of the response.  Name resolution
      ([socket.getaddrinfo] in [urllib3.util.connection.create_connection])
      runs before any of them and has no bound.  A transfer records what
      the server side does (the time to resolve the name, to accept the
      connection, the waits before each piece of the response, and the
      response); [post_timed] gives the outcome of [requests.post] and
      the time it took.

    - The answer: [body_of_bytes] is [response.json()] (line 69) on the
      bytes the server sends, so a whole call can be followed from the
      bytes of the request to the reply.

    The message of [ConnectTimeout] holds the [repr] of a urllib3
    connection object, with its address; it is the section variable
    [conn_repr].  Sending the request is not timed. *)

From S2P Require Import Prelude PyStr PyObj Json JsonDecode Resolver Net Adapter.
Import PyObj Json JsonDecode Net Adapter.
Open Scope N_scope.

Module Transport.

Record transfer := {
  dns_time : N;
  connect_time : N;
  read_gaps : list N;
  response : http_response
}.

Section Timed.
(** [repr] of the urllib3 connection object named in a connect
    timeout's message. *)
Variable conn_repr : pystr.

(** [str(ReadTimeout)]: the [ReadTimeoutError] of the pool. *)
Definition read_timeout_msg (t : N) : pystr :=
  py "HTTPSConnectionPool(host='api.deepseek.com', port=443): Read timed out. (read timeout="
  ++ PyStr.str_int (Z.of_N t) ++ py ")".

(** [str(ConnectTimeout)]: the [MaxRetryError] around a
    [ConnectTimeoutError] ([max_retries=0] for a requests adapter). *)
Definition connect_timeout_msg (t : N) : pystr :=
  py "HTTPSConnectionPool(host='api.deepseek.com', port=443): Max retries exceeded with url: /v1/chat/completions (Caused by ConnectTimeoutError("
  ++ conn_repr ++ py ", 'Connection to api.deepseek.com timed out. (connect timeout="
  ++ PyStr.str_int (Z.of_N t) ++ py ")'))".

(** Reading the response: each wait longer than the read timeout ends
    the call with [ReadTimeout] once the timeout has passed. *)
Fixpoint read_response (t elapsed : N) (gaps : list N) (r : http_response)
    : post_outcome * N :=
  match gaps with
  | [] => (inr r, elapsed)
  | g :: gs =>
      if t <? g then (raise (RequestException Timeout (read_timeout_msg t)), elapsed + t)
      else read_response t (elapsed + g) gs r
  end.

(** [requests.post] with the request's [timeout]. *)
Definition post_timed (req : http_request) (tr : transfer) : post_outcome * N :=
  let t := Z.to_N (req_timeout req) in
  if t <? connect_time tr then
    (raise (RequestException Timeout (connect_timeout_msg t)), dns_time tr + t)
  else read_response t (dns_time tr + connect_time tr) (read_gaps tr) (response tr).

(** [chat_with_deepseek] over a timed transfer: its value and the time
    the call took. *)
Definition deepseek_timed (api_key message : pystr) (tr : transfer)
    : (pyexc + pyval) * N :=
  let '(o, el) := post_timed (deepseek_request api_key message) tr in
  (deepseek_answer o, el).
End Timed.

(** The bytes [requests.post] sends as the body of [req]. *)
Definition sent_body (req : http_request) : pyexc + list N := prepare_body (req_json req).

(** [Response.json()] on the bytes of the body: [json.loads] of their
    UTF-8 decoding, or [JSONDecodeError] with the decoder's message
    [err] (its position text is not modelled). *)
Definition body_of_bytes (bytes : list N) (err : pystr) : json_body :=
  match loads (utf8_decode bytes) with
  | Some v => JsonValue v
  | None => JsonInvalid err
  end.

(** The chat completion a DeepSeek server sends for the reply [c]. *)
Definition completion (c : pystr) : pyval :=
  VDict [(py "choices",
          VList [VDict [(py "index", VInt 0);
                        (py "message", VDict [(py "role", VStr (py "assistant"));
                                              (py "content", VStr c)]);
                        (py "finish_reason", VStr (py "stop"))]])].

(** A server that answers [c] with status 200 in [json.dumps(...).encode()]
    form, in two pieces. *)
Definition tr_reply (c : pystr) : transfer :=
  {| dns_time := 3; connect_time := 2; read_gaps := [10; 30];
     response := {| status_code := 200; reason := py "OK"; resp_url := deepseek_url;
                    resp_body := body_of_bytes (utf8_encode (encode (completion c)))
                                   (py "Expecting value") |} |}.

(** A server that sends the answer in pieces, each [gap] after the last. *)
Definition trickle (gap : N) (pieces : nat) (r : http_response) : transfer :=
  {| dns_time := 0; connect_time := 1; read_gaps := repeat gap pieces; response := r |}.

(** A server slow to accept, and one that stalls after a first piece. *)
Definition tr_slow_connect : transfer :=
  {| dns_time := 2; connect_time := 31; read_gaps := []; response := Adapter.resp_hello |}.
Definition tr_stall : transfer :=
  {| dns_time := 2; connect_time := 1; read_gaps := [5; 31; 1]; response := Adapter.resp_hello |}.

(** The time spent in the reads that did not time out. *)
Definition total (gs : list N) : N := foldr N.add 0 gs.

Section Proofs.
Variable conn_repr : pystr.

Lemma deepseek_request_timeout (k m : pystr) :
  Z.to_N (req_timeout (deepseek_request k m)) = 30.
Proof. reflexivity. Qed.

Lemma total_cons (g : N) (gs : list N) : total (g :: gs) = g + total gs.
Proof. reflexivity. Qed.

Lemma read_response_time (t el : N) (gs : list N) (r : http_response) :
  (read_response t el gs r).2 <= el + t * N.of_nat (length gs).
Proof.
  revert el. induction gs as [| g gs IH]; intros el; cbn [read_response]; [cbn; lia |].
  destruct (N.ltb_spec t g); cbn [snd length]; [lia |].
  specialize (IH (el + g)). lia.
Qed.

Lemma read_response_within (t el : N) (gs : list N) (r : http_response) :
  Forall (fun g => g <= t) gs -> read_response t el gs r = (inr r, el + total gs).
Proof.
  intros Hgs. revert el. induction Hgs as [| g gs Hg _ IH]; intros el; cbn [read_response].
  - cbn. f_equal. lia.
  - replace (t <? g) with false by (symmetry; apply N.ltb_ge; lia).
    rewrite IH, total_cons. f_equal. lia.
Qed.

Lemma read_response_timeout (t el g : N) (gs1 gs2 : list N) (r : http_response) :
  Forall (fun g => g <= t) gs1 -> t < g ->
  read_response t el (gs1 ++ g :: gs2) r =
    (raise (RequestException Timeout (read_timeout_msg t)), el + total gs1 + t).
Proof.
  intros Hgs Hg. revert el. induction Hgs as [| g1 gs Hg1 _ IH]; intros el; cbn [read_response app].
  - replace (t <? g) with true by (symmetry; apply N.ltb_lt; lia). cbn. f_equal. lia.
  - replace (t <? g1) with false by (symmetry; apply N.ltb_ge; lia).
    rewrite IH, total_cons. f_equal. lia.
Qed.

Lemma total_repeat (g : N) (n : nat) : total (repeat g n) = N.of_nat n * g.
Proof. induction n as [| n IH]; [reflexivity |]. cbn [repeat]. rewrite total_cons, IH. lia. Qed.


(** C26: the 30 bounds no call as a whole: for every bound [B], even
    with instant name resolution, a connection and every wait within
    30, a server that sends a piece of its answer every 30 time units
    makes [chat_with_deepseek] return that answer after more than [B]. *)
Theorem deepseek_no_total_bound (k m : pystr) (r : http_response) (B : N) :
  exists tr el,
    dns_time tr = 0 /\ connect_time tr <= 30 /\ Forall (fun g => g <= 30) (read_gaps tr) /\
    deepseek_timed conn_repr k m tr = (deepseek_answer (inr r), el) /\ B < el.
Proof.
  assert (Hgaps : Forall (fun g => g <= 30) (repeat 30 (S (N.to_nat B))))
    by (apply Forall_forall; intros g Hg; apply list_elem_of_In, repeat_spec in Hg; lia).
  exists (trickle 30 (S (N.to_nat B)) r), (1 + N.of_nat (S (N.to_nat B)) * 30).
  cbn [dns_time connect_time read_gaps trickle]. split_and!; [reflexivity | lia | exact Hgaps | |].
  - unfold deepseek_timed, post_timed. rewrite deepseek_request_timeout.
    cbn [connect_time dns_time read_gaps response trickle].
    rewrite read_response_within, total_repeat by exact Hgaps. reflexivity.
  - lia.
Qed.

Lemma completion_safe (c : pystr) : str_safe c = true -> json_safe (completion c) = true.
Proof. intros Hc. cbn -[str_safe]. rewrite Hc. vm_compute. reflexivity. Qed.

Lemma body_of_completion (c err : pystr) :
  str_safe c = true ->
  body_of_bytes (utf8_encode (encode (completion c))) err = JsonValue (completion c).
Proof.
  intros Hc. pose proof (completion_safe c Hc) as Hs. unfold body_of_bytes.
  rewrite utf8_encode_ascii, loads_utf8_encode by
    (exact Hs || apply encode_ascii, json_safe_float_free, Hs).
  reflexivity.
Qed.

(** C30: a whole call.  When the server accepts within 30, sends each
    piece within 30 of the last, and answers a successful status with
    the bytes of [json.dumps] of a completion whose content is [c],
    [chat_with_deepseek] returns [c] itself, decoded by
    [response.json()], when the last piece arrives. *)
Theorem deepseek_round_trip (k m c err : pystr) (tr : transfer) :
  str_safe c = true -> connect_time tr <= 30 -> Forall (fun g => g <= 30) (read_gaps tr) ->
  status_ok (status_code (response tr)) ->
  resp_body (response tr) = body_of_bytes (utf8_encode (encode (completion c))) err ->
  deepseek_timed conn_repr k m tr =
    (inr (VStr c), dns_time tr + connect_time tr + total (read_gaps tr)).
Proof.
  intros Hc Hconn Hgaps Hst Hbody. unfold deepseek_timed, post_timed.
  rewrite deepseek_request_timeout.
  replace (30 <? connect_time tr) with false by (symmetry; apply N.ltb_ge; lia).
  rewrite read_response_within by exact Hgaps.
  rewrite (deepseek_answer_json (response tr) (completion c) Hst)
    by (rewrite Hbody; apply body_of_completion, Hc).
  reflexivity.
Qed.

End Proofs.

Lemma deepseek_data_safe (m : pystr) :
  str_safe m = true -> json_safe (deepseek_data m) = true.
Proof. intros Hm. cbn -[str_safe]. rewrite Hm. vm_compute. reflexivity. Qed.

(** C28: the body [requests.post] sends for [chat_with_deepseek k m] is
    the [json.dumps] text of its [data] dictionary, as bytes, and a
    server reading it with [json.loads] finds the model, the one user
    message with content [m], and [stream] false, for every message
    whose surrogates are not paired. *)
Theorem deepseek_body_roundtrip (k m : pystr) :
  str_safe m = true ->
  sent_body (deepseek_request k m) = inr (encode (deepseek_data m)) /\
  loads (utf8_decode (encode (deepseek_data m))) = Some (deepseek_data m).
Proof.
  intros Hm. pose proof (deepseek_data_safe m Hm) as Hs. split.
  - apply prepare_body_text, json_safe_float_free, Hs.
  - apply loads_utf8_encode, Hs.
Qed.


Lemma deepseek_body_roundtrip_witness :
  str_safe [104; 0x1F600; 0xD800] = true /\
  loads (utf8_decode (encode (deepseek_data [104; 0x1F600; 0xD800]))) =
    Some (deepseek_data [104; 0x1F600; 0xD800]).
Proof.
  split; [vm_compute; reflexivity |].
  apply (deepseek_body_roundtrip [] [104; 0x1F600; 0xD800]). vm_compute. reflexivity.
Defined.

Lemma deepseek_round_trip_witness :
  deepseek_timed [] (py "sk-1") (py "hi") (tr_reply [0x4F60; 0x597D; 0x1F600]) =
    (inr (VStr [0x4F60; 0x597D; 0x1F600]), 45).
Proof.
  apply (deepseek_round_trip [] (py "sk-1") (py "hi") [0x4F60; 0x597D; 0x1F600]
           (py "Expecting value") (tr_reply [0x4F60; 0x597D; 0x1F600]));
    first [vm_compute; reflexivity | vm_compute; discriminate | repeat constructor; vm_compute; discriminate
          | unfold status_ok; cbn; lia].
Defined.

End Transport.
