(* ===== verification/JsonError.v ===== *)
(** * [json.loads] with its errors, and what [response.json()] raises

    Module [JsonError] is the decoder of [JsonDecode] with the error
    that CPython raises where it fails: [JSONDecodeError(msg, doc, pos)]
    with the message and position of the C scanner of CPython 3.12
    ([Modules/_json.c]: [scanstring_unicode], [scan_once_unicode],
    [_parse_object_unicode], [_parse_array_unicode]) and of
    [json.decoder.JSONDecoder.decode] ("Extra data") and [json.loads]
    (the byte order mark).  A failure carries the rest of the document
    from the failing position; [str(e)] is [decode_error_str], after
    [JSONDecodeError.__init__] ([msg: line L column C (char P)]).

    [requests] turns the error into [RequestsJSONDecodeError], a
    [RequestException] whose text is the same, so [chat_with_deepseek]
    (line 69, caught at line 72) replies with it.  [body_of_text] is the
    [json_body] of [Net] a response with that text has. *)

From S2P Require Import Prelude PyStr PyObj Json JsonDecode Net Adapter Transport.
Import PyObj JsonDecode Net Adapter Transport.
Open Scope N_scope.

Module JsonError.

(** What a step of the scanner gives: a result, the error it raises
    with the rest of the document at the error's position, or nothing
    when the fuel runs out. *)
Inductive scan (A : Type) : Type :=
| Parsed (a : A)
| Failed (msg : pystr) (at_ : pystr)
| OutOfFuel.
Arguments Parsed {A} a.
Arguments Failed {A} msg at_.
Arguments OutOfFuel {A}.

(** The result with its error forgotten. *)
Definition erase {A} (x : scan A) : option A :=
  match x with Parsed a => Some a | _ => None end.

(** ** Messages *)

Definition m_value : pystr := py "Expecting value".
Definition m_unterminated : pystr := py "Unterminated string starting at".
Definition m_control : pystr := py "Invalid control character at".
Definition m_escape : pystr := py "Invalid \escape".
Definition m_uescape : pystr := py "Invalid \uXXXX escape".
Definition m_property : pystr := py "Expecting property name enclosed in double quotes".
Definition m_colon : pystr := py "Expecting ':' delimiter".
Definition m_comma : pystr := py "Expecting ',' delimiter".
Definition m_extra : pystr := py "Extra data".
Definition m_bom : pystr := py "Unexpected UTF-8 BOM (decode using utf-8-sig)".

(** ** Strings *)

(** The surrogate pair of [scanstring_unicode]: after [\uXXXX] gave a
    high surrogate [u], with [end + 6 < len] (seven characters left)
    and [\u] next, four hex digits are read ([Invalid \uXXXX escape] at
    the second [u] otherwise); a low surrogate is joined to [u], and
    anything else leaves the second escape for the next step
    ([end -= 6]). *)
Definition join_surrogate_e (u : N) (s : pystr) : scan (N * pystr) :=
  if is_high u && (7 <=? length s)%nat && head_is 92 s && head_is 117 (tail s) then
    match parse_hex4 (tail (tail s)) with
    | None => Failed m_uescape (tail s)
    | Some (u2, s2) =>
        if is_low u2 then
          Parsed (N.lor (N.shiftl (N.land u 0x3FF) 10) (N.land u2 0x3FF) + 0x10000, s2)
        else Parsed (u, s)
    end
  else Parsed (u, s).

(** [scanstring_unicode] in strict mode from the character after the
    opening quote; [begin] is the document from that quote on. *)
Fixpoint scan_string_e (fuel : nat) (begin s : pystr) : scan (pystr * pystr) :=
  match fuel with
  | O => OutOfFuel
  | S f =>
      match s with
      | [] => Failed m_unterminated begin
      | c :: s1 =>
          if c =? 34 then Parsed ([], s1)
          else if c =? 92 then
            match s1 with
            | [] => Failed m_unterminated begin
            | e :: s2 =>
                if e =? 117 then
                  (* [end = next + 4; if (end >= len)] *)
                  if (length s2 <=? 4)%nat then Failed m_uescape s1 else
                  match parse_hex4 s2 with
                  | None => Failed m_uescape s1
                  | Some (u, s3) =>
                      match join_surrogate_e u s3 with
                      | Parsed (cp, s4) =>
                          match scan_string_e f begin s4 with
                          | Parsed (t, r) => Parsed (cp :: t, r)
                          | Failed m a => Failed m a
                          | OutOfFuel => OutOfFuel
                          end
                      | Failed m a => Failed m a
                      | OutOfFuel => OutOfFuel
                      end
                  end
                else
                  match simple_escape e with
                  | Some ch =>
                      match scan_string_e f begin s2 with
                      | Parsed (t, r) => Parsed (ch :: t, r)
                      | Failed m a => Failed m a
                      | OutOfFuel => OutOfFuel
                      end
                  (* [raise_errmsg("Invalid \\escape", pystr, end - 2)]: at the backslash *)
                  | None => Failed m_escape s
                  end
            end
          else if c <? 32 then Failed m_control s
          else
            match scan_string_e f begin s1 with
            | Parsed (t, r) => Parsed (c :: t, r)
            | Failed m a => Failed m a
            | OutOfFuel => OutOfFuel
            end
      end
  end.

(** ** Values *)

(** A constant or a number; [_match_number_unicode] raises
    [StopIteration(start)], which [raw_decode] reports as
    [Expecting value] at the value's start. *)
Definition parse_literal_e (s : pystr) : scan (pyval * pystr) :=
  match parse_literal s with Some p => Parsed p | None => Failed m_value s end.

Fixpoint parse_value_e (fuel : nat) (s : pystr) {struct fuel} : scan (pyval * pystr) :=
  match fuel with
  | O => OutOfFuel
  | S f =>
      match skip_ws s with
      | [] => Failed m_value []
      | c :: s1 =>
          if c =? 34 then
            match scan_string_e (S (length s1)) (c :: s1) s1 with
            | Parsed (t, r) => Parsed (VStr t, r)
            | Failed m a => Failed m a
            | OutOfFuel => OutOfFuel
            end
          else if c =? 123 then
            let s2 := skip_ws s1 in
            if head_is 125 s2 then Parsed (VDict [], tail s2) else parse_members_e f s2 []
          else if c =? 91 then
            let s2 := skip_ws s1 in
            if head_is 93 s2 then Parsed (VList [], tail s2) else parse_elems_e f s2 []
          else parse_literal_e (c :: s1)
      end
  end
(** [_parse_array_unicode], at an element. *)
with parse_elems_e (fuel : nat) (s : pystr) (acc : list pyval) {struct fuel}
    : scan (pyval * pystr) :=
  match fuel with
  | O => OutOfFuel
  | S f =>
      match parse_value_e f s with
      | Parsed (v, s1) =>
          let s2 := skip_ws s1 in
          if head_is 93 s2 then Parsed (VList (acc ++ [v]), tail s2)
          else if head_is 44 s2 then parse_elems_e f (tail s2) (acc ++ [v])
          else Failed m_comma s2
      | Failed m a => Failed m a
      | OutOfFuel => OutOfFuel
      end
  end
(** [_parse_object_unicode], at a property name. *)
with parse_members_e (fuel : nat) (s : pystr) (acc : list (pystr * pyval))
    {struct fuel} : scan (pyval * pystr) :=
  match fuel with
  | O => OutOfFuel
  | S f =>
      let s0 := skip_ws s in
      if head_is 34 s0 then
        let s1 := tail s0 in
        match scan_string_e (S (length s1)) s0 s1 with
        | Parsed (k, s2) =>
            let s3 := skip_ws s2 in
            if head_is 58 s3 then
              match parse_value_e f (tail s3) with
              | Parsed (v, s4) =>
                  let s5 := skip_ws s4 in
                  if head_is 125 s5 then
                    Parsed (VDict (dict_of_pairs (acc ++ [(k, v)])), tail s5)
                  else if head_is 44 s5 then parse_members_e f (tail s5) (acc ++ [(k, v)])
                  else Failed m_comma s5
              | Failed m a => Failed m a
              | OutOfFuel => OutOfFuel
              end
            else Failed m_colon s3
        | Failed m a => Failed m a
        | OutOfFuel => OutOfFuel
        end
      else Failed m_property s0
  end.

(** [json.loads(doc)]: the byte order mark, then [decode]: a value
    after whitespace, then only whitespace.  The fuel is two per
    character: an array spends two for each [[] it enters. *)
Definition loads_err (doc : pystr) : scan pyval :=
  if head_is 0xFEFF doc then Failed m_bom doc else
  match parse_value_e (S (2 * length doc)) doc with
  | Parsed (v, r) => if bool_decide (skip_ws r = []) then Parsed v else Failed m_extra (skip_ws r)
  | Failed m a => Failed m a
  | OutOfFuel => OutOfFuel
  end.

(** ** [str(JSONDecodeError(msg, doc, pos))] *)

(** [s.rfind(c)]: the last index of [c] in [s], [-1] when there is none. *)
Fixpoint rfind (c : N) (s : pystr) : Z :=
  match s with
  | [] => (-1)%Z
  | x :: s' =>
      match rfind c s' with
      | Zneg 1 => if x =? c then 0%Z else (-1)%Z
      | i => (i + 1)%Z
      end
  end.

(** [JSONDecodeError.__init__]: [lineno = doc.count('\n', 0, pos) + 1],
    [colno = pos - doc.rfind('\n', 0, pos)]. *)
Definition decode_error_str (msg doc : pystr) (pos : nat) : pystr :=
  let pre := take pos doc in
  let newlines := length (filter (fun c : N => c =? 10) pre) in
  let lineno := (Z.of_nat newlines + 1)%Z in
  let colno := (Z.of_nat pos - rfind 10 pre)%Z in
  msg ++ py ": line " ++ PyStr.str_int lineno ++ py " column " ++ PyStr.str_int colno
      ++ py " (char " ++ PyStr.str_int (Z.of_nat pos) ++ py ")".

(** The error position of a failure on [doc]: where its rest starts. *)
Definition err_pos (doc at_ : pystr) : nat := (length doc - length at_)%nat.

(** The body [response.json()] reads from the text [doc]. *)
Definition body_of_text (doc : pystr) : json_body :=
  match loads_err doc with
  | Parsed v => JsonValue v
  | Failed m a => JsonInvalid (decode_error_str m doc (err_pos doc a))
  | OutOfFuel => JsonInvalid []
  end.

(** An HTML error page with status 200. *)
Definition resp_html : http_response :=
  {| status_code := 200; reason := py "OK"; resp_url := deepseek_url;
     resp_body := body_of_text (py "<html>") |}.

(** ** Forgetting the errors gives the decoder of [JsonDecode] *)

Ltac scan_case x := destruct x as [[? ?] | ? ? |]; reflexivity.

Lemma scan_string_nil (f : nat) : scan_string f [] = None.
Proof. destruct f; reflexivity. Qed.

Lemma parse_hex4_length (s r : pystr) (u : N) :
  parse_hex4 s = Some (u, r) -> length s = (4 + length r)%nat.
Proof.
  unfold parse_hex4. destruct s as [| a [| b [| c [| d s]]]]; try discriminate.
  destruct (hex_val a), (hex_val b), (hex_val c), (hex_val d); try discriminate.
  intros [= _ <-]. reflexivity.
Qed.

Lemma join_surrogate_nil (u : N) : join_surrogate u [] = Some (u, []).
Proof. unfold join_surrogate. destruct (is_high u); reflexivity. Qed.

(** A [\u] escape with at most four characters after it fails, in both
    decoders. *)
Lemma scan_string_short_u (f : nat) (rest : pystr) :
  (length rest <= 4)%nat -> scan_string f (92 :: 117 :: rest) = None.
Proof.
  intros Hl. destruct f as [| f]; [reflexivity |]. cbn.
  destruct (parse_hex4 rest) as [[u r] |] eqn:E; [| reflexivity].
  apply parse_hex4_length in E. destruct r; [| cbn in *; lia].
  rewrite join_surrogate_nil, scan_string_nil. reflexivity.
Qed.

Lemma scan_string_e_short_u (f : nat) (b rest : pystr) :
  (length rest <= 4)%nat -> erase (scan_string_e f b (92 :: 117 :: rest)) = None.
Proof.
  intros Hl. destruct f as [| f]; [reflexivity |]. cbn.
  apply Nat.leb_le in Hl. rewrite Hl. reflexivity.
Qed.

Section Join.
Variable f : nat.
Hypothesis IH : forall b s, erase (scan_string_e f b s) = scan_string f s.

(** After a [\uXXXX] escape: joining a surrogate pair, then the rest. *)
Lemma join_erase (b : pystr) (u : N) (s3 : pystr) :
  erase (match join_surrogate_e u s3 with
         | Parsed (cp, s4) =>
             match scan_string_e f b s4 with
             | Parsed (t, r) => Parsed (cp :: t, r)
             | Failed m a => Failed m a
             | OutOfFuel => OutOfFuel
             end
         | Failed m a => Failed m a
         | OutOfFuel => OutOfFuel
         end) =
  match join_surrogate u s3 with
  | Some (cp, s4) =>
      match scan_string f s4 with Some (t, r) => Some (cp :: t, r) | None => None end
  | None => None
  end.
Proof.
  unfold join_surrogate_e, join_surrogate.
  destruct (is_high u); cbn [andb]; [| rewrite <- (IH b); scan_case (scan_string_e f b s3)].
  destruct s3 as [| a [| c rest]].
  { cbn -[scan_string_e scan_string]. rewrite <- (IH b). scan_case (scan_string_e f b []). }
  { cbn -[scan_string_e scan_string]. rewrite andb_false_r, <- (IH b).
    scan_case (scan_string_e f b [a]). }
  cbn [head_is tail]. destruct (a =? 92) eqn:Ea, (c =? 117) eqn:Ec;
    rewrite ?andb_false_r; cbn [andb]; try (rewrite <- (IH b); scan_case (scan_string_e f b (a :: c :: rest))).
  apply N.eqb_eq in Ea, Ec. subst a c. rewrite andb_true_r.
  match goal with |- context [Nat.leb 7 ?l] => destruct (Nat.leb 7 l) eqn:Hl end.
  - cbn. destruct (parse_hex4 rest) as [[u2 s2] |]; [| reflexivity].
    destruct (is_low u2); rewrite <- (IH b); scan_case (scan_string_e f b s2) ||
      scan_case (scan_string_e f b (92 :: 117 :: rest)).
  - apply Nat.leb_gt in Hl. cbn in Hl.
    pose proof (scan_string_e_short_u f b rest ltac:(lia)) as He. cbn [andb].
    destruct (scan_string_e f b (92 :: 117 :: rest)) as [[t r] | |]; [discriminate | |];
      cbn [erase]; destruct (parse_hex4 rest) as [[u2 s2] |] eqn:E; try reflexivity;
      apply parse_hex4_length in E; (destruct s2; [| cbn in *; lia]);
      destruct (is_low u2); rewrite ?scan_string_nil, ?scan_string_short_u by lia; reflexivity.
Qed.

End Join.

Lemma scan_string_erase (f : nat) (b s : pystr) :
  erase (scan_string_e f b s) = scan_string f s.
Proof.
  revert b s. induction f as [| f IH]; intros b s; [reflexivity |].
  destruct s as [| c s1]; [reflexivity |]. cbn [scan_string_e scan_string].
  destruct (c =? 34); [reflexivity |]. destruct (c =? 92).
  - destruct s1 as [| e s2]; [reflexivity |]. destruct (e =? 117).
    + destruct (length s2 <=? 4)%nat eqn:Hl.
      * apply Nat.leb_le in Hl. destruct (parse_hex4 s2) as [[u s3] |] eqn:E; [| reflexivity].
        apply parse_hex4_length in E. destruct s3; [| cbn in *; lia].
        rewrite join_surrogate_nil, scan_string_nil. reflexivity.
      * destruct (parse_hex4 s2) as [[u s3] |]; [apply join_erase, IH | reflexivity].
    + destruct (simple_escape e); [rewrite <- (IH b); scan_case (scan_string_e f b s2) | reflexivity].
  - destruct (c <? 32); [reflexivity |]. rewrite <- (IH b). scan_case (scan_string_e f b s1).
Qed.

Lemma parse_erase (f : nat) :
  (forall s, erase (parse_value_e f s) = parse_value f s) /\
  (forall s acc, erase (parse_elems_e f s acc) = parse_elems f s acc) /\
  (forall s acc, erase (parse_members_e f s acc) = parse_members f s acc).
Proof.
  induction f as [| f (IHv & IHe & IHm)]; [split_and!; reflexivity |]. split_and!.
  - intros s. cbn [parse_value_e parse_value]. destruct (skip_ws s) as [| c s1]; [reflexivity |].
    destruct (c =? 34).
    { rewrite <- (scan_string_erase _ (c :: s1)). scan_case (scan_string_e (S (length s1)) (c :: s1) s1). }
    destruct (c =? 123); [destruct (head_is 125 (skip_ws s1)); [reflexivity | apply IHm] |].
    destruct (c =? 91); [destruct (head_is 93 (skip_ws s1)); [reflexivity | apply IHe] |].
    unfold parse_literal_e. destruct (parse_literal (c :: s1)); reflexivity.
  - intros s acc. cbn [parse_elems_e parse_elems]. rewrite <- IHv.
    destruct (parse_value_e f s) as [[v s1] | |]; [| reflexivity | reflexivity]. cbn [erase].
    destruct (head_is 93 (skip_ws s1)); [reflexivity |].
    destruct (head_is 44 (skip_ws s1)); [apply IHe | reflexivity].
  - intros s acc. cbn [parse_members_e parse_members]. destruct (head_is 34 (skip_ws s)); [| reflexivity].
    rewrite <- (scan_string_erase _ (skip_ws s)).
    destruct (scan_string_e _ (skip_ws s) _) as [[k s2] | |]; [| reflexivity | reflexivity]. cbn [erase].
    destruct (head_is 58 (skip_ws s2)); [| reflexivity]. rewrite <- IHv.
    destruct (parse_value_e f _) as [[v s4] | |]; [| reflexivity | reflexivity]. cbn [erase].
    destruct (head_is 125 (skip_ws s4)); [reflexivity |].
    destruct (head_is 44 (skip_ws s4)); [apply IHm | reflexivity].
Qed.

(** ** Every step consumes input *)

Lemma skip_ws_length (s : pystr) : (length (skip_ws s) <= length s)%nat.
Proof. induction s as [| c s IH]; cbn; [lia |]. destruct (is_ws c); cbn; lia. Qed.

Lemma head_is_length (c : N) (s : pystr) :
  head_is c s = true -> S (length (tail s)) = length s.
Proof. destruct s; [discriminate | reflexivity]. Qed.

Lemma take_digits_length (s d r : pystr) :
  take_digits s = (d, r) -> length s = (length d + length r)%nat.
Proof.
  revert d r. induction s as [| c s IH]; intros d r; cbn; [intros [= <- <-]; reflexivity |].
  destruct (is_digit c); [| intros [= <- <-]; reflexivity].
  destruct (take_digits s) as [d' r'] eqn:E. intros [= <- <-]. cbn. rewrite (IH d' r'); auto.
Qed.

Lemma take_fraction_length (s d r : pystr) :
  take_fraction s = (d, r) -> length s = (length d + length r)%nat.
Proof.
  unfold take_fraction. destruct s as [| p [| c s]]; try (intros [= <- <-]; reflexivity).
  destruct ((p =? 46) && is_digit c); [| intros [= <- <-]; reflexivity].
  cbn [tail]. destruct (take_digits (c :: s)) as [d' r'] eqn:E. intros [= <- <-].
  apply take_digits_length in E. cbn in *. lia.
Qed.

Lemma take_exponent_length (s d r : pystr) :
  take_exponent s = (d, r) -> length s = (length d + length r)%nat.
Proof.
  unfold take_exponent. destruct s as [| e s1]; [intros [= <- <-]; reflexivity |].
  destruct ((e =? 101) || (e =? 69)); [| intros [= <- <-]; reflexivity].
  destruct (match s1 with
            | c :: s2 => if (c =? 43) || (c =? 45) then ([c], s2) else ([], s1)
            | [] => ([], s1) end) as [sg s2] eqn:Hs.
  assert (Hl : length s1 = (length sg + length s2)%nat).
  { destruct s1 as [| c s1']; [injection Hs as <- <-; reflexivity |].
    destruct ((c =? 43) || (c =? 45)); injection Hs as <- <-; reflexivity. }
  destruct (take_digits s2) as [[| x ds] r'] eqn:E; intros [= <- <-]; [reflexivity |].
  apply take_digits_length in E. cbn [length] in *. rewrite length_app. cbn [length] in *. lia.
Qed.

Lemma parse_number_length (s r : pystr) (v : pyval) :
  parse_number s = Some (v, r) -> (length r < length s)%nat.
Proof.
  unfold parse_number.
  destruct (if head_is 45 s then (true, tail s) else (false, s)) as [neg s1] eqn:Hn.
  assert (Hs1 : (length s1 <= length s)%nat).
  { destruct (head_is 45 s); injection Hn as _ <-; [destruct s; cbn; lia | lia]. }
  destruct s1 as [| c s2]; [discriminate |].
  destruct (match (if c =? 48 then Some ([48], s2) else if (49 <=? c) && (c <=? 57)
                   then Some (take_digits (c :: s2)) else None) with x => x end)
    as [[ds s3] |] eqn:Hi; [| discriminate].
  assert (Hl3 : (length s3 < S (length s2))%nat).
  { destruct (c =? 48); [injection Hi as _ <-; lia |].
    destruct ((49 <=? c) && (c <=? 57)) eqn:Hd; [| discriminate]. injection Hi as Hi.
    cbn in Hi. apply andb_true_iff in Hd as [Hd1 Hd2].
    assert (Hdig : is_digit c = true) by (unfold is_digit; apply andb_true_iff; split;
                                            apply N.leb_le; apply N.leb_le in Hd1, Hd2; lia).
    rewrite Hdig in Hi. destruct (take_digits s2) as [d' r'] eqn:E. injection Hi as _ <-.
    apply take_digits_length in E. lia. }
  destruct (take_fraction s3) as [fr s4] eqn:Hf. destruct (take_exponent s4) as [ex s5] eqn:He.
  apply take_fraction_length in Hf. apply take_exponent_length in He. cbn in Hs1.
  destruct fr, ex; intros [= _ <-]; lia.
Qed.

Lemma strip_prefix_length (p s r : pystr) :
  strip_prefix p s = Some r -> length s = (length p + length r)%nat.
Proof.
  revert s. induction p as [| c p IH]; intros s; cbn; [intros [= <-]; reflexivity |].
  destruct s as [| d s]; [discriminate |]. destruct (c =? d); [| discriminate].
  intros H. cbn. rewrite (IH s H). reflexivity.
Qed.

Lemma parse_literal_length (s r : pystr) (v : pyval) :
  parse_literal s = Some (v, r) -> (length r < length s)%nat.
Proof.
  unfold parse_literal.
  repeat match goal with
         | |- context [strip_prefix ?p s] =>
             let E := fresh "E" in
             destruct (strip_prefix p s) eqn:E;
             [intros [= _ <-]; apply strip_prefix_length in E; rewrite E;
              vm_compute (length p); lia |]
         end.
  apply parse_number_length.
Qed.

Lemma join_surrogate_e_length (u cp : N) (s r : pystr) :
  join_surrogate_e u s = Parsed (cp, r) -> (length r <= length s)%nat.
Proof.
  unfold join_surrogate_e.
  destruct (is_high u && (7 <=? length s)%nat && head_is 92 s && head_is 117 (tail s)) eqn:H;
    [| intros [= _ <-]; lia].
  destruct (parse_hex4 (tail (tail s))) as [[u2 s2] |] eqn:E; [| discriminate].
  apply parse_hex4_length in E. destruct s as [| a [| b s]]; cbn in E |- *; [lia | lia |].
  destruct (is_low u2); intros [= _ <-]; cbn; lia.
Qed.

Lemma scan_string_e_length (f : nat) (b s t r : pystr) :
  scan_string_e f b s = Parsed (t, r) -> (length r < length s)%nat.
Proof.
  revert s t. induction f as [| f IH]; intros s t; [discriminate |].
  destruct s as [| c s1]; [discriminate |]. cbn [scan_string_e].
  destruct (c =? 34); [intros [= _ <-]; cbn; lia |]. destruct (c =? 92).
  - destruct s1 as [| e s2]; [discriminate |]. destruct (e =? 117).
    + destruct (length s2 <=? 4)%nat; [discriminate |].
      destruct (parse_hex4 s2) as [[u s3] |] eqn:E; [| discriminate].
      destruct (join_surrogate_e u s3) as [[cp s4] | |] eqn:J; try discriminate.
      destruct (scan_string_e f b s4) as [[t' r'] | |] eqn:R; try discriminate.
      intros [= _ <-]. apply IH in R. apply join_surrogate_e_length in J.
      apply parse_hex4_length in E. cbn. lia.
    + destruct (simple_escape e); [| discriminate].
      destruct (scan_string_e f b s2) as [[t' r'] | |] eqn:R; try discriminate.
      intros [= _ <-]. apply IH in R. cbn. lia.
  - destruct (c <? 32); [discriminate |].
    destruct (scan_string_e f b s1) as [[t' r'] | |] eqn:R; try discriminate.
    intros [= _ <-]. apply IH in R. cbn. lia.
Qed.

Lemma parse_length (f : nat) :
  (forall s v r, parse_value_e f s = Parsed (v, r) -> (length r < length s)%nat) /\
  (forall s acc v r, parse_elems_e f s acc = Parsed (v, r) -> (length r < length s)%nat) /\
  (forall s acc v r, parse_members_e f s acc = Parsed (v, r) -> (length r < length s)%nat).
Proof.
  induction f as [| f (IHv & IHe & IHm)]; [split_and!; discriminate |]. split_and!.
  - intros s v r. cbn [parse_value_e]. pose proof (skip_ws_length s) as Hs.
    destruct (skip_ws s) as [| c s1]; [discriminate |]. pose proof (skip_ws_length s1) as Hs1.
    destruct (c =? 34).
    { destruct (scan_string_e _ _ s1) as [[t r'] | |] eqn:R; try discriminate.
      intros [= _ <-]. apply scan_string_e_length in R. cbn in Hs. lia. }
    destruct (c =? 123).
    { destruct (head_is 125 (skip_ws s1)) eqn:H.
      - intros [= _ <-]. apply head_is_length in H. cbn in Hs. lia.
      - intros R%IHm. cbn in Hs. lia. }
    destruct (c =? 91).
    { destruct (head_is 93 (skip_ws s1)) eqn:H.
      - intros [= _ <-]. apply head_is_length in H. cbn in Hs. lia.
      - intros R%IHe. cbn in Hs. lia. }
    unfold parse_literal_e. destruct (parse_literal (c :: s1)) as [[v' r'] |] eqn:L; [| discriminate].
    intros [= _ <-]. apply parse_literal_length in L. lia.
  - intros s acc v r. cbn [parse_elems_e].
    destruct (parse_value_e f s) as [[v1 s1] | |] eqn:V; try discriminate. apply IHv in V.
    pose proof (skip_ws_length s1) as Hw.
    destruct (head_is 93 (skip_ws s1)) eqn:H; [intros [= _ <-]; apply head_is_length in H; lia |].
    destruct (head_is 44 (skip_ws s1)) eqn:H'; [| discriminate].
    intros R%IHe. apply head_is_length in H'. lia.
  - intros s acc v r. cbn [parse_members_e]. pose proof (skip_ws_length s) as Hs.
    destruct (head_is 34 (skip_ws s)) eqn:Hq; [| discriminate]. apply head_is_length in Hq.
    destruct (scan_string_e _ _ _) as [[k s2] | |] eqn:K; try discriminate.
    apply scan_string_e_length in K. pose proof (skip_ws_length s2) as Hw2.
    destruct (head_is 58 (skip_ws s2)) eqn:Hc; [| discriminate]. apply head_is_length in Hc.
    destruct (parse_value_e f _) as [[v1 s4] | |] eqn:V; try discriminate. apply IHv in V.
    pose proof (skip_ws_length s4) as Hw4.
    destruct (head_is 125 (skip_ws s4)) eqn:H; [intros [= _ <-]; apply head_is_length in H; lia |].
    destruct (head_is 44 (skip_ws s4)) eqn:H'; [| discriminate].
    intros R%IHm. apply head_is_length in H'. lia.
Qed.

(** ** Fuel *)

Lemma join_surrogate_e_fuel (u : N) (s : pystr) : join_surrogate_e u s <> OutOfFuel.
Proof.
  unfold join_surrogate_e. destruct (_ && _); [| discriminate].
  destruct (parse_hex4 _) as [[u2 s2] |]; [destruct (is_low u2) |]; discriminate.
Qed.

Lemma scan_string_e_fuel (f : nat) (b s : pystr) :
  (length s < f)%nat -> scan_string_e f b s <> OutOfFuel.
Proof.
  revert s. induction f as [| f IH]; intros s Hf; [lia |].
  destruct s as [| c s1]; [discriminate |]. cbn [scan_string_e]. cbn [length] in Hf.
  destruct (c =? 34); [discriminate |]. destruct (c =? 92).
  - destruct s1 as [| e s2]; [discriminate |]. destruct (e =? 117).
    + destruct (length s2 <=? 4)%nat; [discriminate |].
      destruct (parse_hex4 s2) as [[u s3] |] eqn:E; [| discriminate].
      destruct (join_surrogate_e u s3) as [[cp s4] | |] eqn:J;
        [| discriminate | exfalso; exact (join_surrogate_e_fuel u s3 J)].
      apply parse_hex4_length in E. apply join_surrogate_e_length in J.
      pose proof (IH s4 ltac:(cbn in Hf; lia)).
      destruct (scan_string_e f b s4) as [[? ?] | |]; congruence.
    + destruct (simple_escape e); [| discriminate].
      pose proof (IH s2 ltac:(cbn in Hf; lia)).
      destruct (scan_string_e f b s2) as [[? ?] | |]; congruence.
  - destruct (c <? 32); [discriminate |]. pose proof (IH s1 ltac:(lia)).
    destruct (scan_string_e f b s1) as [[? ?] | |]; congruence.
Qed.

(** Two units of fuel per character are enough: an array spends one
    on its [[] and one on each element, and each element after the
    first follows a comma. *)
Lemma parse_fuel (f : nat) :
  (forall s, (2 * length s + 1 <= f)%nat -> parse_value_e f s <> OutOfFuel) /\
  (forall s acc, (2 * length s + 2 <= f)%nat -> parse_elems_e f s acc <> OutOfFuel) /\
  (forall s acc, (2 * length s + 2 <= f)%nat -> parse_members_e f s acc <> OutOfFuel).
Proof.
  induction f as [| f (IHv & IHe & IHm)]; [split_and!; intros; lia |].
  destruct (parse_length f) as (Lv & _ & _). split_and!.
  - intros s Hf. cbn [parse_value_e]. pose proof (skip_ws_length s) as Hs.
    destruct (skip_ws s) as [| c s1]; [discriminate |]. pose proof (skip_ws_length s1) as Hs1.
    cbn in Hs. destruct (c =? 34).
    { pose proof (scan_string_e_fuel (S (length s1)) (c :: s1) s1 ltac:(lia)).
      destruct (scan_string_e _ _ s1) as [[? ?] | |]; congruence. }
    destruct (c =? 123); [destruct (head_is 125 (skip_ws s1)); [discriminate | apply IHm; lia] |].
    destruct (c =? 91); [destruct (head_is 93 (skip_ws s1)); [discriminate | apply IHe; lia] |].
    unfold parse_literal_e. destruct (parse_literal (c :: s1)) as [[? ?] |]; discriminate.
  - intros s acc Hf. cbn [parse_elems_e]. pose proof (IHv s ltac:(lia)) as Hv.
    destruct (parse_value_e f s) as [[v1 s1] | |] eqn:V; [| discriminate | congruence].
    apply Lv in V. pose proof (skip_ws_length s1) as Hw.
    destruct (head_is 93 (skip_ws s1)); [discriminate |].
    destruct (head_is 44 (skip_ws s1)) eqn:H'; [| discriminate].
    apply head_is_length in H'. apply IHe. lia.
  - intros s acc Hf. cbn [parse_members_e]. pose proof (skip_ws_length s) as Hs.
    destruct (head_is 34 (skip_ws s)) eqn:Hq; [| discriminate]. apply head_is_length in Hq.
    pose proof (scan_string_e_fuel (S (length (tail (skip_ws s)))) (skip_ws s) (tail (skip_ws s))
                  ltac:(lia)) as Hk.
    destruct (scan_string_e _ _ _) as [[k s2] | |] eqn:K; [| discriminate | congruence].
    apply scan_string_e_length in K. pose proof (skip_ws_length s2) as Hw2.
    destruct (head_is 58 (skip_ws s2)) eqn:Hc; [| discriminate]. apply head_is_length in Hc.
    pose proof (IHv (tail (skip_ws s2)) ltac:(lia)) as Hv.
    destruct (parse_value_e f _) as [[v1 s4] | |] eqn:V; [| discriminate | congruence].
    apply Lv in V. pose proof (skip_ws_length s4) as Hw4.
    destruct (head_is 125 (skip_ws s4)); [discriminate |].
    destruct (head_is 44 (skip_ws s4)) eqn:H'; [| discriminate].
    apply head_is_length in H'. apply IHm. lia.
Qed.

(** A success needs no more fuel than the characters it consumed. *)
Lemma parse_success_fuel (f : nat) :
  (forall s v r g, parse_value_e f s = Parsed (v, r) ->
     (length s - length r <= g)%nat -> parse_value_e g s = Parsed (v, r)) /\
  (forall s acc v r g, parse_elems_e f s acc = Parsed (v, r) ->
     (length s - length r <= g)%nat -> parse_elems_e g s acc = Parsed (v, r)) /\
  (forall s acc v r g, parse_members_e f s acc = Parsed (v, r) ->
     (length s - length r <= g)%nat -> parse_members_e g s acc = Parsed (v, r)).
Proof.
  induction f as [| f (IHv & IHe & IHm)]; [split_and!; discriminate |].
  destruct (parse_length f) as (Lv & Le & Lm). split_and!.
  - intros s v r g H Hg. pose proof (proj1 (parse_length (S f)) _ _ _ H) as Hlt.
    destruct g as [| g]; [lia |]. cbn [parse_value_e] in H |- *.
    pose proof (skip_ws_length s) as Hs.
    destruct (skip_ws s) as [| c s1]; [exact H |]. pose proof (skip_ws_length s1) as Hs1.
    cbn in Hs. destruct (c =? 34); [exact H |].
    destruct (c =? 123).
    { destruct (head_is 125 (skip_ws s1)); [exact H |].
      pose proof (Lm _ _ _ _ H). apply (IHm _ _ _ _ _ H). lia. }
    destruct (c =? 91); [| exact H].
    destruct (head_is 93 (skip_ws s1)); [exact H |].
    pose proof (Le _ _ _ _ H). apply (IHe _ _ _ _ _ H). lia.
  - intros s acc v r g H Hg. pose proof (proj1 (proj2 (parse_length (S f))) _ _ _ _ H) as Hlt.
    destruct g as [| g]; [lia |]. cbn [parse_elems_e] in H |- *.
    destruct (parse_value_e f s) as [[v1 s1] | |] eqn:V; try discriminate.
    pose proof (Lv _ _ _ V) as Hv. pose proof (skip_ws_length s1) as Hw.
    assert (Hr : (length r < length s1)%nat).
    { destruct (head_is 93 (skip_ws s1)) eqn:Hb; [injection H as _ <-; apply head_is_length in Hb; lia |].
      destruct (head_is 44 (skip_ws s1)) eqn:Hc; [| discriminate].
      apply Le in H. apply head_is_length in Hc. lia. }
    rewrite (IHv _ _ _ g V) by lia. cbn zeta.
    destruct (head_is 93 (skip_ws s1)); [exact H |].
    destruct (head_is 44 (skip_ws s1)) eqn:Hc; [| exact H].
    pose proof (Le _ _ _ _ H). apply head_is_length in Hc. apply (IHe _ _ _ _ _ H). lia.
  - intros s acc v r g H Hg. pose proof (proj2 (proj2 (parse_length (S f))) _ _ _ _ H) as Hlt.
    destruct g as [| g]; [lia |]. cbn [parse_members_e] in H |- *.
    pose proof (skip_ws_length s) as Hs.
    destruct (head_is 34 (skip_ws s)) eqn:Hq; [| exact H]. apply head_is_length in Hq.
    destruct (scan_string_e _ _ _) as [[k s2] | |] eqn:K; try exact H.
    apply scan_string_e_length in K. pose proof (skip_ws_length s2) as Hw2.
    destruct (head_is 58 (skip_ws s2)) eqn:Hc; [| exact H]. apply head_is_length in Hc.
    destruct (parse_value_e f (tail (skip_ws s2))) as [[v1 s4] | |] eqn:V; try discriminate.
    pose proof (Lv _ _ _ V) as Hv. pose proof (skip_ws_length s4) as Hw4.
    assert (Hr : (length r < length s4)%nat).
    { destruct (head_is 125 (skip_ws s4)) eqn:Hb; [injection H as _ <-; apply head_is_length in Hb; lia |].
      destruct (head_is 44 (skip_ws s4)) eqn:Hd; [| discriminate].
      apply Lm in H. apply head_is_length in Hd. lia. }
    rewrite (IHv _ _ _ g V) by lia. cbn zeta.
    destruct (head_is 125 (skip_ws s4)); [exact H |].
    destruct (head_is 44 (skip_ws s4)) eqn:Hd; [| exact H].
    pose proof (Lm _ _ _ _ H). apply head_is_length in Hd. apply (IHm _ _ _ _ _ H). lia.
Qed.

(** ** [loads_err] and [loads] *)

Lemma erase_some {A} (x : scan A) (a : A) : erase x = Some a -> x = Parsed a.
Proof. destruct x; cbn; congruence. Qed.

(** A document that starts with a byte order mark is not JSON. *)
Lemma loads_bom (doc : pystr) : head_is 0xFEFF doc = true -> loads doc = None.
Proof.
  destruct doc as [| c t]; [discriminate |]. cbn [head_is]. intros Hc%N.eqb_eq. subst c.
  vm_compute. reflexivity.
Qed.

Lemma loads_err_erase (doc : pystr) : erase (loads_err doc) = loads doc.
Proof.
  unfold loads_err. destruct (head_is 0xFEFF doc) eqn:Hb; [symmetry; apply loads_bom, Hb |].
  destruct (parse_success_fuel (S (2 * length doc))) as (Sv & _ & _).
  pose proof (proj1 (parse_erase (S (length doc))) doc) as Er.
  unfold loads. destruct (parse_value_e (S (2 * length doc)) doc) as [[v r] | m a |] eqn:P.
  - rewrite (Sv _ _ _ (S (length doc)) P) in Er by lia. rewrite <- Er. cbn.
    destruct (bool_decide (skip_ws r = [])); reflexivity.
  - destruct (parse_value (S (length doc)) doc) as [[v r] |] eqn:Q; [| reflexivity].
    apply erase_some in Er.
    pose proof (proj1 (parse_success_fuel (S (length doc))) _ _ _ (S (2 * length doc)) Er) as C.
    rewrite P in C. discriminate C. lia.
  - exfalso. exact (proj1 (parse_fuel (S (2 * length doc))) doc ltac:(lia) P).
Qed.

Lemma loads_err_fuel (doc : pystr) : loads_err doc <> OutOfFuel.
Proof.
  unfold loads_err. destruct (head_is 0xFEFF doc); [discriminate |].
  pose proof (proj1 (parse_fuel (S (2 * length doc))) doc ltac:(lia)) as H.
  destruct (parse_value_e _ doc) as [[v r] | |]; [| discriminate | congruence].
  repeat case_match; discriminate.
Qed.

(** [response.json()] on the text of a body: the [json_body] that
    [body_of_bytes] leaves to its error parameter, with the text of the
    error. *)
Lemma body_of_text_bytes (bytes : list N) :
  exists err, body_of_text (utf8_decode bytes) = body_of_bytes bytes err.
Proof.
  unfold body_of_text, body_of_bytes. pose proof (loads_err_erase (utf8_decode bytes)) as E.
  pose proof (loads_err_fuel (utf8_decode bytes)) as F.
  destruct (loads_err _) as [v | m a |]; [| | congruence]; cbn in E; rewrite <- E; eauto.
Qed.


(** C38: a response whose status passes [raise_for_status] but whose
    body [json.loads] rejects makes [chat_with_deepseek] reply with the
    request-failure message and the text of the [JSONDecodeError]: its
    message, line, column and character position. *)
Theorem deepseek_undecodable_body (r : http_response) (doc : pystr) :
  status_ok (status_code r) -> resp_body r = body_of_text doc -> loads doc = None ->
  exists m a, loads_err doc = Failed m a /\
    deepseek_answer (inr r) =
      inr (VStr (py "❌ DeepSeek API请求失败: " ++ decode_error_str m doc (err_pos doc a))).
Proof.
  intros Hs Hb Hn. pose proof (loads_err_erase doc) as E. pose proof (loads_err_fuel doc) as F.
  unfold body_of_text in Hb.
  destruct (loads_err doc) as [v | m a |]; [cbn in E; congruence | | congruence].
  exists m, a. split; [reflexivity |].
  unfold deepseek_answer, deepseek_try. cbn. rewrite raise_for_status_ok by exact Hs.
  unfold response_json. rewrite Hb. reflexivity.
Qed.

Lemma deepseek_undecodable_body_witness :
  exists m a, loads_err (py "<html>") = Failed m a /\
    deepseek_answer (inr resp_html) =
      inr (VStr (py "❌ DeepSeek API请求失败: " ++ decode_error_str m (py "<html>")
                   (err_pos (py "<html>") a))).
Proof.
  apply deepseek_undecodable_body;
    [unfold status_ok; cbn; lia | reflexivity | vm_compute; reflexivity].
Defined.

(** The reply to that page: the text of the error at its first character. *)
Example deepseek_html_reply :
  deepseek_answer (inr resp_html) =
    inr (VStr (py "❌ DeepSeek API请求失败: Expecting value: line 1 column 1 (char 0)")).
Proof. vm_compute. reflexivity. Qed.

End JsonError.
