(* ===== verification/Session.v ===== *)
(** * Sessions of [main]: the loop ends at the first exit word

    Module [Session] composes the loop of [Repl] with the DeepSeek
    adapter of [Adapter]: when the lines typed before an exit word are
    answered by [requests.post] without a [BaseException] that is not
    an [Exception], the loop of [main] (lines 127-159) returns at that
    exit word, after one pass per input event.  [run] counts passes as
    fuel; the theorem gives the fuel that suffices and holds for any
    larger fuel. *)

From S2P Require Import Prelude PyStr PyObj Resolver Net Adapter Repl.
Import PyObj Net Repl.
Open Scope N_scope.

Module Session.

(** An answer of [requests.post] that is a response, or an exception
    of the [Exception] family: what [chat_with_deepseek] turns into a
    reply. *)
Definition tame (o : post_outcome) : bool :=
  match o with inl e => is_exception e | inr _ => true end.

Section Session.
Context `{PyStr.UnicodeCase}.

(** An input event after which the loop goes on: a line that is not an
    exit word, or an exception of the [Exception] family from
    [input()]. *)
Definition continues (ev : input_event) : bool :=
  match ev with
  | ILine raw => negb (is_exit_command (PyStr.strip raw))
  | IRaise e => is_exception e
  end.

(** The POSTs an input event costs: one for a line that is neither
    blank nor an exit word. *)
Definition chat_cost (ev : input_event) : nat :=
  match ev with
  | ILine raw =>
      if is_exit_command (PyStr.strip raw) || bool_decide (PyStr.strip raw = []) then 0 else 1
  | IRaise _ => 0
  end.

(** The DeepSeek configuration of [main] in its loop. *)
Definition deepseek_looping (k : pystr) (st : state) : Prop :=
  st_phase st = Looping /\ st_provider st = Some (py "deepseek") /\
  st_client st = Some (Resolver.HKey k).

End Session.

(** A session: a question, a blank line, an interrupted [input()] that
    raised an [OSError], and [quit]. *)
Definition session_inputs : list input_event :=
  [ILine (py " hi "); ILine []; IRaise (OtherError (py "OSError") []); ILine (py "QUIT")].

Section Proofs.
Context `{PyStr.UnicodeCase}.
Variable cr : Resolver.openai_client -> pystr.

(** [chat_with_deepseek] returns a value on every tame answer. *)
Lemma deepseek_answer_tame (o : post_outcome) :
  tame o = true -> exists v, Adapter.deepseek_answer o = inr v.
Proof.
  intros Ht. unfold Adapter.deepseek_answer, try_except.
  destruct (Adapter.deepseek_try o) as [e | v] eqn:E; [| eauto].
  unfold Adapter.deepseek_except.
  destruct (is_request_exception e), (is_key_error e); eauto.
  destruct (Adapter.deepseek_try_raises o e E) as [-> | ->]; [eauto |].
  cbn in Ht. rewrite Ht. eauto.
Qed.

Lemma run_stopped (n : nat) (st : state) : st_phase st <> Looping -> run cr n st = Some st.
Proof. intros Hph. destruct n; cbn; [reflexivity |]. destruct (st_phase st); congruence. Qed.

(** One pass on an event after which the loop goes on: the loop is
    still running with the same provider and key, the event is
    consumed, and so are the POST answers it costs. *)
Lemma iteration_continues (k : pystr) (st : state) (ev : input_event) (rest : list input_event) :
  deepseek_looping k st -> st_inputs st = ev :: rest -> continues ev = true ->
  forallb tame (st_posts st) = true -> (chat_cost ev <= length (st_posts st))%nat ->
  exists st1, iteration cr st = Some st1 /\ deepseek_looping k st1 /\
    st_inputs st1 = rest /\ st_posts st1 = drop (chat_cost ev) (st_posts st).
Proof.
  intros (Hph & Hp & Hc) Hin Hcont Htame Hcost. destruct ev as [raw | e].
  - cbn in Hcont. apply negb_true_iff in Hcont.
    rewrite (iteration_line cr st raw rest Hin). cbn zeta. rewrite Hcont.
    cbn [chat_cost] in Hcost |- *. rewrite Hcont in Hcost |- *. cbn [orb] in Hcost |- *.
    case_bool_decide as Hblank; [eexists; split_and!; done |].
    destruct (st_posts st) as [| o ps] eqn:Hps; [cbn in Hcost; lia |].
    apply andb_true_iff in Htame as [Ho _]. destruct (deepseek_answer_tame o Ho) as [v Hv].
    rewrite Hp, Hc. unfold Adapter.chat_with_ai.
    rewrite bool_decide_eq_true_2 by reflexivity. cbn [run_net Adapter.chat_with_deepseek].
    rewrite Hv. eexists; split_and!; done.
  - destruct e; cbn in Hcont; try discriminate;
      unfold iteration; rewrite Hin; cbn [read_input];
      (eexists; split_and!; [reflexivity | done..]).
Qed.

(** C29: the loop of [main] ends at the first exit word.  With the
    DeepSeek provider, inputs that reach an exit word after events that
    let the loop go on, and answers of [requests.post] that are
    responses or [Exception]s, one for each line that is neither blank
    nor an exit word: every fuel larger than the number of events before
    the exit word runs the loop to its [return], with the inputs after
    the exit word left unread. *)
Theorem loop_terminates (k : pystr) (st : state) (pre post : list input_event) (x : pystr)
    (n : nat) :
  deepseek_looping k st -> st_inputs st = pre ++ ILine x :: post ->
  is_exit_command (PyStr.strip x) = true -> forallb continues pre = true ->
  forallb tame (st_posts st) = true ->
  (sum_list_with chat_cost pre <= length (st_posts st))%nat -> (length pre < n)%nat ->
  exists st', run cr n st = Some st' /\ st_phase st' = Returned /\ st_inputs st' = post.
Proof.
  revert st n. induction pre as [| ev pre IH]; intros st n Hds Hin Hx Hcont Htame Hcost Hn;
    (destruct n as [| n]; [cbn in Hn; lia |]); cbn [run];
    pose proof Hds as [Hph _]; rewrite Hph.
  - rewrite (iteration_line cr st x post Hin). cbn zeta. rewrite Hx.
    rewrite run_stopped by discriminate. eexists; split_and!; reflexivity.
  - cbn [forallb] in Hcont. apply andb_true_iff in Hcont as [Hev Hcont].
    cbn [sum_list_with] in Hcost.
    destruct (iteration_continues k st ev (pre ++ ILine x :: post) Hds Hin Hev Htame
                ltac:(lia)) as (st1 & -> & Hds1 & Hin1 & Hps1).
    apply (IH st1 n Hds1 Hin1 Hx Hcont).
    + rewrite Hps1. rewrite forallb_forall in Htame |- *. intros o Ho.
      apply Htame. rewrite <- (firstn_skipn (chat_cost ev) (st_posts st)).
      apply in_or_app. right. exact Ho.
    + rewrite Hps1, length_drop. lia.
    + cbn in Hn. lia.
Qed.
End Proofs.

Lemma loop_terminates_witness :
  exists st', run no_repr 4 (st_deepseek session_inputs [inr Adapter.resp_hello]) = Some st' /\
    st_phase st' = Returned /\ st_inputs st' = [].
Proof.
  apply (@loop_terminates PyStr.ucd_sample no_repr (py "sk-1") _
           [ILine (py " hi "); ILine []; IRaise (OtherError (py "OSError") [])] [] (py "QUIT") 4);
    first [split_and!; reflexivity | reflexivity | vm_compute; reflexivity | lia].
Defined.

End Session.
