(* ===== verification/Retry.v ===== *)
(** * The OpenAI client's retries behind [client.chat.completions.create]

    [OpenAI(api_key=api_key)] (src/main.py, line 37) builds a client
    with the library's defaults, among them [max_retries=2].  Module
    [Retry] models the loop of openai-python's [SyncAPIClient.request]
    that every [create] call (lines 84-91) runs: an attempt that times
    out, fails to connect, or answers 408, 409, 429 or a status of 500
    or more is tried again while retries remain; any other answer ends
    the call.  When none remain, the last failure is raised as
    [APITimeoutError], [APIConnectionError] or the [APIStatusError]
    subclass of its status.  The waits between attempts and the
    [x-should-retry] and [retry-after] headers are not modelled.
    [Net] answers a [create] call with its final outcome; [create_retry]
    computes that outcome from the attempts the server sees. *)

From S2P Require Import Prelude PyStr PyObj Resolver Net Adapter.
Import PyObj Net Adapter.
Open Scope N_scope.

Module Retry.

(** One HTTP attempt as the client sees it. *)
Inductive attempt :=
| ACompleted (c : chat_completion)          (* a 2xx answer with its completion *)
| AStatus (status : Z) (body : pystr)       (* any other status, with its body text *)
| ATimeout
| AConnectError.

(** [DEFAULT_MAX_RETRIES] of openai-python, the [max_retries] of
    [OpenAI(api_key=api_key)]. *)
Definition default_max_retries : nat := 2.

(** [_should_retry] on a status. *)
Definition should_retry (status : Z) : bool :=
  ((status =? 408) || (status =? 409) || (status =? 429) || (500 <=? status))%Z.

Definition retryable (a : attempt) : bool :=
  match a with
  | ACompleted _ => false
  | AStatus s _ => should_retry s
  | ATimeout | AConnectError => true
  end.

(** [_make_status_error]: the exception class of a status. *)
Definition status_error_name (status : Z) : pystr :=
  if (status =? 400)%Z then py "BadRequestError"
  else if (status =? 401)%Z then py "AuthenticationError"
  else if (status =? 403)%Z then py "PermissionDeniedError"
  else if (status =? 404)%Z then py "NotFoundError"
  else if (status =? 409)%Z then py "ConflictError"
  else if (status =? 422)%Z then py "UnprocessableEntityError"
  else if (status =? 429)%Z then py "RateLimitError"
  else if (500 <=? status)%Z then py "InternalServerError"
  else py "APIStatusError".

(** What an attempt gives when it is the last one. *)
Definition attempt_outcome (a : attempt) : create_outcome :=
  match a with
  | ACompleted c => inr c
  | AStatus s body =>
      raise (OtherError (status_error_name s)
               (py "Error code: " ++ PyStr.str_int s ++ py " - " ++ body))
  | ATimeout => raise (OtherError (py "APITimeoutError") (py "Request timed out."))
  | AConnectError => raise (OtherError (py "APIConnectionError") (py "Connection error."))
  end.

(** The retry loop with [remaining] retries left: its outcome and the
    number of attempts it made; [None] when the attempts the
    environment provides run out. *)
Fixpoint create_retry (remaining : nat) (atts : list attempt) {struct atts}
    : option (create_outcome * nat) :=
  match atts with
  | [] => None
  | a :: rest =>
      match remaining with
      | S r =>
          if retryable a then
            match create_retry r rest with
            | Some (o, n) => Some (o, S n)
            | None => None
            end
          else Some (attempt_outcome a, 1%nat)
      | O => Some (attempt_outcome a, 1%nat)
      end
  end.

(** [chat_with_openai(client, message)] when the [create] call it makes
    sees the attempts [atts]: its value and the number of attempts. *)
Definition openai_with_retries (c : Resolver.openai_client) (message : pystr)
    (atts : list attempt) : option ((pyexc + pyval) * nat) :=
  match create_retry default_max_retries atts with
  | Some (o, n) =>
      match run_net (chat_with_openai (Some (Resolver.HClient c)) message) [] [o] with
      | Some (r, _, _, _) => Some (r, n)
      | None => None
      end
  | None => None
  end.

(** A server that is overloaded twice, then answers. *)
Definition flaky_server : list attempt :=
  [AStatus 503 (py "Service Unavailable"); ATimeout; ACompleted {| oa_choices := [Some (py "hello")] |}].

Definition key_client : Resolver.openai_client := {| Resolver.client_api_key := py "sk-1" |}.

Lemma chat_with_openai_outcome (c : Resolver.openai_client) (m : pystr) (o : create_outcome) :
  run_net (chat_with_openai (Some (Resolver.HClient c)) m) [] [o] =
    Some (openai_answer o, [CallCreate (openai_request c m)], [], []).
Proof. reflexivity. Qed.

Lemma create_retry_attempts (r : nat) (atts : list attempt) (o : create_outcome) (n : nat) :
  create_retry r atts = Some (o, n) -> (1 <= n <= S r)%nat.
Proof.
  revert r o n. induction atts as [| a rest IH]; intros r o n; [intros H; cbn in H; discriminate H |].
  destruct r as [| r]; cbn [create_retry]; [intros [= _ <-]; lia |].
  destruct (retryable a); [| intros [= _ <-]; lia].
  destruct (create_retry r rest) as [[o' n'] |] eqn:E; [| discriminate].
  intros [= _ <-]. specialize (IH r o' n' E). lia.
Qed.

Lemma create_retry_succeeds (r : nat) (fs rest : list attempt) (comp : chat_completion) :
  (length fs <= r)%nat -> forallb retryable fs = true ->
  create_retry r (fs ++ ACompleted comp :: rest) = Some (inr comp, S (length fs)).
Proof.
  revert r. induction fs as [| f fs IH]; intros r Hlen Hfs.
  - destruct r; reflexivity.
  - destruct r as [| r]; [cbn in Hlen; lia |]. cbn [forallb] in Hfs.
    apply andb_true_iff in Hfs as [Hf Hfs]. cbn [app create_retry]. rewrite Hf.
    rewrite IH by (cbn in Hlen; lia || exact Hfs). reflexivity.
Qed.

Lemma create_retry_gives_up (r : nat) (fs : list attempt) (a : attempt) (rest : list attempt) :
  length fs = r -> forallb retryable fs = true ->
  create_retry r (fs ++ a :: rest) = Some (attempt_outcome a, S r).
Proof.
  revert r. induction fs as [| f fs IH]; intros r Hlen Hfs; subst r; [reflexivity |].
  cbn [forallb] in Hfs. apply andb_true_iff in Hfs as [Hf Hfs].
  cbn [app create_retry length]. rewrite Hf, IH by (reflexivity || exact Hfs). reflexivity.
Qed.

Section Theorems.
Variables (c : Resolver.openai_client) (m : pystr).

(** C31: one message costs the server at most three attempts: the
    first and the [max_retries=2] retries of the default client. *)
Theorem openai_attempts_bound (atts : list attempt) (r : pyexc + pyval) (n : nat) :
  openai_with_retries c m atts = Some (r, n) -> (1 <= n <= 3)%nat.
Proof.
  unfold openai_with_retries.
  destruct (create_retry default_max_retries atts) as [[o n'] |] eqn:E; [| discriminate].
  rewrite chat_with_openai_outcome. intros [= _ <-].
  exact (create_retry_attempts _ _ _ _ E).
Qed.

(** C32: the OpenAI branch retries.  Up to two failures that the client
    retries (timeouts, connection errors, 408, 409, 429, 5xx) followed
    by a completion are not reported: [chat_with_openai] returns the
    completion's first choice, after one attempt more than the
    failures. *)
Theorem openai_retries_hide_failures (fs rest : list attempt) (comp : chat_completion) :
  (length fs <= 2)%nat -> forallb retryable fs = true ->
  openai_with_retries c m (fs ++ ACompleted comp :: rest) =
    Some (openai_answer (inr comp), S (length fs)).
Proof.
  intros Hlen Hfs. unfold openai_with_retries.
  rewrite create_retry_succeeds by assumption. rewrite chat_with_openai_outcome. reflexivity.
Qed.

End Theorems.

Lemma openai_attempts_bound_witness :
  openai_with_retries key_client (py "hi") flaky_server =
    Some (inr (VStr (py "hello")), 3%nat) /\ (1 <= 3 <= 3)%nat.
Proof.
  split; [vm_compute; reflexivity |].
  apply (openai_attempts_bound key_client (py "hi") flaky_server (inr (VStr (py "hello")))).
  vm_compute. reflexivity.
Defined.

Lemma openai_retries_hide_failures_witness :
  openai_with_retries key_client (py "hi") flaky_server =
    Some (openai_answer (inr {| oa_choices := [Some (py "hello")] |}), 3%nat).
Proof.
  apply (openai_retries_hide_failures key_client (py "hi")
           [AStatus 503 (py "Service Unavailable"); ATimeout] []); vm_compute; first [lia | reflexivity].
Defined.


End Retry.
