(* ===== verification/Program.v ===== *)
(** * The whole program: import time and [if __name__ == "__main__"]

    Module [Program] puts the parts together as running
    [python src/main.py] does: at import, [load_dotenv()] (line 15)
    merges the [.env] file into the environment of the shell; then the
    guard of lines 161-162 calls [main()], whose start and loop are
    those of [Repl], run for [fuel] passes. *)

From S2P Require Import Prelude PyStr PyObj Resolver Dotenv Net Adapter Repl.
Import PyObj Net Repl.
Open Scope N_scope.

Module Program.

Section Program.
Context `{PyStr.UnicodeCase}.

(** [python src/main.py] in a shell whose environment is [shell], with
    the [.env] file [dotenv], standard input [inputs] and the network
    answers [posts] and [creates]. *)
Definition program (cr : Resolver.openai_client -> pystr) (shell : Resolver.environ)
    (dotenv : option (list Dotenv.binding)) (inputs : list input_event)
    (posts : list post_outcome) (creates : list create_outcome) (fuel : nat) : option state :=
  run cr fuel (main_start (Dotenv.load_dotenv shell dotenv) inputs posts creates).

End Program.

Section Proofs.
Context `{PyStr.UnicodeCase}.

(** C35: a [DEEPSEEK_API_KEY] exported empty in the shell hides the key
    of the [.env] file, whatever the file says: with the DeepSeek
    provider, [main] prints that the variable is missing and asks for it
    in the [.env] file, then returns without reading input or calling
    the network. *)
Theorem empty_shell_key_masks_dotenv (cr : Resolver.openai_client -> pystr)
    (shell : Resolver.environ) (raw : list Dotenv.binding) ins ps cs (n : nat) :
  shell !! py "DEEPSEEK_API_KEY" = Some [] ->
  Resolver.provider_name (Dotenv.load_dotenv shell (Some raw)) = py "deepseek" ->
  Resolver.init_client (Dotenv.load_dotenv shell (Some raw)) =
    (print (py "❌ 错误：未找到DEEPSEEK_API_KEY环境变量")
     ++ print (py "请在.env文件中设置DEEPSEEK_API_KEY"), (None, None)) /\
  exists st, program cr shell (Some raw) ins ps cs n = Some st /\
    st_phase st = Returned /\ st_inputs st = ins /\ st_calls st = [].
Proof.
  intros Hk Hp.
  assert (Hinit : Resolver.init_client (Dotenv.load_dotenv shell (Some raw)) =
    (print (py "❌ 错误：未找到DEEPSEEK_API_KEY环境变量")
     ++ print (py "请在.env文件中设置DEEPSEEK_API_KEY"), (None, None))).
  { unfold Resolver.init_client. rewrite Hp, bool_decide_eq_true_2 by reflexivity.
    unfold Resolver.getenv. cbn [Dotenv.load_dotenv].
    rewrite (Dotenv.set_env_keep _ _ _ _ Hk). reflexivity. }
  split; [exact Hinit |]. unfold program, main_start. rewrite Hinit. cbn.
  eexists; split; [destruct n; reflexivity | split_and!; reflexivity].
Qed.

End Proofs.

Lemma empty_shell_key_masks_dotenv_witness :
  exists st, program no_repr Dotenv.shell_empty_key (Some Dotenv.dotenv_key) [] [] [] 3 = Some st /\
    st_phase st = Returned /\ st_inputs st = [] /\ st_calls st = [].
Proof.
  apply (@empty_shell_key_masks_dotenv PyStr.ucd_sample no_repr Dotenv.shell_empty_key
           Dotenv.dotenv_key [] [] [] 3); vm_compute; reflexivity.
Defined.

End Program.
